(** * Mobility / handover simulation loops of the mininet-eval scripts

    Shallow embedding of the link-quality and handover logic of
    [q6/script.py], [q7/script.py], [q8/script.py], [q10/script.py] and
    [q11/script.py].

    Numbers.  The scripts compute with Python floats.  The embedding reads
    every arithmetic expression over the exact rationals [Q]; comparisons,
    [max], [min] and [abs] are the Python ones.  Integer loop counters are [Z].
    Module [Binary64] repeats the formulas that feed a comparison over IEEE
    754 doubles, and the last section checks that on every step of the runs
    the doubles take the branch the rationals take.

    Effects.  Every loop is a fold of its body over [range(..)], threading an
    explicit state record; [info(..)] and file writes become log lists; what
    the outside world answers (ping output, the wall clock, whether a [tc]
    call raises, what [ip route show] prints) is an environment record the
    loop is parameterised over. *)

From Stdlib Require Import QArith Qabs Lqa ZArith List Bool String Lia.
From Stdlib Require Import Uint63 PrimFloat.
From Stdlib Require Import Ascii DecimalString Sorted.
Import ListNotations.

Open Scope Q_scope.

(** ** Python primitives *)

(** [a < b] and [a > b] on numbers, as booleans. *)
Definition Qltb (a b : Q) : bool := negb (Qle_bool b a).
Definition Qgtb (a b : Q) : bool := Qltb b a.

(** [max(a, b)]: the first argument is kept unless the second is greater. *)
Definition py_max (a b : Q) : Q := if Qgtb b a then b else a.

(** [min(a, b)]: the first argument is kept unless the second is smaller. *)
Definition py_min (a b : Q) : Q := if Qltb b a then b else a.

(** [range(lo, hi)]. *)
Definition range (lo hi : Z) : list Z :=
  map (fun i => (lo + Z.of_nat i)%Z) (seq 0 (Z.to_nat (hi - lo))).

(** [needle in haystack] on strings. *)
Definition py_in (needle haystack : string) : bool :=
  match String.index 0 needle haystack with
  | Some _ => true
  | None => false
  end.

(** Truth value of a string: non-empty. *)
Definition truthy (s : string) : bool := negb (String.eqb s EmptyString).

(** [clamp(p, 0, 1) = min(1, max(0, p))], the clamp the specification
    speaks of (no script defines it). *)
Definition clamp01 (p : Q) : Q := py_min 1 (py_max 0 p).

(** A link's shaping parameters: [rate bw Mbit delay <delay>ms loss <loss>%]. *)
Record link_quality : Set := mkLink { bw : Q; delay : Q; loss : Q }.

Definition link_eq (a b : link_quality) : Prop :=
  bw a == bw b /\ delay a == delay b /\ loss a == loss b.

(** ** q6: [adjust_link_quality] *)
Module Q6.

(** Lines written to [/tmp/ping_output.txt] after the header.  The RTT and
    loss fields of a ping line come from the external [ping] and are not
    part of the model. *)
Inductive file_line : Set :=
| HandoverTo (step : Z) (position : Q) (to_ap : Z)
| PingLine (step : Z) (position : Q) (connected_ap : Z).

Record state : Set := mkState {
  current_link : Z;          (* 1 = connected to ap1, 2 = connected to ap2 *)
  default_route : Z;         (* which AP the default route goes through *)
  tc : list (link_quality * link_quality);  (* netem parameters pushed per step *)
  f : list file_line
}.

Definition position_of (step step_count : Z) : Q :=
  inject_Z step / inject_Z step_count.

Definition ap1_new (position : Q) : link_quality :=
  {| bw := py_max 1 (20 - position * 19);
     delay := 1 + position * 19;
     loss := py_min 99 (position * 50) |}.

Definition ap2_new (position : Q) : link_quality :=
  {| bw := py_max 1 (1 + position * 19);
     delay := 20 - position * 19;
     loss := py_min 99 (50 - position * 50) |}.

Definition should_use_ap2 (position : Q) : bool :=
  Qgtb (bw (ap2_new position)) (bw (ap1_new position))
  && Qltb (loss (ap2_new position)) (loss (ap1_new position)).

(** One iteration of [for step in range(step_count + 1)]. *)
Definition loop_body (step_count : Z) (st : state) (step : Z) : state :=
  let position := position_of step step_count in
  let pushed := tc st ++ [(ap1_new position, ap2_new position)] in
  let st1 :=
    if should_use_ap2 position && (current_link st =? 1)%Z then
      {| current_link := 2; default_route := 2; tc := pushed;
         f := f st ++ [HandoverTo step position 2] |}
    else if negb (should_use_ap2 position) && (current_link st =? 2)%Z then
      {| current_link := 1; default_route := 1; tc := pushed;
         f := f st ++ [HandoverTo step position 1] |}
    else
      {| current_link := current_link st; default_route := default_route st;
         tc := pushed; f := f st |} in
  {| current_link := current_link st1; default_route := default_route st1;
     tc := tc st1;
     f := f st1 ++ [PingLine step position (if (current_link st1 =? 1)%Z then 1 else 2)%Z] |}.

(** The links as created: AP1 at 20 Mbit, 1 ms, 0.1 %; AP2 at 1 Mbit, 20 ms,
    50 %; default route via AP1. *)
Definition initial : state :=
  {| current_link := 1; default_route := 1;
     tc := [(mkLink 20 1 0.1, mkLink 1 20 50)]; f := [] |}.

(** [adjust_link_quality(net, sta, ap1, ap2, step_count)]; [None] is the
    [ZeroDivisionError] of [step / step_count] for [step_count = 0]. *)
Definition adjust_link_quality (step_count : Z) : option state :=
  if (step_count =? 0)%Z then None
  else Some (fold_left (loop_body step_count) (range 0 (step_count + 1)) initial).

Definition is_handover (l : file_line) : bool :=
  match l with HandoverTo _ _ _ => true | PingLine _ _ _ => false end.

Definition handover_events (st : state) : list file_line :=
  filter is_handover (f st).

End Q6.

(** ** q7 and q8: [simulate_mobility] *)
Module Q78.

(** What the outside world contributes. *)
Record env : Type := mkEnv {
  ap1_IP : string;                          (* ap1.IP() *)
  ap2_IP : string;                          (* ap2.IP() *)
  ip_route_show : option string -> string;  (* output of `ip route show default`
                                               for a given default gateway *)
  clock : Z -> Q                            (* time.time() - start_time at a step *)
}.

Record state : Type := mkState {
  default_via : option string;              (* gateway of the default route *)
  tc : list (link_quality * link_quality);  (* netem parameters pushed per step *)
  handover_events : list (Q * Q);           (* elapsed | position | Handover from AP1 to AP2 *)
  monitor_events : list Q                   (* monitor.record_event(position, ..) *)
}.

Definition ap1_link (position : Q) : link_quality :=
  {| bw := py_max 1 (20 - position * 19);
     delay := 2 + position * 18;
     loss := py_min 80 (position * 50) |}.

Definition ap2_link (position : Q) : link_quality :=
  {| bw := py_max 1 (1 + position * 19);
     delay := 20 - position * 18;
     loss := py_min 80 (50 - position * 50) |}.

Definition quality_model (position : Q) : link_quality * link_quality :=
  (ap1_link position, ap2_link position).

(** "The default route goes via AP1", as the script tests it: the output of
    [ip route show default] is non-empty and mentions [ap1.IP()]. *)
Definition route_via_ap1 (e : env) (st : state) : bool :=
  truthy (ip_route_show e (default_via st))
  && py_in (ap1_IP e) (ip_route_show e (default_via st)).

(** The test of the [if] that performs the handover. *)
Definition handover_needed (e : env) (position : Q) (st : state) : bool :=
  Qgtb position 0.5 && route_via_ap1 e st.

(** One iteration of [for step in range(duration + 1)], over an arbitrary
    quality model [qm]; [monitor] tells whether a monitor object was passed
    (q7 has none). *)
Definition loop_body_with (qm : Q -> link_quality * link_quality)
    (e : env) (monitor : bool) (duration : Z) (st : state) (step : Z) : state :=
  let position := inject_Z step / inject_Z duration in
  let st1 := {| default_via := default_via st;
                tc := tc st ++ [qm position];
                handover_events := handover_events st;
                monitor_events := monitor_events st |} in
  if handover_needed e position st1 then
    {| default_via := Some (ap2_IP e);
       tc := tc st1;
       handover_events := handover_events st1 ++ [(clock e step, position)];
       monitor_events := if monitor then monitor_events st1 ++ [position]
                         else monitor_events st1 |}
  else st1.

(** "Set initial link qualities - start near AP1, far from AP2", and the
    initial default route via AP1. *)
Definition initial (e : env) : state :=
  {| default_via := Some (ap1_IP e);
     tc := [(mkLink 20 2 1, mkLink 1 20 50)];
     handover_events := []; monitor_events := [] |}.

(** The loop sits inside [try: .. except Exception]: for [duration = 0] the
    first division raises and the loop ends at once. *)
Definition simulate_mobility_with (qm : Q -> link_quality * link_quality)
    (e : env) (monitor : bool) (duration : Z) : state :=
  if (duration =? 0)%Z then initial e
  else fold_left (loop_body_with qm e monitor duration)
                 (range 0 (duration + 1)) (initial e).

Definition simulate_mobility : env -> bool -> Z -> state :=
  simulate_mobility_with quality_model.

End Q78.

(** ** q10: [topology], degrading AP1 until the station hands over to AP2 *)
Module Q10.

(** One numeric field of the [ping -q] summary: the marker text may be
    absent, or [float(..)] of the extracted text may raise. *)
Inductive field : Set :=
| Absent
| Number (x : Q)
| Malformed.

Record ping_result : Set := mkPing {
  packet_loss_field : field;   (* text before '% packet loss' *)
  avg_latency_field : field    (* avg of 'min/avg/max' *)
}.

Record env : Type := mkEnv {
  route_info : string;           (* output of `ip route get 10.0.0.100` *)
  tc_ok : Z -> bool;             (* does updating link1 at this step succeed *)
  ping_ap1 : Z -> ping_result;   (* ping through AP1 at a step (0 = initial) *)
  ping_ap2 : Z -> ping_result;   (* ping through AP2 at a step *)
  clock : Z -> Q                 (* time.time() - start_time at a step *)
}.

Inductive log_line : Set :=
| Reduced (delay loss : Z)       (* Reduced quality of link to AP1 - delay, loss *)
| HandoverMsg                    (* *** Handover: Switching from AP1 to AP2 *)
| Qualities (ap1_qual ap2_qual : Q)
| RoutedVia (ap : string)
| ErrorInStep (step : Z).

Record state : Set := mkState {
  step : Z;                      (* the loop variable *)
  current_ap : string;
  handover_occurred : bool;
  handover_time : Q;
  handover_step : Z;
  route_dev : string;            (* device of the default route *)
  times : list Q;
  ap1_quality : list Q;
  ap2_quality : list Q;
  connected_ap : list string;
  log : list log_line
}.

Definition get_current_ap (e : env) : string :=
  if py_in "dev sta1-eth0" (route_info e) then "s1"
  else if py_in "dev sta1-eth1" (route_info e) then "s2"
  else "None".

Definition check_connection_quality (result : ping_result) : Q :=
  match packet_loss_field result, avg_latency_field result with
  | Malformed, _ | _, Malformed => 0          (* except: return 0 *)
  | pl, al =>
      let packet_loss := match pl with Number x => x | _ => 100 end in
      let avg_latency := match al with Number x => x | _ => 1000 end in
      py_max 0 (100 - (avg_latency / 5) - packet_loss)
  end.

Definition info (l : log_line) (st : state) : state :=
  mkState (step st) (current_ap st) (handover_occurred st) (handover_time st)
          (handover_step st) (route_dev st) (times st) (ap1_quality st)
          (ap2_quality st) (connected_ap st) (log st ++ [l]).

Definition set_step (s : Z) (st : state) : state :=
  mkState s (current_ap st) (handover_occurred st) (handover_time st)
          (handover_step st) (route_dev st) (times st) (ap1_quality st)
          (ap2_quality st) (connected_ap st) (log st).

Definition set_route (dev : string) (st : state) : state :=
  mkState (step st) (current_ap st) (handover_occurred st) (handover_time st)
          (handover_step st) dev (times st) (ap1_quality st)
          (ap2_quality st) (connected_ap st) (log st).

Definition set_current_ap (ap : string) (st : state) : state :=
  mkState (step st) ap (handover_occurred st) (handover_time st)
          (handover_step st) (route_dev st) (times st) (ap1_quality st)
          (ap2_quality st) (connected_ap st) (log st).

Definition mark_handover (elapsed : Q) (s : Z) (st : state) : state :=
  mkState (step st) (current_ap st) true elapsed s (route_dev st) (times st)
          (ap1_quality st) (ap2_quality st) (connected_ap st) (log st).

Definition store (elapsed ap1_qual ap2_qual : Q) (st : state) : state :=
  mkState (step st) (current_ap st) (handover_occurred st) (handover_time st)
          (handover_step st) (route_dev st) (times st ++ [elapsed])
          (ap1_quality st ++ [ap1_qual]) (ap2_quality st ++ [ap2_qual])
          (connected_ap st ++ [current_ap st]) (log st).

(** "Decide which AP to use based on quality": the [if]/[else] of lines
    173-195, entered with the default route temporarily on sta1-eth1. *)
Definition decide (elapsed : Q) (s : Z) (ap1_qual ap2_qual : Q) (st : state) : state :=
  if Qltb ap1_qual (ap2_qual - 15) then
    if String.eqb (current_ap st) "s1" then
      let st1 := set_current_ap "s2" (info HandoverMsg st) in
      if negb (handover_occurred st1) then mark_handover elapsed s st1 else st1
    else st
  else
    if String.eqb (current_ap st) "s2" then st
    else set_route "sta1-eth0" st.

(** One iteration of [for step in range(1, 21)]; the boolean is [break]. *)
Definition loop_body (e : env) (st : state) (s : Z) : state * bool :=
  let st0 := set_step s st in
  let elapsed := clock e s in
  let delay := (5 + s * 5)%Z in
  let loss := s in
  if tc_ok e s then
    let st1 := info (Reduced delay loss) st0 in
    let ap1_qual := check_connection_quality (ping_ap1 e s) in
    let st2 := set_route "sta1-eth1" st1 in
    let ap2_qual := check_connection_quality (ping_ap2 e s) in
    let st3 := decide elapsed s ap1_qual ap2_qual st2 in
    let st4 := store elapsed ap1_qual ap2_qual st3 in
    let st5 := info (RoutedVia (current_ap st4)) (info (Qualities ap1_qual ap2_qual) st4) in
    (st5, handover_occurred st5 && (s >? handover_step st5 + 5)%Z)
  else
    (info (ErrorInStep s) st0, false).

Fixpoint for_loop (e : env) (steps : list Z) (st : state) : state :=
  match steps with
  | [] => st
  | s :: rest =>
      let (st', brk) := loop_body e st s in
      if brk then st' else for_loop e rest st'
  end.

Definition initial (e : env) : state :=
  let current_ap := get_current_ap e in
  let ap1_qual := check_connection_quality (ping_ap1 e 0) in
  let ap2_qual := check_connection_quality (ping_ap2 e 0) in
  {| step := 0; current_ap := current_ap;
     handover_occurred := false; handover_time := 0; handover_step := 0;
     route_dev := "sta1-eth0";
     times := [0]; ap1_quality := [ap1_qual]; ap2_quality := [ap2_qual];
     connected_ap := [current_ap];
     log := [Qualities ap1_qual ap2_qual; RoutedVia current_ap] |}.

(** The simulation part of [topology()]. *)
Definition topology (e : env) : state :=
  for_loop e (range 1 21) (initial e).

(** Steps whose body was entered, read off the log: a step either reports
    the reduced link ([loss] is the step) or its error. *)
Definition step_of_line (l : log_line) : list Z :=
  match l with
  | Reduced _ loss => [loss]
  | ErrorInStep s => [s]
  | _ => []
  end.

Definition steps_run (st : state) : list Z := flat_map step_of_line (log st).

End Q10.

(** ** q11: [topology], a station moving past three access points *)
Module Q11.

Definition total_steps : Z := 30.

Inductive log_line : Set :=
| Position (p : Q)                         (* Position: .. *)
| ErrorUpdating                            (* Error updating link parameters: .. *)
| Handover (p : Q) (from_ap to_ap : Z)     (* *** HANDOVER at position ..: AP.. -> AP.. *)
| Using (ap : Z) (quality : Q)             (* Using AP.. (quality: ..%) *)
| LinkQualities (q1 q2 q3 : Q).

Record state : Set := mkState {
  current_position : Q;
  current_ap : Z;
  handover_positions : list (Q * Z * Z);
  route : Z;                               (* AP of the default route *)
  log : list log_line
}.

Definition position_of (step : Z) : Q :=
  inject_Z step * (140 / inject_Z total_steps).

(** The per-AP formulas of lines 132-144, as functions of the distance. *)
Definition dist_to (ap_position current_position : Q) : Q :=
  Qabs (current_position - ap_position).
Definition delay_at (dist : Q) : Q := py_max 5 (py_min 100 (5 + dist)).
Definition loss_at (dist : Q) : Q := py_max 0 (py_min 20 (dist / 5)).

(** "Calculate link qualities (higher is better)". *)
Definition quality (delay loss : Q) : Q := 100 - delay - loss * 5.

Definition ap_quality (ap_position current_position : Q) : Q :=
  let dist := dist_to ap_position current_position in
  quality (delay_at dist) (loss_at dist).

(** "Only switch if another AP is significantly better (hysteresis)". *)
Definition select_best (current_ap : Z) (ap1_quality ap2_quality ap3_quality : Q) : Z :=
  if (current_ap =? 1)%Z then
    if Qgtb ap2_quality (ap1_quality + 15) then 2%Z
    else if Qgtb ap3_quality (ap1_quality + 15) then 3%Z
    else current_ap
  else if (current_ap =? 2)%Z then
    if Qgtb ap1_quality (ap2_quality + 15) then 1%Z
    else if Qgtb ap3_quality (ap2_quality + 15) then 3%Z
    else current_ap
  else if (current_ap =? 3)%Z then
    if Qgtb ap1_quality (ap3_quality + 15) then 1%Z
    else if Qgtb ap2_quality (ap3_quality + 15) then 2%Z
    else current_ap
  else current_ap.

Definition info (l : log_line) (st : state) : state :=
  mkState (current_position st) (current_ap st) (handover_positions st)
          (route st) (log st ++ [l]).

(** Lines 170-194: choose [best_ap], log the handover if there is one. *)
Definition handover_decision (ap1_quality ap2_quality ap3_quality : Q)
    (st : state) : state :=
  let best_ap := select_best (current_ap st) ap1_quality ap2_quality ap3_quality in
  if negb (best_ap =? current_ap st)%Z then
    {| current_position := current_position st;
       current_ap := best_ap;
       handover_positions :=
         handover_positions st ++ [(current_position st, current_ap st, best_ap)];
       route := route st;
       log := log st ++ [Handover (current_position st) (current_ap st) best_ap] |}
  else st.

(** Lines 196-208: "Update routing based on best AP". *)
Definition update_routing (ap1_quality ap2_quality ap3_quality : Q)
    (st : state) : state :=
  let best_ap := current_ap st in
  let (r, q) := if (best_ap =? 1)%Z then (1%Z, ap1_quality)
                else if (best_ap =? 2)%Z then (2%Z, ap2_quality)
                else (3%Z, ap3_quality) in
  {| current_position := current_position st;
     current_ap := current_ap st;
     handover_positions := handover_positions st;
     route := r;
     log := log st ++ [Using r q] |}.

(** One iteration of [for step in range(1, total_steps + 1)]; [tc_ok step]
    tells whether the three [tc qdisc replace] calls go through. *)
Definition loop_body (tc_ok : Z -> bool) (st : state) (step : Z) : state :=
  let p := position_of step in
  let st1 := info (Position p)
               (mkState p (current_ap st) (handover_positions st) (route st) (log st)) in
  let st2 := if tc_ok step then st1 else info ErrorUpdating st1 in
  let ap1_quality := ap_quality 20 p in
  let ap2_quality := ap_quality 70 p in
  let ap3_quality := ap_quality 120 p in
  let st3 := handover_decision ap1_quality ap2_quality ap3_quality st2 in
  let st4 := update_routing ap1_quality ap2_quality ap3_quality st3 in
  info (LinkQualities ap1_quality ap2_quality ap3_quality) st4.

Definition initial : state :=
  {| current_position := 0; current_ap := 1; handover_positions := [];
     route := 1; log := [] |}.

(** The state after the first [n] iterations. *)
Definition run (tc_ok : Z -> bool) (n : Z) : state :=
  fold_left (loop_body tc_ok) (range 1 (n + 1)) initial.

(** The simulation part of [topology()]. *)
Definition topology (tc_ok : Z -> bool) : state := run tc_ok total_steps.

Definition positions_logged (st : state) : list Q :=
  flat_map (fun l => match l with Position p => [p] | _ => [] end) (log st).

Definition is_error (l : log_line) : bool :=
  match l with ErrorUpdating => true | _ => false end.

Definition without_errors (l : list log_line) : list log_line :=
  filter (fun x => negb (is_error x)) l.

(** Everything of the state but the log. *)
Definition core (st : state) : Q * Z * list (Q * Z * Z) * Z :=
  (current_position st, current_ap st, handover_positions st, route st).

(** Running the decision once more at step [n], on the state the loop has
    reached after step [n]: does the choice stay with the active AP. *)
Definition rerun_keeps_ap (n : Z) : bool :=
  let st := run (fun _ => true) n in
  let p := position_of n in
  (select_best (current_ap st) (ap_quality 20 p) (ap_quality 70 p) (ap_quality 120 p)
   =? current_ap st)%Z.

End Q11.

Definition always_ok (_ : Z) : bool := true.

(** ** q6: the handover test along the 20-step run

    q6 computes no score and applies no margin: it hands over on
    [should_use_ap2].  Step by step: does the test hold exactly from step 11
    on. *)
Definition q6_step_check (step : Z) : bool :=
  Bool.eqb (Q6.should_use_ap2 (Q6.position_of step 20)) (11 <=? step)%Z.

(** By how much the three parameters of the two links differ, in favour of
    AP2, at a position. *)
Definition q6_bw_advantage (position : Q) : Q :=
  bw (Q6.ap2_new position) - bw (Q6.ap1_new position).
Definition q6_delay_advantage (position : Q) : Q :=
  delay (Q6.ap1_new position) - delay (Q6.ap2_new position).
Definition q6_loss_advantage (position : Q) : Q :=
  loss (Q6.ap1_new position) - loss (Q6.ap2_new position).

(** ** The deciding formulas over IEEE 754 doubles *)
Module Binary64.

Definition of_Z (z : Z) : float := PrimFloat.of_uint63 (Uint63.of_Z z).

Definition gtb (a b : float) : bool := PrimFloat.ltb b a.
Definition py_max (a b : float) : float := if gtb b a then b else a.
Definition py_min (a b : float) : float := if PrimFloat.ltb b a then b else a.

(** q6: [position], and [should_use_ap2] from the four values it compares. *)
Definition q6_position (step step_count : Z) : float :=
  (of_Z step / of_Z step_count)%float.

Definition q6_should_use_ap2 (position : float) : bool :=
  let ap1_new_bw := py_max 1 (20 - position * 19)%float in
  let ap1_new_loss := py_min 99 (position * 50)%float in
  let ap2_new_bw := py_max 1 (1 + position * 19)%float in
  let ap2_new_loss := py_min 99 (50 - position * 50)%float in
  gtb ap2_new_bw ap1_new_bw && PrimFloat.ltb ap2_new_loss ap1_new_loss.

(** q7, q8: [position > 0.5]. *)
Definition q78_past_midpoint (step duration : Z) : bool :=
  gtb (of_Z step / of_Z duration)%float 0.5.

(** q11: position, per-AP quality and the choice of [best_ap]. *)
Definition q11_position (step : Z) : float :=
  (of_Z step * (140 / of_Z 30))%float.

Definition q11_ap_quality (ap_position current_position : float) : float :=
  let dist := PrimFloat.abs (current_position - ap_position)%float in
  let delay := py_max 5 (py_min 100 (5 + dist)%float) in
  let loss := py_max 0 (py_min 20 (dist / 5)%float) in
  (100 - delay - loss * 5)%float.

Definition q11_select_best (current_ap : Z) (ap1_quality ap2_quality ap3_quality : float) : Z :=
  if (current_ap =? 1)%Z then
    if gtb ap2_quality (ap1_quality + 15)%float then 2%Z
    else if gtb ap3_quality (ap1_quality + 15)%float then 3%Z
    else current_ap
  else if (current_ap =? 2)%Z then
    if gtb ap1_quality (ap2_quality + 15)%float then 1%Z
    else if gtb ap3_quality (ap2_quality + 15)%float then 3%Z
    else current_ap
  else if (current_ap =? 3)%Z then
    if gtb ap1_quality (ap3_quality + 15)%float then 1%Z
    else if gtb ap2_quality (ap3_quality + 15)%float then 2%Z
    else current_ap
  else current_ap.

(** Step by step: do doubles and rationals decide alike. *)
Definition q6_agrees (step : Z) : bool :=
  Bool.eqb (q6_should_use_ap2 (q6_position step 20))
           (Q6.should_use_ap2 (Q6.position_of step 20)).

Definition q78_agrees (step : Z) : bool :=
  Bool.eqb (q78_past_midpoint step 20) (Qgtb (inject_Z step / inject_Z 20) 0.5).

Definition q11_agrees (step : Z) : bool :=
  forallb
    (fun current_ap =>
       (q11_select_best current_ap
          (q11_ap_quality 20 (q11_position step))
          (q11_ap_quality 70 (q11_position step))
          (q11_ap_quality 120 (q11_position step))
        =? Q11.select_best current_ap
             (Q11.ap_quality 20 (Q11.position_of step))
             (Q11.ap_quality 70 (Q11.position_of step))
             (Q11.ap_quality 120 (Q11.position_of step)))%Z)
    [1%Z; 2%Z; 3%Z].

End Binary64.

(** ** Sample environments *)

(** q10 with pings that follow the shaping: AP1's link has the step's delay
    and loss, AP2's link keeps 15 ms and 1 %; no [tc] call fails. *)
Definition q10_degrading : Q10.env :=
  {| Q10.route_info := "10.0.0.100 dev sta1-eth0 src 10.0.0.10";
     Q10.tc_ok := always_ok;
     Q10.ping_ap1 := fun s =>
       Q10.mkPing (Q10.Number (inject_Z s)) (Q10.Number (inject_Z (5 + s * 5)));
     Q10.ping_ap2 := fun _ => Q10.mkPing (Q10.Number 1) (Q10.Number 15);
     Q10.clock := fun s => inject_Z (3 * s) |}.

(** The same, with the [tc] call of step [bad] raising. *)
Definition q10_degrading_failing (bad : Z) : Q10.env :=
  {| Q10.route_info := Q10.route_info q10_degrading;
     Q10.tc_ok := fun s => negb (s =? bad)%Z;
     Q10.ping_ap1 := Q10.ping_ap1 q10_degrading;
     Q10.ping_ap2 := Q10.ping_ap2 q10_degrading;
     Q10.clock := Q10.clock q10_degrading |}.

Definition q10_degrading_fail12 : Q10.env := q10_degrading_failing 12.

(** q7/q8 with two access points whose addresses differ. *)
Definition q78_sample : Q78.env :=
  {| Q78.ap1_IP := "10.0.1.1";
     Q78.ap2_IP := "10.0.2.1";
     Q78.ip_route_show := fun r =>
       match r with
       | None => EmptyString
       | Some gw => ("default via " ++ gw ++ " dev sta1-eth0")%string
       end;
     Q78.clock := fun s => inject_Z s |}.

(** q11 with the [tc] calls of step 11 raising. *)
Definition q11_fail11 (s : Z) : bool := negb (s =? 11)%Z.

(** ** Readings of the models used in further properties *)

(** The quality of access point [ap] among the three of q11 (the value the
    script prints after "Using AP.."). *)
Definition q11_quality_of (ap : Z) (ap1_quality ap2_quality ap3_quality : Q) : Q :=
  if (ap =? 1)%Z then ap1_quality
  else if (ap =? 2)%Z then ap2_quality
  else ap3_quality.

(** q10: the two qualities measured at a step, and the test of line 173 on
    them. *)
Definition q10_ap1_qual (e : Q10.env) (s : Z) : Q :=
  Q10.check_connection_quality (Q10.ping_ap1 e s).
Definition q10_ap2_qual (e : Q10.env) (s : Z) : Q :=
  Q10.check_connection_quality (Q10.ping_ap2 e s).
Definition q10_margin_test (e : Q10.env) (s : Z) : bool :=
  Qltb (q10_ap1_qual e s) (q10_ap2_qual e s - 15).

(** q10, "Show handover summary": [ap1_quality[handover_step]] and
    [ap2_quality[handover_step]]; [None] is the [IndexError]. *)
Definition q10_summary (st : Q10.state) : option (Q * Q) :=
  match nth_error (Q10.ap1_quality st) (Z.to_nat (Q10.handover_step st)),
        nth_error (Q10.ap2_quality st) (Z.to_nat (Q10.handover_step st)) with
  | Some q1, Some q2 => Some (q1, q2)
  | _, _ => None
  end.

(** Parameters within the ranges the comments of the linear model give:
    bandwidth 1..20 Mbit, delay [dmin]..20 ms, loss 0..50 %. *)
Definition link_in_range (dmin : Q) (l : link_quality) : Prop :=
  (1 <= bw l /\ bw l <= 20) /\ (dmin <= delay l /\ delay l <= 20)
  /\ (0 <= loss l /\ loss l <= 50).

(** q10: no successful step before [a] passes the margin test; [h] is the
    first successful step that passes it. *)
Definition q10_no_handover_before (e : Q10.env) (a : Z) : Prop :=
  forall s : Z, (1 <= s < a)%Z -> Q10.tc_ok e s = true -> q10_margin_test e s = false.

Definition q10_first_handover_at (e : Q10.env) (h : Z) : Prop :=
  (1 <= h)%Z /\ Q10.tc_ok e h = true /\ q10_margin_test e h = true
  /\ q10_no_handover_before e h.

(** q10 with AP1 good until step 19 and bad at step 20, and the link update
    of step 3 raising. *)
Definition q10_late_handover_fail3 : Q10.env :=
  {| Q10.route_info := "10.0.0.100 dev sta1-eth0 src 10.0.0.10";
     Q10.tc_ok := fun s => negb (s =? 3)%Z;
     Q10.ping_ap1 := fun s =>
       if (s <? 20)%Z then Q10.mkPing (Q10.Number 0) (Q10.Number 5)
       else Q10.mkPing (Q10.Number 50) (Q10.Number 100);
     Q10.ping_ap2 := fun _ => Q10.mkPing (Q10.Number 1) (Q10.Number 15);
     Q10.clock := fun s => inject_Z (3 * s) |}.

(** Both links of one [tc] update within these ranges. *)
Definition update_in_range (dmin : Q) (u : link_quality * link_quality) : Prop :=
  link_in_range dmin (fst u) /\ link_in_range dmin (snd u).

(** ** q8: the throughput monitor's fallback and the synthetic data file *)
Module Q8.

(** [_monitor_loop], lines 117-141: the position assumed for an elapsed time
    and the throughput made up for it when no iperf figure can be read. *)
Definition position_at (elapsed : Q) : Q := py_min 1 (elapsed / 20).

Definition synthetic_throughput (position : Q) : Q :=
  let base_throughput := 20 in
  if Qltb position 0.4 then base_throughput * (1 - position / 2)
  else if Qltb position 0.6 then base_throughput * 0.2
  else base_throughput * (position / 2).

(** One data row of [generate_synthetic_throughput_data], lines 184-208, as
    (time_point, throughput, position); [noise] stands for
    [np.random.normal(0, 1)].  The rounding of the [:.2f] formats is not
    modelled. *)
Definition synthetic_row (noise : Q) (i : Z) : Q * Q * Q :=
  let time_point := inject_Z i / 10 in
  let position := py_min 1 (time_point / 20) in
  let throughput :=
    if Qltb position 0.4 then 20 - (position * 20)
    else if Qltb position 0.6 then 2
    else (position - 0.6) * 25 in
  let throughput := py_max 0.1 (throughput + noise) in
  (time_point, throughput, position).

(** The rows of the file: 400 samples, then the handover event at 10 s. *)
Definition generate_synthetic_throughput_data (noise : Z -> Q) : list (Q * Q * Q) :=
  map (fun i => synthetic_row (noise i) i) (range 0 400) ++ [(10, 0, 0.5)].

End Q8.

(** ** q7: the synthetic ping data *)
Module Q7.

(** [generate_synthetic_ping_data], lines 39-62; [jitter] stands for
    [random.uniform(-5, 5)]. *)
Definition position_of (i num_pings : Z) : Q := inject_Z i / inject_Z num_pings.

Definition loss_probability (position : Q) : Q :=
  if Qltb 0.48 position && Qltb position 0.55 then 0.8 else 0.01.

Definition ping_time (position jitter : Q) : Q :=
  let base_ping := 20 in
  let position_factor := 4 * (position - 0.5) ^ 2 in
  let distance_penalty := 180 * (1 - position_factor) in
  base_ping + distance_penalty + jitter.

(** *** The lines of the ping file *)

(** [str(n)] for an integer. *)
Definition str (n : Z) : string := NilZero.string_of_int (Z.to_int n).

(** The two kinds of line written in the loop, lines 65-69; [time] is the
    text of [{:.3f}]. *)
Definition reply_line (seq : Z) (time : string) : string :=
  ("64 bytes from 10.0.0.2: icmp_seq=" ++ str seq ++ " ttl=64 time=" ++ time ++ " ms")%string.

Definition unreachable_line (seq : Z) : string :=
  ("From 10.0.0.1 icmp_seq=" ++ str seq ++ " Destination Host Unreachable")%string.

(** What formatting a number gives: digits, a point, a sign. *)
Definition numeric_char (c : ascii) : bool :=
  existsb (Ascii.eqb c) (list_ascii_of_string "0123456789.-").

Definition numeric (s : string) : bool :=
  negb (String.eqb s EmptyString) && forallb numeric_char (list_ascii_of_string s).

(** The file as [content.split('\n')] sees it.  [lost i] is the outcome of
    [random.random() < loss_probability] for ping [i], [time i] the text of
    its ping time, [delivered] and [pct] the texts of the two computed
    numbers of the summary. *)
Definition generate_synthetic_ping_data (num_pings : Z) (lost : Z -> bool)
    (time : Z -> string) (delivered pct : string) : list string :=
  ["PING synthetic.data (10.0.0.2): 56 data bytes"%string]
  ++ map (fun i => if lost i then unreachable_line (i + 1)
                   else reply_line (i + 1) (time i))
         (range 0 num_pings)
  ++ [""%string;
      "--- 10.0.0.2 ping statistics ---"%string;
      (str num_pings ++ " packets transmitted, " ++ delivered ++ " received, "
       ++ pct ++ "% packet loss")%string;
      "rtt min/avg/max/mdev = 15.323/45.832/198.521/32.421 ms"%string;
      ""%string].

(** *** [analyze_results]: reading the ping file, lines 103-180 *)

(** [s[n:]]. *)
Fixpoint drop (n : nat) (s : string) : string :=
  match n, s with
  | O, _ => s
  | S n', String _ s' => drop n' s'
  | S _, EmptyString => EmptyString
  end.

(** The text after the first occurrence of [sep], if there is one. *)
Fixpoint after_first (sep s : string) : option string :=
  if String.prefix sep s then Some (drop (String.length sep) s)
  else match s with
       | EmptyString => None
       | String _ s' => after_first sep s'
       end.

(** The text before the first occurrence of [sep]; all of it if there is none. *)
Fixpoint before_first (sep s : string) : string :=
  if String.prefix sep s then EmptyString
  else match s with
       | EmptyString => EmptyString
       | String c s' => String c (before_first sep s')
       end.

(** [s.split(sep)[1]], for a non-empty [sep]; [None] when there is one part. *)
Definition split_part1 (sep s : string) : option string :=
  option_map (before_first sep) (after_first sep s).

(** ASCII white space, what [str.split()] splits at. *)
Definition is_space (c : ascii) : bool :=
  let n := nat_of_ascii c in
  ((n =? 32) || ((9 <=? n) && (n <=? 13)) || ((28 <=? n) && (n <=? 31)))%nat.

Fixpoint lstrip (s : string) : string :=
  match s with
  | String c s' => if is_space c then lstrip s' else s
  | EmptyString => EmptyString
  end.

Fixpoint take_word (s : string) : string :=
  match s with
  | String c s' => if is_space c then EmptyString else String c (take_word s')
  | EmptyString => EmptyString
  end.

(** [s.split()[0]]; [None] is the IndexError of an all-blank [s]. *)
Definition first_word (s : string) : option string :=
  match lstrip s with
  | EmptyString => None
  | w => Some (take_word w)
  end.

(** [s.replace('ms', '')]. *)
Fixpoint remove_ms (s : string) : string :=
  match s with
  | String "m" (String "s" r) => remove_ms r
  | String c r => String c (remove_ms r)
  | EmptyString => EmptyString
  end.

Record state : Set := mkState {
  ping_times : list Q;
  lost_packets : list Z;
  seq_counter : Z
}.

Definition initial : state := mkState [] [] 0.

(** One iteration of [for line in content.split('\n')], lines 107-122;
    [float s] is [None] where Python's [float(s)] raises. *)
Definition parse_line (float : string -> option Q) (st : state) (line : string)
    : state :=
  if py_in "bytes from" line && py_in "time=" line then
    let st1 := mkState (ping_times st) (lost_packets st) (seq_counter st + 1) in
    match split_part1 "time=" line with
    | Some part1 =>
        match first_word part1 with
        | Some time_part =>
            if py_in "ms" time_part then
              match float (remove_ms time_part) with
              | Some v => mkState (ping_times st ++ [v]) (lost_packets st)
                                  (seq_counter st + 1)
              | None => st1
              end
            else st1
        | None => st1
        end
    | None => st1
    end
  else if py_in "Destination Host Unreachable" line
          || py_in "Request timed out" line then
    mkState (ping_times st) (lost_packets st ++ [(seq_counter st + 1)%Z])
            (seq_counter st + 1)
  else st.

Definition parse (float : string -> option Q) (lines : list string) : state :=
  fold_left (parse_line float) lines initial.

(** Lines 126-133. *)
Definition total_pings (st : state) : Z :=
  Z.of_nat (List.length (ping_times st) + List.length (lost_packets st)).

Definition packet_loss (st : state) : Q :=
  (inject_Z (Z.of_nat (List.length (lost_packets st)))
   / inject_Z (Z.max 1 (total_pings st))) * 100.

(** Lines 166-180: one iteration of [for i in range(1, len(x) + 1)], on the
    pair of [y] and [ping_index]. *)
Definition y_body (st : state) (acc : list (option Q) * nat) (i : Z)
    : list (option Q) * nat :=
  let (y, ping_index) := acc in
  if existsb (Z.eqb i) (lost_packets st) then (y ++ [None], ping_index)
  else if (ping_index <? List.length (ping_times st))%nat
       then (y ++ [nth_error (ping_times st) ping_index], S ping_index)
       else (y ++ [None], ping_index).

Definition y_values (st : state) : list (option Q) :=
  fst (fold_left (y_body st) (range 1 (total_pings st + 1)) ([], 0%nat)).

(** The entries of a list like [y] that are not [None], and the places of
    [xs] whose entry is [None]. *)
Definition some_values (y : list (option Q)) : list Q :=
  flat_map (fun v => match v with Some q => [q] | None => [] end) y.

Definition none_places (xs : list Z) (y : list (option Q)) : list Z :=
  flat_map (fun p => match snd p with Some _ => [] | None => [fst p] end)
           (combine xs y).

(** [valid_y], and [lost_x]: the sequence numbers whose entry of [y] is
    [None]. *)
Definition valid_y (st : state) : list Q := some_values (y_values st).

Definition lost_x (st : state) : list Z :=
  none_places (range 1 (total_pings st + 1)) (y_values st).

(** What the parsing loop keeps true of its three variables. *)
Definition parse_inv (st : state) : Prop :=
  (total_pings st <= seq_counter st)%Z
  /\ StronglySorted Z.lt (lost_packets st)
  /\ Forall (fun x => (1 <= x <= seq_counter st)%Z) (lost_packets st).

End Q7.

(** ** q11: [plot_ping_results] *)
Module Q11Plot.

(** [sum(rtts) / len(rtts)]. *)
Definition avg_rtt (rtts : list Q) : Q :=
  fold_left Qplus rtts 0 / inject_Z (Z.of_nat (List.length rtts)).

(** The test of line 279 at index [i]. *)
Definition is_spike (rtts : list Q) (i : nat) : bool :=
  Qgtb (nth i rtts 0) (avg_rtt rtts * 1.5)
  && Qltb (nth (i - 1) rtts 0) (avg_rtt rtts * 1.5).

(** [for i in range(1, len(rtts))]: the indices kept, and the times
    [times[i] = i * 0.5] appended for them. *)
Definition spike_indices (rtts : list Q) : list nat :=
  filter (is_spike rtts) (seq 1 (List.length rtts - 1)).

Definition rtt_handovers (rtts : list Q) : list Q :=
  map (fun i => inject_Z (Z.of_nat i) * 0.5) (spike_indices rtts).

(** The RTTs of the simulated ping file (lines 243-252) and of the dummy data
    (lines 268-272). *)
Definition simulated_rtts : list Q :=
  map (fun i => inject_Z (20 + i mod 5
                          + (if (i =? 15)%Z || (i =? 35)%Z then 50 else 0))%Z)
      (range 0 60).

Definition dummy_rtts : list Q :=
  map (fun x => if (x =? 15)%Z then 70
                else if (x =? 35)%Z then 80
                else inject_Z (20 + x mod 5)%Z)
      (range 0 60).

(** Line 298: where a handover recorded at [pos] is drawn on a time axis
    ending at [max_time]. *)
Definition handover_time (pos max_time : Q) : Q := (pos / 140) * max_time.

(** Lines 295-299: the times marked for the handovers of the simulation. *)
Definition simulation_markers (handover_positions : list (Q * Z * Z))
    (max_time : Q) : list Q :=
  map (fun h => match h with (pos, _, _) => handover_time pos max_time end)
      handover_positions.

(** [max(times)] for [n] samples taken every half second. *)
Definition max_times (n : nat) : Q := inject_Z (Z.of_nat (n - 1)) * 0.5.

Definition Qeqb_list (l1 l2 : list Q) : bool :=
  (List.length l1 =? List.length l2)%nat
  && forallb (fun p => Qeq_bool (fst p) (snd p)) (combine l1 l2).

End Q11Plot.

(** A ping file whose times carry their unit without a blank, and a
    [float] that reads its two numbers. *)
Definition q7_sample_float (s : string) : option Q :=
  if String.eqb s "12" then Some 12
  else if String.eqb s "7.5" then Some 7.5
  else None.

Definition q7_sample_lines : list string :=
  ["64 bytes from 10.0.0.2: icmp_seq=1 ttl=64 time=12ms"%string;
   "Request timed out"%string;
   "64 bytes from 10.0.0.2: icmp_seq=3 ttl=64 time=7.5ms"%string].

(** Access points whose addresses are not told apart by a substring test:
    AP1's address is a prefix of AP2's. *)
Definition q78_ambiguous : Q78.env :=
  {| Q78.ap1_IP := "10.0.0.1";
     Q78.ap2_IP := "10.0.0.10";
     Q78.ip_route_show := Q78.ip_route_show q78_sample;
     Q78.clock := Q78.clock q78_sample |}.

(** * Properties *)

(** ** Comparisons, [max] and [min] *)

Lemma Qltb_true (a b : Q) : Qltb a b = true <-> a < b.
Proof.
  unfold Qltb. rewrite negb_true_iff. split; intro H.
  - apply Qnot_le_lt. intro Hle. apply Qle_bool_iff in Hle. congruence.
  - destruct (Qle_bool b a) eqn:E; trivial.
    apply Qle_bool_iff in E. exfalso. apply (Qlt_not_le _ _ H E).
Qed.

Lemma Qltb_false (a b : Q) : Qltb a b = false <-> b <= a.
Proof.
  unfold Qltb. rewrite negb_false_iff. apply Qle_bool_iff.
Qed.

(** Case analysis on every comparison in the goal, then linear arithmetic. *)
Ltac compare_all :=
  unfold py_max, py_min, Qgtb in *;
  repeat match goal with
         | |- context [Qltb ?a ?b] =>
             lazymatch a with context [Qltb _ _] => fail | _ => idtac end;
             lazymatch b with context [Qltb _ _] => fail | _ => idtac end;
             let H := fresh "Hcmp" in
             destruct (Qltb a b) eqn:H;
             [apply Qltb_true in H | apply Qltb_false in H]
         end.

Lemma py_max_lub (a b : Q) : a <= py_max a b /\ b <= py_max a b.
Proof. compare_all; lra. Qed.

Lemma py_min_glb (a b : Q) : py_min a b <= a /\ py_min a b <= b.
Proof. compare_all; lra. Qed.

Lemma py_max_mono (a b c : Q) : b <= c -> py_max a b <= py_max a c.
Proof. intro H. compare_all; lra. Qed.

Lemma py_min_mono (a b c : Q) : b <= c -> py_min a b <= py_min a c.
Proof. intro H. compare_all; lra. Qed.

Lemma py_max_compat (a b c : Q) : b == c -> py_max a b == py_max a c.
Proof. intro H. compare_all; lra. Qed.

Lemma py_min_compat (a b c : Q) : b == c -> py_min a b == py_min a c.
Proof. intro H. compare_all; lra. Qed.

Lemma clamp01_inside (p : Q) : 0 <= p -> p <= 1 -> clamp01 p == p.
Proof. intros H0 H1. unfold clamp01. compare_all; lra. Qed.

Lemma Qdiv_5 (d : Q) : d / 5 == d * (1 # 5).
Proof. unfold Qdiv. reflexivity. Qed.

Lemma range_In (lo hi x : Z) : In x (range lo hi) <-> (lo <= x < hi)%Z.
Proof.
  unfold range. rewrite in_map_iff. split.
  - intros [i [<- Hi]]. apply in_seq in Hi. lia.
  - intros H. exists (Z.to_nat (x - lo)). split; [lia|]. apply in_seq. lia.
Qed.

(** ** q11: the distance-based model *)

Lemma delay_at_mono (d1 d2 : Q) : d1 <= d2 -> Q11.delay_at d1 <= Q11.delay_at d2.
Proof.
  intro H. unfold Q11.delay_at.
  apply py_max_mono, py_min_mono. lra.
Qed.

Lemma loss_at_mono (d1 d2 : Q) : d1 <= d2 -> Q11.loss_at d1 <= Q11.loss_at d2.
Proof.
  intro H. unfold Q11.loss_at.
  apply py_max_mono, py_min_mono.
  unfold Qdiv. apply Qmult_le_compat_r; [exact H | discriminate].
Qed.

Lemma delay_at_bounds (d : Q) : 5 <= Q11.delay_at d /\ Q11.delay_at d <= 100.
Proof. unfold Q11.delay_at. compare_all; lra. Qed.

Lemma loss_at_bounds (d : Q) : 0 <= Q11.loss_at d /\ Q11.loss_at d <= 20.
Proof. unfold Q11.loss_at. compare_all; lra. Qed.

Lemma dist_to_self (r : Q) : Q11.dist_to r r == 0.
Proof.
  unfold Q11.dist_to. rewrite Qabs_pos; lra.
Qed.

Lemma dist_to_nonneg (r p : Q) : 0 <= Q11.dist_to r p.
Proof. apply Qabs_nonneg. Qed.

(** C7 (q11/script.py, lines 130-144).  In the distance-based model every
    candidate's delay and loss are non-decreasing in the distance
    |position - reference| and lie, after the raw formula, within fixed
    bounds: delay in [5, 100] ms and loss in [0, 20] %.  At distance exactly 0
    the model gives the best values there are: delay 5 ms, loss 0 %, and the
    highest quality any position has. *)
Theorem q11_distance_model_monotone_clamped :
  forall (ap_position p1 p2 : Q),
    Q11.dist_to ap_position p1 <= Q11.dist_to ap_position p2 ->
    (Q11.delay_at (Q11.dist_to ap_position p1) <= Q11.delay_at (Q11.dist_to ap_position p2)
     /\ Q11.loss_at (Q11.dist_to ap_position p1) <= Q11.loss_at (Q11.dist_to ap_position p2))
    /\ (5 <= Q11.delay_at (Q11.dist_to ap_position p1) <= 100
        /\ 0 <= Q11.loss_at (Q11.dist_to ap_position p1) <= 20)
    /\ (Q11.delay_at (Q11.dist_to ap_position ap_position) == 5
        /\ Q11.loss_at (Q11.dist_to ap_position ap_position) == 0)
    /\ Q11.ap_quality ap_position p1 <= Q11.ap_quality ap_position ap_position.
Proof.
  intros r p1 p2 H. repeat split.
  - now apply delay_at_mono.
  - now apply loss_at_mono.
  - apply delay_at_bounds.
  - apply delay_at_bounds.
  - apply loss_at_bounds.
  - apply loss_at_bounds.
  - pose proof (dist_to_self r) as E.
    unfold Q11.delay_at. compare_all; lra.
  - pose proof (dist_to_self r) as E.
    pose proof (Qdiv_5 (Q11.dist_to r r)) as E5.
    unfold Q11.loss_at. compare_all; lra.
  - unfold Q11.ap_quality, Q11.quality.
    pose proof (dist_to_self r) as E.
    pose proof (dist_to_nonneg r p1) as Hp.
    assert (Hd : Q11.delay_at (Q11.dist_to r r) <= Q11.delay_at (Q11.dist_to r p1))
      by (apply delay_at_mono; lra).
    assert (Hl : Q11.loss_at (Q11.dist_to r r) <= Q11.loss_at (Q11.dist_to r p1))
      by (apply loss_at_mono; lra).
    lra.
Qed.

Lemma q11_distance_model_monotone_clamped_witness :
  Q11.dist_to 20 (Q11.position_of 3) <= Q11.dist_to 20 (Q11.position_of 9)
  /\ Q11.delay_at (Q11.dist_to 20 (Q11.position_of 3))
     <= Q11.delay_at (Q11.dist_to 20 (Q11.position_of 9)).
Proof.
  assert (H : Q11.dist_to 20 (Q11.position_of 3) <= Q11.dist_to 20 (Q11.position_of 9))
    by (vm_compute; discriminate).
  split; [exact H|].
  exact (proj1 (proj1 (q11_distance_model_monotone_clamped 20 _ _ H))).
Defined.

(** ** The hysteresis comparison (q10, q11) *)

Lemma select_best_from_1 (a b c : Q) :
  (Q11.select_best 1 a b c = 2%Z <-> b > a + 15)
  /\ (Q11.select_best 1 a b c = 3%Z <-> ~ b > a + 15 /\ c > a + 15)
  /\ (Q11.select_best 1 a b c = 1%Z <-> ~ b > a + 15 /\ ~ c > a + 15).
Proof.
  unfold Q11.select_best; simpl. compare_all;
    repeat split; intros; try discriminate; try reflexivity;
    try (intro; lra); try lra; try tauto.
  all: match goal with H : _ /\ _ |- _ => destruct H; lra end.
Qed.

Lemma q10_decide_current_ap (elapsed : Q) (s : Z) (a b : Q) (st : Q10.state) :
  Q10.current_ap (Q10.decide elapsed s a b (Q10.set_current_ap "s1" st))
  = if Qltb a (b - 15) then "s2"%string else "s1"%string.
Proof.
  unfold Q10.decide. simpl.
  destruct (Qltb a (b - 15)); simpl.
  - destruct (negb (Q10.handover_occurred st)); reflexivity.
  - reflexivity.
Qed.

Lemma q10_decide_handover_occurred (elapsed : Q) (s : Z) (a b : Q) (st : Q10.state) :
  Q10.handover_occurred (Q10.decide elapsed s a b (Q10.set_current_ap "s1" st))
  = if Qltb a (b - 15) then true else Q10.handover_occurred st.
Proof.
  unfold Q10.decide. simpl.
  destruct (Qltb a (b - 15)); simpl.
  - destruct (Q10.handover_occurred st) eqn:E; simpl; rewrite ?E; reflexivity.
  - reflexivity.
Qed.



(** ** The linear model (q6, q7, q8) *)

Lemma q6_position_in_unit (step step_count : Z) :
  (0 < step_count)%Z -> (0 <= step <= step_count)%Z ->
  0 <= Q6.position_of step step_count /\ Q6.position_of step step_count <= 1.
Proof.
  intros Hc Hs. unfold Q6.position_of.
  assert (Hpos : inject_Z 0 < inject_Z step_count)
    by (rewrite <- Zlt_Qlt; exact Hc).
  assert (Hlo : inject_Z 0 <= inject_Z step)
    by (rewrite <- Zle_Qle; lia).
  assert (Hhi : inject_Z step <= inject_Z step_count)
    by (rewrite <- Zle_Qle; lia).
  split.
  - apply Qle_shift_div_l; [exact Hpos|]. rewrite Qmult_0_l. exact Hlo.
  - apply Qle_shift_div_r; [exact Hpos|]. rewrite Qmult_1_l. exact Hhi.
Qed.

Lemma q6_model_compat (p q : Q) :
  p == q ->
  link_eq (Q6.ap1_new p) (Q6.ap1_new q) /\ link_eq (Q6.ap2_new p) (Q6.ap2_new q).
Proof.
  intro H. unfold link_eq, Q6.ap1_new, Q6.ap2_new; simpl.
  repeat split; try (apply py_max_compat; lra); try (apply py_min_compat; lra); lra.
Qed.

Lemma q78_model_compat (p q : Q) :
  p == q ->
  link_eq (Q78.ap1_link p) (Q78.ap1_link q) /\ link_eq (Q78.ap2_link p) (Q78.ap2_link q).
Proof.
  intro H. unfold link_eq, Q78.ap1_link, Q78.ap2_link; simpl.
  repeat split; try (apply py_max_compat; lra); try (apply py_min_compat; lra); lra.
Qed.

(** C6 (q6/script.py lines 60-66, q8/script.py lines 272-278).  In the linear
    model, for positions p1 <= p2 in [0,1], AP1's bandwidth at p2 is at most
    its bandwidth at p1 and AP2's bandwidth at p2 is at least its bandwidth at
    p1. *)
Theorem linear_bandwidth_monotone :
  forall p1 p2 : Q,
    0 <= p1 -> p1 <= p2 -> p2 <= 1 ->
    bw (Q6.ap1_new p2) <= bw (Q6.ap1_new p1)
    /\ bw (Q6.ap2_new p1) <= bw (Q6.ap2_new p2)
    /\ bw (Q78.ap1_link p2) <= bw (Q78.ap1_link p1)
    /\ bw (Q78.ap2_link p1) <= bw (Q78.ap2_link p2).
Proof.
  intros p1 p2 H0 H12 H1. simpl.
  repeat split; apply py_max_mono; lra.
Qed.

Lemma linear_bandwidth_monotone_witness :
  bw (Q6.ap1_new (3 # 4)) <= bw (Q6.ap1_new (1 # 4))
  /\ bw (Q6.ap2_new (1 # 4)) <= bw (Q6.ap2_new (3 # 4)).
Proof.
  assert (H0 : 0 <= 1 # 4) by (vm_compute; discriminate).
  assert (H12 : 1 # 4 <= 3 # 4) by (vm_compute; discriminate).
  assert (H1 : 3 # 4 <= 1) by (vm_compute; discriminate).
  pose proof (linear_bandwidth_monotone (1 # 4) (3 # 4) H0 H12 H1) as [Ha [Hb _]].
  exact (conj Ha Hb).
Defined.

(** C5, as the specification states it, fails: the position is never
    clamped.  At p = 2 the q6 model gives AP1 a delay of 39 ms, at
    clamp(2, 0, 1) = 1 it gives 20 ms. *)
Lemma position_not_clamped_counterexample :
  ~ (forall p : Q, p < 0 \/ 1 < p ->
       link_eq (Q6.ap1_new p) (Q6.ap1_new (clamp01 p)))
  /\ delay (Q6.ap1_new 2) == 39
  /\ delay (Q6.ap1_new (clamp01 2)) == 20
  /\ ~ link_eq (Q78.ap1_link 2) (Q78.ap1_link (clamp01 2)).
Proof.
  repeat split.
  - intro H. assert (Hout : 2 < 0 \/ 1 < 2) by (right; reflexivity).
    destruct (H 2 Hout) as [_ [Hd _]]. vm_compute in Hd. discriminate.
  - intros [_ [Hd _]]. vm_compute in Hd. discriminate.
Qed.

(** C5, amended (q6/script.py lines 56-66, q7/script.py lines 390-403).  The
    model takes the position as it is; the loop only evaluates it at
    step / step_count with 0 <= step <= step_count, which lies in [0,1], and
    there the model's output equals its output at clamp(p, 0, 1).  What is
    clamped, at every position, is the output: bandwidth is at least 1 and
    loss at most 99 (q6) or 80 (q7, q8). *)
Theorem model_agrees_with_clamp_on_loop_positions :
  forall step step_count : Z,
    (0 < step_count)%Z -> (0 <= step <= step_count)%Z ->
    let p := Q6.position_of step step_count in
    (0 <= p /\ p <= 1)
    /\ link_eq (Q6.ap1_new p) (Q6.ap1_new (clamp01 p))
    /\ link_eq (Q6.ap2_new p) (Q6.ap2_new (clamp01 p))
    /\ link_eq (Q78.ap1_link p) (Q78.ap1_link (clamp01 p))
    /\ link_eq (Q78.ap2_link p) (Q78.ap2_link (clamp01 p))
    /\ (forall q : Q,
          1 <= bw (Q6.ap1_new q) /\ 1 <= bw (Q6.ap2_new q)
          /\ loss (Q6.ap1_new q) <= 99 /\ loss (Q6.ap2_new q) <= 99
          /\ 1 <= bw (Q78.ap1_link q) /\ 1 <= bw (Q78.ap2_link q)
          /\ loss (Q78.ap1_link q) <= 80 /\ loss (Q78.ap2_link q) <= 80).
Proof.
  intros step step_count Hc Hs p.
  destruct (q6_position_in_unit step step_count Hc Hs) as [H0 H1].
  fold p in H0, H1.
  assert (E : p == clamp01 p) by (symmetry; now apply clamp01_inside).
  destruct (q6_model_compat p (clamp01 p) E) as [A1 A2].
  destruct (q78_model_compat p (clamp01 p) E) as [B1 B2].
  split; [exact (conj H0 H1)|].
  do 4 (split; [assumption|]).
  intro q. simpl. repeat split; compare_all; lra.
Qed.

Lemma model_agrees_with_clamp_on_loop_positions_witness :
  link_eq (Q6.ap1_new (Q6.position_of 11 20))
          (Q6.ap1_new (clamp01 (Q6.position_of 11 20))).
Proof.
  assert (Hc : (0 < 20)%Z) by lia.
  assert (Hs : (0 <= 11 <= 20)%Z) by lia.
  exact (proj1 (proj2 (model_agrees_with_clamp_on_loop_positions 11 20 Hc Hs))).
Defined.

(** ** q6: the run of [adjust_link_quality] *)

Lemma q6_steps_checked : forallb q6_step_check (range 0 21) = true.
Proof. vm_compute. reflexivity. Qed.




(** ** q11: the loop and failing [tc] calls *)

Ltac q11_body_cases a :=
  unfold Q11.loop_body, Q11.handover_decision, Q11.update_routing, Q11.info; simpl;
  match goal with
  | |- context [Q11.select_best a ?x ?y ?z] =>
      let best := fresh "best" in
      set (best := Q11.select_best a x y z);
      destruct (negb (best =? a)%Z); simpl
  end;
  repeat match goal with
         | |- context [if ?c then _ else _] => destruct c; simpl
         end;
  unfold Q11.core, Q11.without_errors in *; simpl;
  repeat (rewrite filter_app; simpl); rewrite ?app_nil_r.

Lemma q11_loop_body_sim (tc tc' : Z -> bool) (st st' : Q11.state) (s : Z) :
  Q11.core st = Q11.core st' ->
  Q11.without_errors (Q11.log st) = Q11.without_errors (Q11.log st') ->
  Q11.core (Q11.loop_body tc st s) = Q11.core (Q11.loop_body tc' st' s)
  /\ Q11.without_errors (Q11.log (Q11.loop_body tc st s))
     = Q11.without_errors (Q11.log (Q11.loop_body tc' st' s)).
Proof.
  destruct st as [p a hp r lg], st' as [p' a' hp' r' lg'].
  unfold Q11.core; simpl. intros Hc Hl. injection Hc as -> -> -> ->.
  destruct (tc s) eqn:E, (tc' s) eqn:E';
    q11_body_cases a'; rewrite ?Hl; split; reflexivity.
Qed.

Lemma q11_fold_sim (tc tc' : Z -> bool) (steps : list Z) :
  forall st st' : Q11.state,
    Q11.core st = Q11.core st' ->
    Q11.without_errors (Q11.log st) = Q11.without_errors (Q11.log st') ->
    Q11.core (fold_left (Q11.loop_body tc) steps st)
    = Q11.core (fold_left (Q11.loop_body tc') steps st')
    /\ Q11.without_errors (Q11.log (fold_left (Q11.loop_body tc) steps st))
       = Q11.without_errors (Q11.log (fold_left (Q11.loop_body tc') steps st')).
Proof.
  induction steps as [|s steps IH]; intros st st' Hc Hl; simpl.
  - split; assumption.
  - destruct (q11_loop_body_sim tc tc' st st' s Hc Hl) as [Hc' Hl'].
    apply IH; assumption.
Qed.

(** A run in which no [tc] call fails logs no error. *)
Lemma q11_ok_fold_no_errors (steps : list Z) :
  forall st : Q11.state,
    Q11.without_errors (Q11.log st) = Q11.log st ->
    Q11.without_errors (Q11.log (fold_left (Q11.loop_body always_ok) steps st))
    = Q11.log (fold_left (Q11.loop_body always_ok) steps st).
Proof.
  induction steps as [|s steps IH]; intros st Hst; simpl; [exact Hst|].
  apply IH. destruct st as [p a hp r lg]. simpl in Hst.
  unfold always_ok.
  q11_body_cases a; rewrite ?Hst; reflexivity.
Qed.

Lemma q11_run_sim (tc : Z -> bool) (n : Z) :
  Q11.core (Q11.run tc n) = Q11.core (Q11.run always_ok n)
  /\ Q11.without_errors (Q11.log (Q11.run tc n)) = Q11.log (Q11.run always_ok n).
Proof.
  unfold Q11.run.
  destruct (q11_fold_sim tc always_ok (range 1 (n + 1)) Q11.initial Q11.initial
              eq_refl eq_refl) as [Hc Hl].
  split; [exact Hc|]. rewrite Hl.
  apply q11_ok_fold_no_errors. reflexivity.
Qed.

Lemma range_nil (lo hi : Z) : (hi <= lo)%Z -> range lo hi = [].
Proof.
  intro H. unfold range. replace (Z.to_nat (hi - lo)) with 0%nat by lia. reflexivity.
Qed.

Lemma range_cons (lo hi : Z) : (lo < hi)%Z -> range lo hi = lo :: range (lo + 1) hi.
Proof.
  intro H. unfold range.
  replace (Z.to_nat (hi - lo)) with (S (Z.to_nat (hi - (lo + 1)))) by lia.
  simpl. f_equal; [lia|].
  rewrite <- seq_shift, map_map. apply map_ext. intro i. lia.
Qed.

Lemma range_snoc (lo hi : Z) : (lo <= hi)%Z -> range lo (hi + 1) = range lo hi ++ [hi].
Proof.
  intro H. unfold range.
  replace (Z.to_nat (hi + 1 - lo)) with (Z.to_nat (hi - lo) + 1)%nat by lia.
  rewrite seq_app, map_app. simpl. do 2 f_equal. lia.
Qed.

Lemma q11_run_succ (tc : Z -> bool) (n : Z) :
  (1 <= n)%Z -> Q11.run tc n = Q11.loop_body tc (Q11.run tc (n - 1)) n.
Proof.
  intro H. unfold Q11.run.
  rewrite (range_snoc 1 n H), fold_left_app. simpl.
  replace (n - 1 + 1)%Z with n by lia. reflexivity.
Qed.

(** The decision leaves a state alone exactly when it keeps the active AP. *)
Lemma q11_decision_fixpoint (q1 q2 q3 : Q) (st : Q11.state) :
  Q11.select_best (Q11.current_ap st) q1 q2 q3 = Q11.current_ap st ->
  Q11.handover_decision q1 q2 q3 st = st.
Proof.
  intro H. unfold Q11.handover_decision. rewrite H, Z.eqb_refl. reflexivity.
Qed.

Lemma q11_decision_current_ap (q1 q2 q3 : Q) (st : Q11.state) :
  Q11.current_ap (Q11.handover_decision q1 q2 q3 st)
  = Q11.select_best (Q11.current_ap st) q1 q2 q3.
Proof.
  unfold Q11.handover_decision.
  destruct (negb (Q11.select_best (Q11.current_ap st) q1 q2 q3 =? Q11.current_ap st)%Z) eqn:E;
    simpl; [reflexivity|].
  apply negb_false_iff, Z.eqb_eq in E. congruence.
Qed.

Lemma q11_routing_current_ap (q1 q2 q3 : Q) (st : Q11.state) :
  Q11.current_ap (Q11.update_routing q1 q2 q3 st) = Q11.current_ap st.
Proof.
  unfold Q11.update_routing.
  destruct (Q11.current_ap st =? 1)%Z; [reflexivity|].
  destruct (Q11.current_ap st =? 2)%Z; reflexivity.
Qed.

Lemma q11_loop_body_current_ap (tc : Z -> bool) (st : Q11.state) (s : Z) :
  Q11.current_ap (Q11.loop_body tc st s)
  = Q11.select_best (Q11.current_ap st)
      (Q11.ap_quality 20 (Q11.position_of s))
      (Q11.ap_quality 70 (Q11.position_of s))
      (Q11.ap_quality 120 (Q11.position_of s)).
Proof.
  unfold Q11.loop_body. cbv zeta.
  change (Q11.current_ap (Q11.info ?l ?x)) with (Q11.current_ap x).
  rewrite q11_routing_current_ap, q11_decision_current_ap.
  destruct (tc s); reflexivity.
Qed.

Lemma q11_rerun_checked : forallb Q11.rerun_keeps_ap (range 1 31) = true.
Proof. vm_compute. reflexivity. Qed.

Lemma q11_core_current_ap (st st' : Q11.state) :
  Q11.core st = Q11.core st' -> Q11.current_ap st = Q11.current_ap st'.
Proof. unfold Q11.core. intro H. injection H; auto. Qed.

Lemma q10_decide_idempotent (elapsed : Q) (s : Z) (a b : Q) (st : Q10.state) :
  Q10.decide elapsed s a b (Q10.decide elapsed s a b st) = Q10.decide elapsed s a b st.
Proof.
  unfold Q10.decide.
  destruct (Qltb a (b - 15)).
  - destruct (String.eqb (Q10.current_ap st) "s1") eqn:E1.
    + destruct (negb (Q10.handover_occurred
                        (Q10.set_current_ap "s2" (Q10.info Q10.HandoverMsg st))));
        reflexivity.
    + rewrite E1. reflexivity.
  - destruct (String.eqb (Q10.current_ap st) "s2") eqn:E2.
    + rewrite E2. reflexivity.
    + simpl. rewrite E2. reflexivity.
Qed.

(** On scores no run produces, q11's rule can fire twice in a row: from AP1
    with scores 0, 20, 40 it moves to AP2, and evaluated again to AP3. *)
Lemma q11_decision_can_chain :
  Q11.handover_positions
    (Q11.handover_decision 0 20 40 (Q11.handover_decision 0 20 40 Q11.initial))
  = [(0, 1%Z, 2%Z); (0, 2%Z, 3%Z)].
Proof. reflexivity. Qed.

(** C3 (q11/script.py lines 170-194, q10/script.py lines 173-195).
    Evaluating the decision rule once more at the same step and position, with
    the scores unchanged, keeps the active candidate and records no further
    handover.  q11: at every step n of the run, whichever [tc] calls failed,
    the decision applied to the state reached after step n returns that state,
    and applied twice in a row to a state entering the decision of step n it
    gives what it gives applied once.  q10: the decision is idempotent on
    every state and for all scores. *)
Theorem rerunning_decision_adds_no_event :
  (forall (tc_ok : Z -> bool) (n : Z), (1 <= n <= 30)%Z ->
     let p := Q11.position_of n in
     let q1 := Q11.ap_quality 20 p in
     let q2 := Q11.ap_quality 70 p in
     let q3 := Q11.ap_quality 120 p in
     Q11.handover_decision q1 q2 q3 (Q11.run tc_ok n) = Q11.run tc_ok n
     /\ forall st : Q11.state,
          Q11.current_ap st = Q11.current_ap (Q11.run tc_ok (n - 1)) ->
          Q11.handover_decision q1 q2 q3 (Q11.handover_decision q1 q2 q3 st)
          = Q11.handover_decision q1 q2 q3 st)
  /\ (forall (elapsed : Q) (s : Z) (a b : Q) (st : Q10.state),
        Q10.decide elapsed s a b (Q10.decide elapsed s a b st)
        = Q10.decide elapsed s a b st).
Proof.
  split; [|exact q10_decide_idempotent].
  intros tc_ok n Hn p q1 q2 q3.
  assert (Hin : In n (range 1 31)) by (apply range_In; lia).
  pose proof (proj1 (forallb_forall _ _) q11_rerun_checked n Hin) as Hk.
  unfold Q11.rerun_keeps_ap in Hk. apply Z.eqb_eq in Hk.
  fold p q1 q2 q3 in Hk.
  assert (Hap : Q11.current_ap (Q11.run tc_ok n)
                = Q11.current_ap (Q11.run (fun _ => true) n))
    by (apply q11_core_current_ap, (q11_run_sim tc_ok n)).
  assert (Hfix : Q11.select_best (Q11.current_ap (Q11.run tc_ok n)) q1 q2 q3
                 = Q11.current_ap (Q11.run tc_ok n))
    by (rewrite Hap; exact Hk).
  split.
  - apply q11_decision_fixpoint. exact Hfix.
  - intros st Hst. apply q11_decision_fixpoint.
    rewrite q11_decision_current_ap, Hst.
    assert (Hstep : Q11.current_ap (Q11.run tc_ok n)
                    = Q11.select_best (Q11.current_ap (Q11.run tc_ok (n - 1))) q1 q2 q3).
    { rewrite (q11_run_succ tc_ok n) by lia. apply q11_loop_body_current_ap. }
    rewrite <- Hstep. exact Hfix.
Qed.

Lemma rerunning_decision_adds_no_event_witness :
  (1 <= 11 <= 30)%Z
  /\ Q11.handover_positions (Q11.run q11_fail11 11) = [(1540 # 30, 1%Z, 2%Z)]
  /\ Q11.handover_decision
       (Q11.ap_quality 20 (Q11.position_of 11))
       (Q11.ap_quality 70 (Q11.position_of 11))
       (Q11.ap_quality 120 (Q11.position_of 11))
       (Q11.run q11_fail11 11)
     = Q11.run q11_fail11 11.
Proof.
  assert (H : (1 <= 11 <= 30)%Z) by lia.
  split; [exact H|]. split; [vm_compute; reflexivity|].
  exact (proj1 (proj1 rerunning_decision_adds_no_event q11_fail11 11%Z H)).
Defined.

Lemma q11_loop_body_errors (tc : Z -> bool) (st : Q11.state) (s : Z) :
  List.length (filter Q11.is_error (Q11.log (Q11.loop_body tc st s)))
  = (List.length (filter Q11.is_error (Q11.log st)) + (if tc s then 0 else 1))%nat.
Proof.
  destruct st as [p a hp r lg].
  unfold Q11.loop_body, Q11.handover_decision, Q11.update_routing, Q11.info; simpl.
  destruct (tc s); simpl;
    repeat match goal with
           | |- context [if ?c then _ else _] => destruct c; simpl
           end;
    repeat (rewrite filter_app; simpl); rewrite ?app_nil_r;
    rewrite ?length_app; simpl; lia.
Qed.

Lemma q11_fold_errors (tc : Z -> bool) (steps : list Z) :
  forall st : Q11.state,
    List.length (filter Q11.is_error (Q11.log (fold_left (Q11.loop_body tc) steps st)))
    = (List.length (filter Q11.is_error (Q11.log st))
       + List.length (filter (fun s => negb (tc s)) steps))%nat.
Proof.
  induction steps as [|s steps IH]; intro st; simpl; [lia|].
  rewrite IH, q11_loop_body_errors.
  destruct (tc s); simpl; lia.
Qed.

Lemma positions_skip_errors (l : list Q11.log_line) :
  flat_map (fun x => match x with Q11.Position p => [p] | _ => [] end)
           (Q11.without_errors l)
  = flat_map (fun x => match x with Q11.Position p => [p] | _ => [] end) l.
Proof.
  induction l as [|x l IH]; simpl; [reflexivity|].
  destruct x; simpl; rewrite IH; reflexivity.
Qed.

Lemma q11_positions_of_ok_run :
  Q11.positions_logged (Q11.topology always_ok) = map Q11.position_of (range 1 31).
Proof. vm_compute. reflexivity. Qed.

(** ** q10: the loop, failing [tc] calls and the early exit *)

Lemma q10_steps_run_info (l : Q10.log_line) (st : Q10.state) :
  Q10.steps_run (Q10.info l st) = Q10.steps_run st ++ Q10.step_of_line l.
Proof.
  unfold Q10.steps_run, Q10.info; simpl.
  rewrite flat_map_app. simpl. rewrite app_nil_r. reflexivity.
Qed.

Lemma q10_decide_steps_run (elapsed : Q) (s : Z) (a b : Q) (st : Q10.state) :
  Q10.steps_run (Q10.decide elapsed s a b st) = Q10.steps_run st.
Proof.
  unfold Q10.decide.
  destruct (Qltb a (b - 15)).
  - destruct (String.eqb (Q10.current_ap st) "s1"); [|reflexivity].
    destruct (negb _); unfold Q10.steps_run; simpl;
      rewrite flat_map_app; simpl; rewrite app_nil_r; reflexivity.
  - destruct (String.eqb (Q10.current_ap st) "s2"); reflexivity.
Qed.

Lemma q10_decide_log_incl (elapsed : Q) (s : Z) (a b : Q) (st : Q10.state) (x : Q10.log_line) :
  In x (Q10.log st) -> In x (Q10.log (Q10.decide elapsed s a b st)).
Proof.
  intro H. unfold Q10.decide.
  destruct (Qltb a (b - 15)).
  - destruct (String.eqb (Q10.current_ap st) "s1"); [|exact H].
    destruct (negb _); simpl; apply in_or_app; left; exact H.
  - destruct (String.eqb (Q10.current_ap st) "s2"); exact H.
Qed.

Lemma q10_decide_step (elapsed : Q) (s : Z) (a b : Q) (st : Q10.state) :
  Q10.step (Q10.decide elapsed s a b st) = Q10.step st.
Proof.
  unfold Q10.decide.
  destruct (Qltb a (b - 15)).
  - destruct (String.eqb (Q10.current_ap st) "s1"); [|reflexivity].
    destruct (negb _); reflexivity.
  - destruct (String.eqb (Q10.current_ap st) "s2"); reflexivity.
Qed.

(** What one iteration does to the log and to the loop variable. *)
Lemma q10_loop_body_trace (e : Q10.env) (st : Q10.state) (s : Z) :
  Q10.steps_run (fst (Q10.loop_body e st s)) = Q10.steps_run st ++ [s]
  /\ Q10.step (fst (Q10.loop_body e st s)) = s
  /\ (forall x, In x (Q10.log st) -> In x (Q10.log (fst (Q10.loop_body e st s))))
  /\ (Q10.tc_ok e s = false ->
      snd (Q10.loop_body e st s) = false
      /\ In (Q10.ErrorInStep s) (Q10.log (fst (Q10.loop_body e st s)))).
Proof.
  unfold Q10.loop_body. cbv zeta.
  destruct (Q10.tc_ok e s) eqn:Hok; cbn [fst snd].
  - repeat split.
    + rewrite !q10_steps_run_info. simpl. rewrite !app_nil_r.
      change (Q10.steps_run (Q10.store ?t ?a ?b ?x)) with (Q10.steps_run x).
      rewrite q10_decide_steps_run.
      change (Q10.steps_run (Q10.set_route ?d ?x)) with (Q10.steps_run x).
      rewrite q10_steps_run_info. reflexivity.
    + unfold Q10.info, Q10.store. cbn [Q10.step].
      rewrite q10_decide_step. reflexivity.
    + intros x Hx. simpl. apply in_or_app; left. apply in_or_app; left.
      change (Q10.log (Q10.store ?t ?a ?b ?y)) with (Q10.log y).
      apply q10_decide_log_incl. simpl. apply in_or_app; left. exact Hx.
    + discriminate.
    + discriminate.
  - repeat split.
    + rewrite q10_steps_run_info. reflexivity.
    + intros x Hx. simpl. apply in_or_app; left. exact Hx.
    + simpl. apply in_or_app; right. left. reflexivity.
Qed.

Lemma q10_for_loop_trace (e : Q10.env) :
  forall (k : nat) (a : Z) (st : Q10.state),
  exists n : nat,
    (n <= k)%nat /\ ((0 < k)%nat -> (0 < n)%nat)
    /\ Q10.steps_run (Q10.for_loop e (range a (a + Z.of_nat k)) st)
       = Q10.steps_run st ++ range a (a + Z.of_nat n)
    /\ (forall x, In x (Q10.log st) ->
                  In x (Q10.log (Q10.for_loop e (range a (a + Z.of_nat k)) st)))
    /\ ((0 < n)%nat ->
        Q10.step (Q10.for_loop e (range a (a + Z.of_nat k)) st)
        = (a + Z.of_nat n - 1)%Z)
    /\ (forall s, (a <= s < a + Z.of_nat n)%Z -> Q10.tc_ok e s = false ->
          In (Q10.ErrorInStep s)
             (Q10.log (Q10.for_loop e (range a (a + Z.of_nat k)) st))
          /\ ((s + 1 < a + Z.of_nat k)%Z -> (s + 1 < a + Z.of_nat n)%Z)).
Proof.
  induction k as [|k IH]; intros a st.
  - exists 0%nat. rewrite range_nil by lia. simpl.
    split; [lia|]. split; [lia|]. split; [rewrite app_nil_r; reflexivity|].
    split; [auto|]. split; [lia|]. intros s Hrange. lia.
  - rewrite (range_cons a (a + Z.of_nat (S k))) by lia.
    replace (a + Z.of_nat (S k))%Z with (a + 1 + Z.of_nat k)%Z by lia.
    simpl Q10.for_loop.
    destruct (q10_loop_body_trace e st a) as [Hrun [Hstep [Hincl Hfail]]].
    destruct (Q10.loop_body e st a) as [st' brk]. cbn [fst snd] in *.
    destruct brk.
    + exists 1%nat. rewrite (range_cons a (a + Z.of_nat 1)) by lia.
      rewrite range_nil by lia.
      split; [lia|]. split; [lia|]. split; [exact Hrun|].
      split; [exact Hincl|]. split; [intros _; rewrite Hstep; lia|].
      intros s Hrange Hbad. assert (s = a) by lia. subst s.
      destruct (Hfail Hbad) as [Hbrk _]. discriminate.
    + destruct (IH (a + 1)%Z st') as [n [Hle [Hpos [Hr [Hi [Hs Hf]]]]]].
      exists (S n).
      split; [lia|]. split; [lia|].
      split.
      { rewrite Hr, Hrun, <- app_assoc. f_equal.
        rewrite (range_cons a (a + Z.of_nat (S n))) by lia.
        replace (a + Z.of_nat (S n))%Z with (a + 1 + Z.of_nat n)%Z by lia.
        reflexivity. }
      split; [intros x Hx; apply Hi, Hincl, Hx|].
      split.
      { intros _. destruct n as [|n].
        - assert (k = 0)%nat by lia. subst k.
          rewrite range_nil by lia. simpl. rewrite Hstep. lia.
        - rewrite Hs by lia. lia. }
      intros s Hrange Hbad.
      destruct (Z.eq_dec s a) as [->|Hne].
      * split; [apply Hi, (proj2 (Hfail Hbad))|]. intro. lia.
      * destruct (Hf s) as [Hin Hnext]; [lia|exact Hbad|].
        split; [exact Hin|]. intro. lia.
Qed.



Lemma q10_decide_handover_fields (elapsed : Q) (s : Z) (a b : Q) (st : Q10.state) :
  (Q10.handover_occurred st = true ->
   Q10.handover_occurred (Q10.decide elapsed s a b st) = true
   /\ Q10.handover_step (Q10.decide elapsed s a b st) = Q10.handover_step st)
  /\ (Q10.handover_occurred st = false ->
      Q10.handover_occurred (Q10.decide elapsed s a b st) = false
      \/ (Q10.handover_occurred (Q10.decide elapsed s a b st) = true
          /\ Q10.handover_step (Q10.decide elapsed s a b st) = s)).
Proof.
  unfold Q10.decide.
  destruct (Qltb a (b - 15)).
  - destruct (String.eqb (Q10.current_ap st) "s1").
    + cbn [Q10.handover_occurred Q10.set_current_ap Q10.info].
      destruct (Q10.handover_occurred st) eqn:E; simpl; rewrite ?E; split; intro H;
        try discriminate; auto.
    + split; intro H; auto.
  - destruct (String.eqb (Q10.current_ap st) "s2"); split; intro H; auto.
Qed.

(** The handover fields after one iteration whose [tc] call succeeds. *)
Lemma q10_loop_body_handover (e : Q10.env) (st : Q10.state) (s : Z) :
  Q10.tc_ok e s = true ->
  snd (Q10.loop_body e st s)
  = Q10.handover_occurred (fst (Q10.loop_body e st s))
    && (s >? Q10.handover_step (fst (Q10.loop_body e st s)) + 5)%Z
  /\ (Q10.handover_occurred st = true ->
      Q10.handover_occurred (fst (Q10.loop_body e st s)) = true
      /\ Q10.handover_step (fst (Q10.loop_body e st s)) = Q10.handover_step st)
  /\ (Q10.handover_occurred st = false ->
      Q10.handover_occurred (fst (Q10.loop_body e st s)) = false
      \/ (Q10.handover_occurred (fst (Q10.loop_body e st s)) = true
          /\ Q10.handover_step (fst (Q10.loop_body e st s)) = s)).
Proof.
  intro Hok. unfold Q10.loop_body. cbv zeta. rewrite Hok. cbn [fst snd].
  split; [reflexivity|].
  exact (q10_decide_handover_fields _ _ _ _
           (Q10.set_route "sta1-eth1"
              (Q10.info (Q10.Reduced (5 + s * 5) s) (Q10.set_step s st)))).
Qed.

Lemma q10_for_loop_exit (e : Q10.env) :
  (forall s, Q10.tc_ok e s = true) ->
  forall (k : nat) (a : Z) (st : Q10.state),
    Q10.step st = (a - 1)%Z ->
    (Q10.handover_occurred st = true ->
     (Q10.handover_step st < a <= Q10.handover_step st + 6)%Z) ->
    let fin := Q10.for_loop e (range a (a + Z.of_nat k)) st in
    (Q10.handover_occurred fin = true ->
     (Q10.handover_step fin < a + Z.of_nat k)%Z
     /\ (Q10.handover_occurred st = true ->
         Q10.handover_step fin = Q10.handover_step st)
     /\ (Q10.handover_occurred st = false -> (a <= Q10.handover_step fin)%Z)
     /\ Q10.step fin = Z.min (Q10.handover_step fin + 6) (a + Z.of_nat k - 1))
    /\ (Q10.handover_occurred fin = false ->
        Q10.step fin = (a + Z.of_nat k - 1)%Z).
Proof.
  intros Hok. induction k as [|k IH]; intros a st Hstep Hinv fin; subst fin.
  - rewrite range_nil by lia. simpl. split.
    + intro Hocc. specialize (Hinv Hocc).
      split; [lia|]. split; [auto|]. split; [congruence|]. lia.
    + intros _. lia.
  - rewrite (range_cons a (a + Z.of_nat (S k))) by lia.
    replace (a + Z.of_nat (S k))%Z with (a + 1 + Z.of_nat k)%Z by lia.
    simpl Q10.for_loop.
    destruct (q10_loop_body_handover e st a (Hok a)) as [Hbrk [Hkeep Hnew]].
    destruct (q10_loop_body_trace e st a) as [_ [Hs' _]].
    destruct (Q10.loop_body e st a) as [st' brk]. cbn [fst snd] in *.
    assert (Hstep' : Q10.step st' = (a + 1 - 1)%Z) by lia.
    destruct (Q10.handover_occurred st) eqn:Hocc.
    + destruct (Hkeep eq_refl) as [Ho' Hh']. specialize (Hinv eq_refl).
      rewrite Ho' in Hbrk. simpl in Hbrk. rewrite Hh' in Hbrk.
      destruct brk.
      * symmetry in Hbrk. apply Z.gtb_lt in Hbrk.
        split; [|congruence].
        intros _. split; [lia|]. split; [auto|]. split; [discriminate|]. lia.
      * symmetry in Hbrk. rewrite Z.gtb_ltb, Z.ltb_ge in Hbrk.
        destruct (IH (a + 1)%Z st' Hstep') as [IHt IHf]; [intros _; lia|].
        split.
        -- intro Hfin. destruct (IHt Hfin) as [H1 [H2 [_ H4]]].
           specialize (H2 Ho').
           split; [lia|]. split; [intros _; congruence|].
           split; [discriminate|]. rewrite H4. lia.
        -- intro Hfin. rewrite (IHf Hfin). lia.
    + destruct (Hnew eq_refl) as [Ho' | [Ho' Hh']].
      * rewrite Ho' in Hbrk. simpl in Hbrk. subst brk.
        destruct (IH (a + 1)%Z st' Hstep') as [IHt IHf]; [congruence|].
        split.
        -- intro Hfin. destruct (IHt Hfin) as [H1 [_ [H3 H4]]].
           specialize (H3 Ho').
           split; [lia|]. split; [discriminate|].
           split; [intros _; lia|]. rewrite H4. lia.
        -- intro Hfin. rewrite (IHf Hfin). lia.
      * rewrite Ho', Hh' in Hbrk. simpl in Hbrk.
        assert (Hb : brk = false)
          by (rewrite Hbrk, Z.gtb_ltb; apply Z.ltb_ge; lia).
        rewrite Hb. clear Hb Hbrk.
        destruct (IH (a + 1)%Z st' Hstep') as [IHt IHf]; [intros _; lia|].
        split.
        -- intro Hfin. destruct (IHt Hfin) as [H1 [H2 [_ H4]]].
           specialize (H2 Ho').
           split; [lia|]. split; [discriminate|].
           split; [intros _; lia|]. rewrite H4. lia.
        -- intro Hfin. rewrite (IHf Hfin). lia.
Qed.

(** C8, as stated, fails.  With pings that follow the shaping the handover
    is at step 10; the loop then runs steps 11 to 16 in full (16 > 10 + 5),
    stores the measurements of step 16 and only then leaves. *)
Lemma q10_runs_sixth_step_counterexample :
  Q10.handover_occurred (Q10.topology q10_degrading) = true
  /\ Q10.handover_step (Q10.topology q10_degrading) = 10%Z
  /\ Q10.step (Q10.topology q10_degrading) = 16%Z
  /\ In 16%Z (Q10.steps_run (Q10.topology q10_degrading))
  /\ List.length (Q10.times (Q10.topology q10_degrading)) = 17%nat
  /\ ~ (forall s : Z, In s (Q10.steps_run (Q10.topology q10_degrading)) ->
          (s <= Q10.handover_step (Q10.topology q10_degrading) + 5)%Z).
Proof.
  assert (Hruns : Q10.steps_run (Q10.topology q10_degrading) = range 1 17)
    by (vm_compute; reflexivity).
  assert (Hh : Q10.handover_step (Q10.topology q10_degrading) = 10%Z)
    by (vm_compute; reflexivity).
  assert (H16 : In 16%Z (Q10.steps_run (Q10.topology q10_degrading)))
    by (rewrite Hruns; apply range_In; lia).
  split; [vm_compute; reflexivity|]. split; [exact Hh|].
  split; [vm_compute; reflexivity|]. split; [exact H16|].
  split; [vm_compute; reflexivity|].
  intro H. specialize (H 16%Z H16). rewrite Hh in H. lia.
Qed.

(** C8, amended (q10/script.py lines 206-208).  In a run of q10 in which no
    link update fails, once the first handover has occurred at step h the loop
    leaves at the end of step h + 6, the first step whose index exceeds h + 5,
    or runs to step 20 when h + 6 > 20; the steps entered are exactly
    1, .., min(h + 6, 20).  Without a handover all 20 steps run. *)
Theorem q10_loop_leaves_after_step_h_plus_6 :
  forall e : Q10.env,
    (forall s : Z, Q10.tc_ok e s = true) ->
    let fin := Q10.topology e in
    (Q10.handover_occurred fin = true ->
     (1 <= Q10.handover_step fin <= 20)%Z
     /\ Q10.step fin = Z.min (Q10.handover_step fin + 6) 20)
    /\ (Q10.handover_occurred fin = false -> Q10.step fin = 20%Z)
    /\ Q10.steps_run fin = range 1 (Q10.step fin + 1).
Proof.
  intros e Hok fin. subst fin. unfold Q10.topology.
  destruct (q10_for_loop_exit e Hok 20 1 (Q10.initial e) eq_refl) as [Ht Hf].
  { simpl. discriminate. }
  change (1 + Z.of_nat 20)%Z with 21%Z in *.
  split; [|split].
  - intro Hocc. destruct (Ht Hocc) as [H1 [_ [H3 H4]]].
    specialize (H3 eq_refl). split; [lia|]. rewrite H4. reflexivity.
  - intro Hocc. rewrite (Hf Hocc). reflexivity.
  - destruct (q10_for_loop_trace e 20 1 (Q10.initial e))
      as [n [Hle [Hpos [Hr [_ [Hs _]]]]]].
    change (1 + Z.of_nat 20)%Z with 21%Z in *.
    assert (Hn : (0 < n)%nat) by (apply Hpos; lia).
    rewrite Hr, (Hs Hn). simpl. f_equal. lia.
Qed.

Lemma q10_loop_leaves_after_step_h_plus_6_witness :
  (forall s : Z, Q10.tc_ok q10_degrading s = true)
  /\ Q10.handover_occurred (Q10.topology q10_degrading) = true
  /\ Q10.step (Q10.topology q10_degrading)
     = Z.min (Q10.handover_step (Q10.topology q10_degrading) + 6) 20.
Proof.
  assert (Hok : forall s : Z, Q10.tc_ok q10_degrading s = true)
    by (intro s; reflexivity).
  assert (Hocc : Q10.handover_occurred (Q10.topology q10_degrading) = true)
    by (vm_compute; reflexivity).
  split; [exact Hok|]. split; [exact Hocc|].
  exact (proj2 (proj1 (q10_loop_leaves_after_step_h_plus_6 q10_degrading Hok) Hocc)).
Defined.

(** A failing step skips its decision and its exit test.  With the link
    update of step 10 failing the handover moves to step 11 and the loop
    leaves after step 17; with the one of step 16 failing the handover stays at
    step 10 and the loop leaves after step 17. *)
Lemma q10_failing_step_delays_exit :
  (Q10.handover_step (Q10.topology (q10_degrading_failing 10)) = 11%Z
   /\ Q10.step (Q10.topology (q10_degrading_failing 10)) = 17%Z)
  /\ (Q10.handover_step (Q10.topology (q10_degrading_failing 16)) = 10%Z
      /\ Q10.step (Q10.topology (q10_degrading_failing 16)) = 17%Z).
Proof. repeat split; vm_compute; reflexivity. Qed.

(** ** Scores below zero *)

Lemma q11_loop_body_logs_qualities (tc : Z -> bool) (st : Q11.state) (s : Z) :
  In (Q11.LinkQualities (Q11.ap_quality 20 (Q11.position_of s))
                        (Q11.ap_quality 70 (Q11.position_of s))
                        (Q11.ap_quality 120 (Q11.position_of s)))
     (Q11.log (Q11.loop_body tc st s)).
Proof.
  unfold Q11.loop_body. cbv zeta. unfold Q11.info at 1. simpl.
  apply in_or_app. right. left. reflexivity.
Qed.

Lemma q10_quality_nonneg (r : Q10.ping_result) : 0 <= Q10.check_connection_quality r.
Proof.
  unfold Q10.check_connection_quality.
  destruct (Q10.packet_loss_field r), (Q10.avg_latency_field r);
    try apply Qle_refl; apply py_max_lub.
Qed.

(** C9, as stated, fails for q10: its score is floored at 0.  With the
    fallback values of an unreadable ping (100 % loss, 1000 ms) the formula
    gives -200 and the function returns 0; against a challenger scoring 10 the
    floored 0 does not pass the margin test that -200 would pass. *)
Lemma q10_score_is_floored_counterexample :
  100 - (1000 / 5) - 100 < 0
  /\ Q10.check_connection_quality (Q10.mkPing Q10.Absent Q10.Absent) == 0
  /\ Q10.check_connection_quality (Q10.mkPing (Q10.Number 80) (Q10.Number 50)) == 10
  /\ Qltb (Q10.check_connection_quality (Q10.mkPing Q10.Absent Q10.Absent))
          (Q10.check_connection_quality (Q10.mkPing (Q10.Number 80) (Q10.Number 50)) - 15)
     = false
  /\ Qltb (100 - (1000 / 5) - 100)
          (Q10.check_connection_quality (Q10.mkPing (Q10.Number 80) (Q10.Number 50)) - 15)
     = true.
Proof. repeat split; vm_compute; reflexivity. Qed.

(** C9, amended (q11/script.py lines 165-168, q10/script.py lines 110-113).
    In q11 the score 100 - delay - loss * 5 has no floor: at step 30 of every
    run AP1 scores -100, the value is logged and ranked as it is, and the
    comparison with the margin is made on the negative value itself (from AP1
    scoring -20, a challenger scoring 0 wins, which it would not against a
    score raised to 0).  In q10 the score is max(0, ..) and never negative. *)
Theorem q11_scores_unfloored_q10_scores_floored :
  (forall tc_ok : Z -> bool,
     Q11.ap_quality 20 (Q11.position_of 30) == -100
     /\ In (Q11.LinkQualities (Q11.ap_quality 20 (Q11.position_of 30))
                              (Q11.ap_quality 70 (Q11.position_of 30))
                              (Q11.ap_quality 120 (Q11.position_of 30)))
           (Q11.log (Q11.topology tc_ok)))
  /\ (forall a b c : Q, Q11.select_best 1 a b c = 2%Z <-> b > a + 15)
  /\ Q11.select_best 1 (-20) 0 (-20) = 2%Z
  /\ Q11.select_best 1 (py_max 0 (-20)) 0 (-20) = 1%Z
  /\ (forall r : Q10.ping_result, 0 <= Q10.check_connection_quality r).
Proof.
  split.
  - intro tc_ok. split; [vm_compute; reflexivity|].
    unfold Q11.topology. rewrite (q11_run_succ tc_ok Q11.total_steps) by (vm_compute; discriminate).
    apply q11_loop_body_logs_qualities.
  - split; [intros a b c; apply (select_best_from_1 a b c)|].
    split; [reflexivity|]. split; [reflexivity|].
    exact q10_quality_nonneg.
Qed.

(** ** q7 and q8: the positional handover *)

Lemma q78_loop_body_handover (qm : Q -> link_quality * link_quality)
    (e : Q78.env) (monitor : bool) (duration : Z) (st : Q78.state) (step : Z) :
  let position := inject_Z step / inject_Z duration in
  let st' := Q78.loop_body_with qm e monitor duration st step in
  (Q78.handover_needed e position st = true ->
   Q78.handover_events st' = Q78.handover_events st ++ [(Q78.clock e step, position)]
   /\ Q78.default_via st' = Some (Q78.ap2_IP e))
  /\ (Q78.handover_needed e position st = false ->
      Q78.handover_events st' = Q78.handover_events st
      /\ Q78.default_via st' = Q78.default_via st).
Proof.
  intros position st'. subst st'. unfold Q78.loop_body_with. cbv zeta.
  fold position.
  change (Q78.handover_needed e position
            {| Q78.default_via := Q78.default_via st;
               Q78.tc := Q78.tc st ++ [qm position];
               Q78.handover_events := Q78.handover_events st;
               Q78.monitor_events := Q78.monitor_events st |})
    with (Q78.handover_needed e position st).
  destruct (Q78.handover_needed e position st); split; intro H;
    try discriminate; split; reflexivity.
Qed.

Lemma q78_handover_needed_iff (e : Q78.env) (position : Q) (st : Q78.state) :
  Q78.handover_needed e position st = true
  <-> position > 0.5 /\ Q78.route_via_ap1 e st = true.
Proof.
  unfold Q78.handover_needed, Qgtb.
  rewrite andb_true_iff, Qltb_true. reflexivity.
Qed.

(** The handover history does not depend on the quality model the loop pushes
    to the links. *)
Lemma q78_fold_model_independent (qm qm' : Q -> link_quality * link_quality)
    (e : Q78.env) (monitor : bool) (duration : Z) (steps : list Z) :
  forall st st' : Q78.state,
    Q78.handover_events st = Q78.handover_events st' ->
    Q78.default_via st = Q78.default_via st' ->
    let fin := fold_left (Q78.loop_body_with qm e monitor duration) steps st in
    let fin' := fold_left (Q78.loop_body_with qm' e monitor duration) steps st' in
    Q78.handover_events fin = Q78.handover_events fin'
    /\ Q78.default_via fin = Q78.default_via fin'.
Proof.
  induction steps as [|s steps IH]; intros st st' He Hv; simpl.
  - auto.
  - destruct (q78_loop_body_handover qm e monitor duration st s) as [Hyes Hno].
    destruct (q78_loop_body_handover qm' e monitor duration st' s) as [Hyes' Hno'].
    cbv zeta in Hyes, Hno, Hyes', Hno'.
    assert (Hsame : Q78.handover_needed e (inject_Z s / inject_Z duration) st
                    = Q78.handover_needed e (inject_Z s / inject_Z duration) st')
      by (unfold Q78.handover_needed, Q78.route_via_ap1; rewrite Hv; reflexivity).
    destruct (Q78.handover_needed e (inject_Z s / inject_Z duration) st') eqn:Hn.
    + destruct (Hyes Hsame) as [H1 H2]. destruct (Hyes' eq_refl) as [H1' H2'].
      apply IH; congruence.
    + destruct (Hno Hsame) as [H1 H2]. destruct (Hno' eq_refl) as [H1' H2'].
      apply IH; congruence.
Qed.

(** Once the route text for AP2 does not name AP1, a run records at most one
    handover, and after it the route stays on AP2. *)
Lemma q78_fold_at_most_one (qm : Q -> link_quality * link_quality)
    (e : Q78.env) (monitor : bool) (duration : Z) :
  Q78.route_via_ap1 e (Q78.mkState (Some (Q78.ap2_IP e)) [] [] []) = false ->
  forall (steps : list Z) (st : Q78.state),
    (Q78.handover_events st = [] /\ Q78.default_via st = Some (Q78.ap1_IP e))
    \/ (List.length (Q78.handover_events st) = 1%nat
        /\ Q78.default_via st = Some (Q78.ap2_IP e)) ->
    let fin := fold_left (Q78.loop_body_with qm e monitor duration) steps st in
    (Q78.handover_events fin = [] /\ Q78.default_via fin = Some (Q78.ap1_IP e))
    \/ (List.length (Q78.handover_events fin) = 1%nat
        /\ Q78.default_via fin = Some (Q78.ap2_IP e)).
Proof.
  intros Hap2. induction steps as [|s steps IH]; intros st Hinv; simpl; [exact Hinv|].
  apply IH.
  destruct (q78_loop_body_handover qm e monitor duration st s) as [Hyes Hno].
  cbv zeta in Hyes, Hno.
  destruct (Q78.handover_needed e (inject_Z s / inject_Z duration) st) eqn:Hn.
  - destruct (Hyes eq_refl) as [Hev Hvia].
    destruct Hinv as [[He Hv] | [He Hv]].
    + right. rewrite Hev, He, Hvia. split; reflexivity.
    + exfalso. unfold Q78.handover_needed in Hn.
      apply andb_true_iff in Hn. destruct Hn as [_ Hn].
      unfold Q78.route_via_ap1 in Hn, Hap2. rewrite Hv in Hn. simpl in Hap2.
      congruence.
  - destruct (Hno eq_refl) as [Hev Hvia]. rewrite Hev, Hvia. exact Hinv.
Qed.




(** ** Doubles against rationals

    The proofs above are over exact arithmetic.  On the inputs the scripts
    run on, IEEE 754 doubles take the same branches. *)

(** The literal inputs of the margin test, in both forms it is written in:
    [b > a + 15] (q11) and [a < b - 15] (q10); 65.01 is the double nearest to
    6501 / 100. *)
Lemma binary64_margin_literals :
  Binary64.gtb 64 (50 + 15)%float = false
  /\ Binary64.gtb (Binary64.of_Z 6501 / 100)%float (50 + 15)%float = true
  /\ PrimFloat.ltb 50 (64 - 15)%float = false
  /\ PrimFloat.ltb 50 (Binary64.of_Z 6501 / 100 - 15)%float = true.
Proof. repeat split; vm_compute; reflexivity. Qed.

Lemma binary64_q6_same_branches : forallb Binary64.q6_agrees (range 0 21) = true.
Proof. vm_compute. reflexivity. Qed.

Lemma binary64_q78_same_branches : forallb Binary64.q78_agrees (range 0 21) = true.
Proof. vm_compute. reflexivity. Qed.

Lemma binary64_q11_same_choices : forallb Binary64.q11_agrees (range 1 31) = true.
Proof. vm_compute. reflexivity. Qed.

(** * Further properties of the scripts *)

(** ** q11: the hysteresis rule on arbitrary scores *)

Lemma q11_select_best_cases (c : Z) (q1 q2 q3 : Q) :
  (1 <= c <= 3)%Z -> c = 1%Z \/ c = 2%Z \/ c = 3%Z.
Proof. lia. Qed.

Lemma q11_select_best_outside (c : Z) (q1 q2 q3 : Q) :
  ~ (1 <= c <= 3)%Z -> Q11.select_best c q1 q2 q3 = c.
Proof.
  intro Hc. unfold Q11.select_best.
  destruct (c =? 1)%Z eqn:E1; [apply Z.eqb_eq in E1; lia|].
  destruct (c =? 2)%Z eqn:E2; [apply Z.eqb_eq in E2; lia|].
  destruct (c =? 3)%Z eqn:E3; [apply Z.eqb_eq in E3; lia|].
  reflexivity.
Qed.

(** Every comparison the rule can make, decided one after the other. *)
Ltac q11_rule_brute :=
  unfold Q11.select_best; simpl;
  repeat (unfold Qgtb;
          match goal with
          | |- context [Qltb ?a ?b] =>
              let H := fresh "Hc" in
              destruct (Qltb a b) eqn:H;
              [apply Qltb_true in H | apply Qltb_false in H]; simpl
          end).

(** X1 (q11/script.py lines 170-188).  From an active AP in 1..3 the rule
    answers an AP in 1..3, and it answers another AP than the active one only
    if that AP's quality exceeds the active AP's by more than 15; an active
    value outside 1..3 is returned as it is. *)
Theorem q11_switch_only_above_margin :
  forall (c : Z) (q1 q2 q3 : Q),
    ((1 <= c <= 3)%Z ->
     let b := Q11.select_best c q1 q2 q3 in
     (1 <= b <= 3)%Z
     /\ (b <> c -> q11_quality_of b q1 q2 q3 > q11_quality_of c q1 q2 q3 + 15))
    /\ (~ (1 <= c <= 3)%Z -> Q11.select_best c q1 q2 q3 = c).
Proof.
  intros c q1 q2 q3. split.
  - intros Hc b. subst b.
    destruct (q11_select_best_cases c q1 q2 q3 Hc) as [-> | [-> | ->]];
      unfold Q11.select_best, q11_quality_of; simpl; compare_all; simpl;
      (split; [lia | intro Hne; try lra; exfalso; apply Hne; reflexivity]).
  - apply q11_select_best_outside.
Qed.

Lemma q11_switch_only_above_margin_witness :
  (1 <= 2 <= 3)%Z
  /\ Q11.select_best 2 10 20 40 = 3%Z
  /\ q11_quality_of (Q11.select_best 2 10 20 40) 10 20 40
     > q11_quality_of 2 10 20 40 + 15.
Proof.
  assert (H : (1 <= 2 <= 3)%Z) by lia.
  assert (Hne : Q11.select_best 2 10 20 40 <> 2%Z) by (vm_compute; discriminate).
  split; [exact H|]. split; [reflexivity|].
  exact (proj2 (proj1 (q11_switch_only_above_margin 2 10 20 40) H) Hne).
Defined.

(** X2 (q11/script.py lines 170-194).  With the scores unchanged the rule
    never leads back to the AP it has just left, and after two evaluations it
    has settled: a third one changes nothing. *)
Theorem q11_rule_never_oscillates :
  forall (c : Z) (q1 q2 q3 : Q),
    let next := fun a => Q11.select_best a q1 q2 q3 in
    (next c <> c -> next (next c) <> c)
    /\ next (next (next c)) = next (next c).
Proof.
  intros c q1 q2 q3 next. subst next. cbv beta.
  destruct (Z.eq_dec c 1) as [-> | H1];
    [|destruct (Z.eq_dec c 2) as [-> | H2];
      [|destruct (Z.eq_dec c 3) as [-> | H3]]].
  4: { assert (Hout : ~ (1 <= c <= 3)%Z) by lia.
       rewrite !(q11_select_best_outside c q1 q2 q3 Hout).
       split; [intro H; exact H | reflexivity]. }
  all: q11_rule_brute;
    (split;
     [ intros Hne Heq; first [discriminate Heq | lra | apply Hne; reflexivity]
     | first [reflexivity | exfalso; lra] ]).
Qed.

(** ** q11: the run and the quality along the path *)

Lemma q11_ok_run_core :
  Q11.core (Q11.run always_ok Q11.total_steps)
  = (Q11.position_of 30, 3%Z,
     [(Q11.position_of 11, 1%Z, 2%Z); (Q11.position_of 22, 2%Z, 3%Z)], 3%Z).
Proof. vm_compute. reflexivity. Qed.

Lemma q11_core_fields (st : Q11.state) (p : Q) (a : Z) (h : list (Q * Z * Z)) (r : Z) :
  Q11.core st = (p, a, h, r) ->
  Q11.current_position st = p /\ Q11.current_ap st = a
  /\ Q11.handover_positions st = h /\ Q11.route st = r.
Proof.
  unfold Q11.core. intro H. inversion H. repeat split; reflexivity.
Qed.

Lemma q11_run_core (tc_ok : Z -> bool) :
  Q11.core (Q11.run tc_ok Q11.total_steps)
  = (Q11.position_of 30, 3%Z,
     [(Q11.position_of 11, 1%Z, 2%Z); (Q11.position_of 22, 2%Z, 3%Z)], 3%Z).
Proof.
  rewrite (proj1 (q11_run_sim tc_ok Q11.total_steps)).
  exact q11_ok_run_core.
Qed.

(** X3 (q11/script.py lines 116-214).  Whichever [tc] calls fail, the run
    records exactly two handovers, AP1 -> AP2 at step 11 and AP2 -> AP3 at
    step 22 (positions 154/3 and 308/3), and ends at position 140 with AP3
    active and the default route on AP3. *)
Theorem q11_run_hands_over_twice :
  forall tc_ok : Z -> bool,
    Q11.handover_positions (Q11.topology tc_ok)
    = [(Q11.position_of 11, 1%Z, 2%Z); (Q11.position_of 22, 2%Z, 3%Z)]
    /\ Q11.current_ap (Q11.topology tc_ok) = 3%Z
    /\ Q11.route (Q11.topology tc_ok) = 3%Z
    /\ Q11.current_position (Q11.topology tc_ok) = Q11.position_of 30
    /\ Q11.position_of 30 == 140
    /\ Q11.position_of 11 == 154 / 3
    /\ Q11.position_of 22 == 308 / 3.
Proof.
  intro tc_ok. unfold Q11.topology.
  destruct (q11_core_fields _ _ _ _ _ (q11_run_core tc_ok)) as [Hp [Ha [Hh Hr]]].
  split; [exact Hh|]. split; [exact Ha|]. split; [exact Hr|]. split; [exact Hp|].
  split; [|split]; vm_compute; reflexivity.
Qed.

(** X4 (q11/script.py lines 132-168).  The quality of an AP at distance d is
    95 - 2 d up to d = 95, then - d up to d = 100, and - 100 beyond; it always
    lies in [-100, 95] and is negative exactly for d > 47.5. *)
Theorem q11_quality_closed_form :
  forall ap_position p : Q,
    let d := Q11.dist_to ap_position p in
    let q := Q11.ap_quality ap_position p in
    (d <= 95 -> q == 95 - 2 * d)
    /\ (95 <= d -> d <= 100 -> q == - d)
    /\ (100 <= d -> q == - (100))
    /\ (- (100) <= q /\ q <= 95)
    /\ (q < 0 <-> 47.5 < d).
Proof.
  intros r p d q. subst q. unfold Q11.ap_quality, Q11.quality. fold d.
  pose proof (dist_to_nonneg r p) as Hd. fold d in Hd.
  pose proof (Qdiv_5 d) as H5.
  unfold Q11.delay_at, Q11.loss_at.
  compare_all; repeat split; intros; lra.
Qed.

Lemma q11_quality_closed_form_witness :
  Q11.dist_to 20 (Q11.position_of 30) == 120
  /\ 100 <= Q11.dist_to 20 (Q11.position_of 30)
  /\ Q11.ap_quality 20 (Q11.position_of 30) == - (100).
Proof.
  assert (H : 100 <= Q11.dist_to 20 (Q11.position_of 30))
    by (vm_compute; discriminate).
  split; [vm_compute; reflexivity|]. split; [exact H|].
  exact (proj1 (proj2 (proj2 (q11_quality_closed_form 20 (Q11.position_of 30)))) H).
Defined.

(** ** q10: what every run of the loop keeps *)

Lemma q10_for_loop_inv (e : Q10.env) (P : Q10.state -> Prop) (steps : list Z) :
  forall st : Q10.state,
    (forall st' s, In s steps -> P st' -> P (fst (Q10.loop_body e st' s))) ->
    P st -> P (Q10.for_loop e steps st).
Proof.
  induction steps as [|s steps IH]; intros st Hbody Hst; simpl; [exact Hst|].
  assert (Hs : P (fst (Q10.loop_body e st s))) by (apply Hbody; [left; reflexivity | exact Hst]).
  destruct (Q10.loop_body e st s) as [st' brk]. cbn [fst] in Hs.
  destruct brk; [exact Hs|].
  apply IH; [|exact Hs].
  intros st'' s' Hin. apply Hbody. right. exact Hin.
Qed.

(** The decision touches no series and not the loop variable; it moves the
    station to s2 exactly when the margin test holds and the station is on
    s1, and then notes the step unless a handover was noted before. *)
Lemma q10_decide_spec (elapsed : Q) (s : Z) (a b : Q) (st : Q10.state) :
  Q10.times (Q10.decide elapsed s a b st) = Q10.times st
  /\ Q10.ap1_quality (Q10.decide elapsed s a b st) = Q10.ap1_quality st
  /\ Q10.ap2_quality (Q10.decide elapsed s a b st) = Q10.ap2_quality st
  /\ Q10.connected_ap (Q10.decide elapsed s a b st) = Q10.connected_ap st
  /\ (if Qltb a (b - 15) && String.eqb (Q10.current_ap st) "s1"
      then Q10.current_ap (Q10.decide elapsed s a b st) = "s2"%string
           /\ Q10.handover_occurred (Q10.decide elapsed s a b st) = true
           /\ Q10.handover_step (Q10.decide elapsed s a b st)
              = (if Q10.handover_occurred st then Q10.handover_step st else s)
      else Q10.current_ap (Q10.decide elapsed s a b st) = Q10.current_ap st
           /\ Q10.handover_occurred (Q10.decide elapsed s a b st)
              = Q10.handover_occurred st
           /\ Q10.handover_step (Q10.decide elapsed s a b st) = Q10.handover_step st).
Proof.
  unfold Q10.decide.
  destruct (Qltb a (b - 15)); simpl.
  - destruct (String.eqb (Q10.current_ap st) "s1"); simpl.
    + destruct (Q10.handover_occurred st) eqn:E; simpl; rewrite ?E; repeat split.
    + repeat split.
  - destruct (String.eqb (Q10.current_ap st) "s2"); repeat split.
Qed.

(** One iteration, field by field. *)
Lemma q10_loop_body_spec (e : Q10.env) (st : Q10.state) (s : Z) :
  let st' := fst (Q10.loop_body e st s) in
  if Q10.tc_ok e s then
    Q10.times st' = Q10.times st ++ [Q10.clock e s]
    /\ Q10.ap1_quality st' = Q10.ap1_quality st ++ [q10_ap1_qual e s]
    /\ Q10.ap2_quality st' = Q10.ap2_quality st ++ [q10_ap2_qual e s]
    /\ Q10.connected_ap st' = Q10.connected_ap st ++ [Q10.current_ap st']
    /\ (if q10_margin_test e s && String.eqb (Q10.current_ap st) "s1"
        then Q10.current_ap st' = "s2"%string
             /\ Q10.handover_occurred st' = true
             /\ Q10.handover_step st'
                = (if Q10.handover_occurred st then Q10.handover_step st else s)
        else Q10.current_ap st' = Q10.current_ap st
             /\ Q10.handover_occurred st' = Q10.handover_occurred st
             /\ Q10.handover_step st' = Q10.handover_step st)
    /\ snd (Q10.loop_body e st s)
       = Q10.handover_occurred st' && (s >? Q10.handover_step st' + 5)%Z
  else
    Q10.times st' = Q10.times st
    /\ Q10.ap1_quality st' = Q10.ap1_quality st
    /\ Q10.ap2_quality st' = Q10.ap2_quality st
    /\ Q10.connected_ap st' = Q10.connected_ap st
    /\ Q10.current_ap st' = Q10.current_ap st
    /\ Q10.handover_occurred st' = Q10.handover_occurred st
    /\ Q10.handover_step st' = Q10.handover_step st
    /\ snd (Q10.loop_body e st s) = false.
Proof.
  intro st'. subst st'. unfold Q10.loop_body. cbv zeta.
  destruct (Q10.tc_ok e s); cbn [fst snd].
  - pose proof (q10_decide_spec (Q10.clock e s) s
                  (q10_ap1_qual e s) (q10_ap2_qual e s)
                  (Q10.set_route "sta1-eth1"
                     (Q10.info (Q10.Reduced (5 + s * 5) s) (Q10.set_step s st))))
      as [Ht [H1 [H2 [Hc Hd]]]].
    unfold q10_ap1_qual, q10_ap2_qual, q10_margin_test in *.
    cbn [Q10.times Q10.ap1_quality Q10.ap2_quality Q10.connected_ap
         Q10.current_ap Q10.handover_occurred Q10.handover_step
         Q10.info Q10.store Q10.set_route Q10.set_step] in *.
    rewrite Ht, H1, H2, Hc.
    repeat split; try reflexivity. exact Hd.
  - repeat split.
Qed.

(** X5 (q10/script.py lines 94-115).  For a ping summary with loss l >= 0 and
    average latency t >= 0 the quality lies in [0, 100] and does not rise when
    loss or latency rise.  When the loss or the latency cannot be read the
    quality is 0: a malformed number whatever the other field, a missing
    marker with the other field missing or non-negative. *)
Theorem q10_quality_range_and_fallback :
  (forall l t l' t' : Q,
     0 <= l -> 0 <= t -> l <= l' -> t <= t' ->
     0 <= Q10.check_connection_quality (Q10.mkPing (Q10.Number l') (Q10.Number t'))
     /\ Q10.check_connection_quality (Q10.mkPing (Q10.Number l') (Q10.Number t'))
        <= Q10.check_connection_quality (Q10.mkPing (Q10.Number l) (Q10.Number t))
     /\ Q10.check_connection_quality (Q10.mkPing (Q10.Number l) (Q10.Number t)) <= 100)
  /\ (forall f : Q10.field,
        Q10.check_connection_quality (Q10.mkPing Q10.Malformed f) == 0
        /\ Q10.check_connection_quality (Q10.mkPing f Q10.Malformed) == 0)
  /\ Q10.check_connection_quality (Q10.mkPing Q10.Absent Q10.Absent) == 0
  /\ (forall x : Q, 0 <= x ->
        Q10.check_connection_quality (Q10.mkPing Q10.Absent (Q10.Number x)) == 0
        /\ Q10.check_connection_quality (Q10.mkPing (Q10.Number x) Q10.Absent) == 0).
Proof.
  split; [|split; [|split]].
  - intros l t l' t' Hl Ht Hll Htt.
    unfold Q10.check_connection_quality; simpl.
    pose proof (Qdiv_5 t) as E. pose proof (Qdiv_5 t') as E'.
    compare_all; repeat split; lra.
  - intro f. split.
    + reflexivity.
    + unfold Q10.check_connection_quality; simpl. destruct f; reflexivity.
  - reflexivity.
  - intros x Hx. unfold Q10.check_connection_quality; simpl.
    pose proof (Qdiv_5 x) as E.
    assert (E1000 : 1000 / 5 == 200) by reflexivity.
    compare_all; split; lra.
Qed.

Lemma q10_quality_range_and_fallback_witness :
  (0 <= 1 /\ 0 <= 15 /\ 1 <= 10 /\ 15 <= 55)
  /\ Q10.check_connection_quality (Q10.mkPing (Q10.Number 10) (Q10.Number 55))
     <= Q10.check_connection_quality (Q10.mkPing (Q10.Number 1) (Q10.Number 15)).
Proof.
  assert (H1 : 0 <= 1) by (vm_compute; discriminate).
  assert (H2 : 0 <= 15) by (vm_compute; discriminate).
  assert (H3 : 1 <= 10) by (vm_compute; discriminate).
  assert (H4 : 15 <= 55) by (vm_compute; discriminate).
  split; [exact (conj H1 (conj H2 (conj H3 H4)))|].
  exact (proj1 (proj2 (proj1 q10_quality_range_and_fallback 1 15 10 55 H1 H2 H3 H4))).
Defined.

Lemma repeat_snoc {A : Type} (x : A) (n : nat) : repeat x n ++ [x] = repeat x (S n).
Proof. induction n as [|n IH]; simpl; [reflexivity|]. rewrite IH. reflexivity. Qed.

Lemma q10_steps_run_initial (e : Q10.env) : Q10.steps_run (Q10.initial e) = [].
Proof. reflexivity. Qed.

Lemma q10_series_lengths (e : Q10.env) :
  let fin := Q10.topology e in
  let n := S (List.length (filter (Q10.tc_ok e) (Q10.steps_run fin))) in
  List.length (Q10.times fin) = n
  /\ List.length (Q10.ap1_quality fin) = n
  /\ List.length (Q10.ap2_quality fin) = n
  /\ List.length (Q10.connected_ap fin) = n.
Proof.
  intros fin n. subst fin n. unfold Q10.topology.
  apply (q10_for_loop_inv e
           (fun st =>
              List.length (Q10.times st)
              = S (List.length (filter (Q10.tc_ok e) (Q10.steps_run st)))
              /\ List.length (Q10.ap1_quality st)
                 = S (List.length (filter (Q10.tc_ok e) (Q10.steps_run st)))
              /\ List.length (Q10.ap2_quality st)
                 = S (List.length (filter (Q10.tc_ok e) (Q10.steps_run st)))
              /\ List.length (Q10.connected_ap st)
                 = S (List.length (filter (Q10.tc_ok e) (Q10.steps_run st))))).
  - intros st s _ [Ht [H1 [H2 Hc]]].
    destruct (q10_loop_body_trace e st s) as [Hrun _].
    pose proof (q10_loop_body_spec e st s) as Hspec. cbv zeta in Hspec.
    rewrite Hrun, filter_app, length_app. simpl.
    destruct (Q10.tc_ok e s).
    + destruct Hspec as [Et [E1 [E2 [Ec _]]]].
      rewrite Et, E1, E2, Ec, !length_app. simpl. lia.
    + destruct Hspec as [Et [E1 [E2 [Ec _]]]].
      rewrite Et, E1, E2, Ec. simpl. lia.
  - repeat split.
Qed.

(** X6 (q10/script.py lines 139-142, 197-201).  Whatever the environment,
    the four series the plot is drawn from have the same length at the end of
    the run: one initial entry plus one entry per step whose link update
    succeeded. *)
Theorem q10_series_have_equal_length :
  forall e : Q10.env,
    let fin := Q10.topology e in
    let n := S (List.length (filter (Q10.tc_ok e) (Q10.steps_run fin))) in
    List.length (Q10.times fin) = n
    /\ List.length (Q10.ap1_quality fin) = n
    /\ List.length (Q10.ap2_quality fin) = n
    /\ List.length (Q10.connected_ap fin) = n.
Proof. exact q10_series_lengths. Qed.

(** X7 (q10/script.py lines 172-201).  The station never goes back: the
    series of connected APs is the initial AP some number of times followed by
    's2' only, and at the end the station is on the initial AP or on 's2'. *)
Theorem q10_station_never_returns :
  forall e : Q10.env,
    exists n m : nat,
      Q10.connected_ap (Q10.topology e)
      = repeat (Q10.get_current_ap e) n ++ repeat "s2"%string m
      /\ ((Q10.current_ap (Q10.topology e) = Q10.get_current_ap e /\ m = 0%nat)
          \/ Q10.current_ap (Q10.topology e) = "s2"%string).
Proof.
  intro e. unfold Q10.topology.
  apply (q10_for_loop_inv e
           (fun st =>
              exists n m : nat,
                Q10.connected_ap st
                = repeat (Q10.get_current_ap e) n ++ repeat "s2"%string m
                /\ ((Q10.current_ap st = Q10.get_current_ap e /\ m = 0%nat)
                    \/ Q10.current_ap st = "s2"%string))).
  - intros st s _ [n [m [Hc Hcur]]].
    pose proof (q10_loop_body_spec e st s) as Hspec. cbv zeta in Hspec.
    destruct (Q10.tc_ok e s).
    + destruct Hspec as [_ [_ [_ [Ec [Hd _]]]]].
      rewrite Ec, Hc.
      destruct (q10_margin_test e s && String.eqb (Q10.current_ap st) "s1").
      * destruct Hd as [Hs2 _]. rewrite Hs2.
        exists n, (S m). split; [|right; reflexivity].
        rewrite <- app_assoc, repeat_snoc. reflexivity.
      * destruct Hd as [Hsame _]. rewrite Hsame.
        destruct Hcur as [[Ha ->] | Hs2].
        -- exists (S n), 0%nat. rewrite Ha. simpl. rewrite !app_nil_r.
           split; [rewrite repeat_snoc; reflexivity | left; split; reflexivity].
        -- exists n, (S m). rewrite Hs2. split; [|right; reflexivity].
           rewrite <- app_assoc, repeat_snoc. reflexivity.
    + destruct Hspec as [_ [_ [_ [Ec [Ea _]]]]].
      exists n, m. rewrite Ec, Ea. split; assumption.
  - exists 1%nat, 0%nat. split; [reflexivity | left; split; reflexivity].
Qed.

Lemma q10_for_loop_first (e : Q10.env) :
  forall (k : nat) (a : Z) (st : Q10.state),
    (1 <= a)%Z ->
    (Q10.handover_occurred st = false /\ Q10.current_ap st = "s1"%string
     /\ q10_no_handover_before e a)
    \/ (Q10.handover_occurred st = true
        /\ q10_first_handover_at e (Q10.handover_step st)
        /\ (Q10.handover_step st < a)%Z) ->
    let fin := Q10.for_loop e (range a (a + Z.of_nat k)) st in
    (Q10.handover_occurred fin = false /\ Q10.current_ap fin = "s1"%string
     /\ q10_no_handover_before e (a + Z.of_nat k))
    \/ (Q10.handover_occurred fin = true
        /\ q10_first_handover_at e (Q10.handover_step fin)
        /\ (Q10.handover_step fin < a + Z.of_nat k)%Z).
Proof.
  induction k as [|k IH]; intros a st Ha Hinv fin; subst fin.
  - rewrite range_nil by lia. simpl. replace (a + 0)%Z with a by lia. exact Hinv.
  - rewrite (range_cons a (a + Z.of_nat (S k))) by lia.
    replace (a + Z.of_nat (S k))%Z with (a + 1 + Z.of_nat k)%Z by lia.
    simpl Q10.for_loop.
    pose proof (q10_loop_body_spec e st a) as Hspec. cbv zeta in Hspec.
    destruct (Q10.loop_body e st a) as [st' brk]. cbn [fst snd] in Hspec.
    assert (Hnext :
              (Q10.handover_occurred st' = false /\ Q10.current_ap st' = "s1"%string
               /\ q10_no_handover_before e (a + 1) /\ brk = false)
              \/ (Q10.handover_occurred st' = true
                  /\ q10_first_handover_at e (Q10.handover_step st')
                  /\ (Q10.handover_step st' < a + 1)%Z)).
    { destruct (Q10.tc_ok e a) eqn:Hok.
      - destruct Hspec as [_ [_ [_ [_ [Hd Hb]]]]].
        destruct (q10_margin_test e a) eqn:Hm; simpl in Hd.
        + destruct Hinv as [[Hocc [Hcur Hno]] | [Hocc [Hfirst Hlt]]].
          * rewrite Hcur in Hd. simpl in Hd. rewrite Hocc in Hd.
            destruct Hd as [_ [Ho' Hh']].
            right. rewrite Hh'. split; [exact Ho'|]. split; [|lia].
            repeat split; try assumption.
          * right.
            destruct (String.eqb (Q10.current_ap st) "s1");
              destruct Hd as [_ [Ho' Hh']]; rewrite ?Hocc in *;
              rewrite Hh'; (split; [congruence|]); (split; [exact Hfirst | lia]).
        + destruct Hd as [Hc' [Ho' Hh']].
          destruct Hinv as [[Hocc [Hcur Hno]] | [Hocc [Hfirst Hlt]]].
          * left. rewrite Ho', Hc'. split; [exact Hocc|]. split; [exact Hcur|].
            split.
            -- intros s Hs Hoks. destruct (Z.eq_dec s a) as [-> | Hne];
                 [exact Hm | apply Hno; [lia | exact Hoks]].
            -- rewrite Hb, Ho', Hocc. reflexivity.
          * right. rewrite Ho', Hh'. split; [exact Hocc|]. split; [exact Hfirst | lia].
      - destruct Hspec as [_ [_ [_ [_ [Hc' [Ho' [Hh' Hb]]]]]]].
        destruct Hinv as [[Hocc [Hcur Hno]] | [Hocc [Hfirst Hlt]]].
        + left. rewrite Ho', Hc'. split; [exact Hocc|]. split; [exact Hcur|].
          split; [|exact Hb].
          intros s Hs Hoks. destruct (Z.eq_dec s a) as [-> | Hne];
            [congruence | apply Hno; [lia | exact Hoks]].
        + right. rewrite Ho', Hh'. split; [exact Hocc|]. split; [exact Hfirst | lia]. }
    destruct brk.
    + destruct Hnext as [[_ [_ [_ Hb]]] | [Ho' [Hfirst Hlt]]]; [discriminate|].
      right. split; [exact Ho'|]. split; [exact Hfirst | lia].
    + apply IH; [lia|].
      destruct Hnext as [[Ho' [Hc' [Hno _]]] | H]; [left | right; exact H].
      repeat split; assumption.
Qed.

(** X8 (q10/script.py lines 148-208).  With the station initially routed via
    s1: if a handover is reported, its step is the first step with a
    successful link update at which ap1_qual < ap2_qual - 15 held; if none is
    reported, the test held at no step with a successful update. *)
Theorem q10_handover_at_first_qualifying_step :
  forall e : Q10.env,
    Q10.get_current_ap e = "s1"%string ->
    (Q10.handover_occurred (Q10.topology e) = true ->
     q10_first_handover_at e (Q10.handover_step (Q10.topology e))
     /\ (Q10.handover_step (Q10.topology e) <= 20)%Z)
    /\ (Q10.handover_occurred (Q10.topology e) = false ->
        q10_no_handover_before e 21).
Proof.
  intros e Hs1. unfold Q10.topology.
  assert (H1 : (1 <= 1)%Z) by lia.
  pose proof (q10_for_loop_first e 20 1 (Q10.initial e) H1) as Hloop.
  cbv zeta in Hloop. change (1 + Z.of_nat 20)%Z with 21%Z in Hloop.
  destruct Hloop as [[Hocc [_ Hno]] | [Hocc [Hfirst Hlt]]].
  - left. split; [reflexivity|]. split; [exact Hs1|].
    intros s Hs. lia.
  - split; intro H; [congruence | exact Hno].
  - split; intro H; [split; [exact Hfirst | lia] | congruence].
Qed.

Lemma q10_handover_at_first_qualifying_step_witness :
  Q10.get_current_ap q10_degrading = "s1"%string
  /\ Q10.handover_occurred (Q10.topology q10_degrading) = true
  /\ Q10.handover_step (Q10.topology q10_degrading) = 10%Z
  /\ q10_first_handover_at q10_degrading (Q10.handover_step (Q10.topology q10_degrading)).
Proof.
  assert (Hs1 : Q10.get_current_ap q10_degrading = "s1"%string) by reflexivity.
  assert (Hocc : Q10.handover_occurred (Q10.topology q10_degrading) = true)
    by (vm_compute; reflexivity).
  split; [exact Hs1|]. split; [exact Hocc|]. split; [vm_compute; reflexivity|].
  exact (proj1 (proj1 (q10_handover_at_first_qualifying_step q10_degrading Hs1) Hocc)).
Defined.

Lemma nth_error_map_range (f : Z -> Q) (n h : Z) :
  (0 <= h < n)%Z -> nth_error (map f (range 0 n)) (Z.to_nat h) = Some (f h).
Proof.
  intro H. unfold range. rewrite !nth_error_map, nth_error_seq.
  replace (Z.to_nat h <? Z.to_nat (n - 0))%nat with true
    by (symmetry; apply Nat.ltb_lt; lia).
  simpl. do 2 f_equal. lia.
Qed.

(** In a run without failing link update the quality series are the
    measurements of steps 0 .. n, n the last step run. *)
Lemma q10_for_loop_series (e : Q10.env) :
  (forall s, Q10.tc_ok e s = true) ->
  forall (k : nat) (a : Z) (st : Q10.state),
    (0 <= a)%Z -> Q10.step st = (a - 1)%Z ->
    Q10.ap1_quality st = map (q10_ap1_qual e) (range 0 a) ->
    Q10.ap2_quality st = map (q10_ap2_qual e) (range 0 a) ->
    let fin := Q10.for_loop e (range a (a + Z.of_nat k)) st in
    Q10.ap1_quality fin = map (q10_ap1_qual e) (range 0 (Q10.step fin + 1))
    /\ Q10.ap2_quality fin = map (q10_ap2_qual e) (range 0 (Q10.step fin + 1)).
Proof.
  intro Hok. induction k as [|k IH]; intros a st Ha Hstep H1 H2 fin; subst fin.
  - rewrite range_nil by lia. simpl. rewrite Hstep.
    replace (a - 1 + 1)%Z with a by lia. split; assumption.
  - rewrite (range_cons a (a + Z.of_nat (S k))) by lia.
    replace (a + Z.of_nat (S k))%Z with (a + 1 + Z.of_nat k)%Z by lia.
    simpl Q10.for_loop.
    pose proof (q10_loop_body_spec e st a) as Hspec. cbv zeta in Hspec.
    rewrite (Hok a) in Hspec.
    destruct (q10_loop_body_trace e st a) as [_ [Hs' _]].
    destruct (Q10.loop_body e st a) as [st' brk]. cbn [fst snd] in *.
    destruct Hspec as [_ [E1 [E2 _]]].
    assert (H1' : Q10.ap1_quality st' = map (q10_ap1_qual e) (range 0 (a + 1)))
      by (rewrite E1, H1, (range_snoc 0 a Ha), map_app; reflexivity).
    assert (H2' : Q10.ap2_quality st' = map (q10_ap2_qual e) (range 0 (a + 1)))
      by (rewrite E2, H2, (range_snoc 0 a Ha), map_app; reflexivity).
    destruct brk.
    + rewrite Hs'. split; assumption.
    + apply IH; [lia | lia | exact H1' | exact H2'].
Qed.

(** Whenever a handover is noted, its step lies in 1..20, the link update of
    that step succeeded and the margin test held there. *)
Lemma q10_handover_step_passed_test (e : Q10.env) :
  Q10.handover_occurred (Q10.topology e) = true ->
  (1 <= Q10.handover_step (Q10.topology e) <= 20)%Z
  /\ Q10.tc_ok e (Q10.handover_step (Q10.topology e)) = true
  /\ q10_margin_test e (Q10.handover_step (Q10.topology e)) = true.
Proof.
  unfold Q10.topology.
  apply (q10_for_loop_inv e
           (fun st =>
              Q10.handover_occurred st = true ->
              (1 <= Q10.handover_step st <= 20)%Z
              /\ Q10.tc_ok e (Q10.handover_step st) = true
              /\ q10_margin_test e (Q10.handover_step st) = true)).
  - intros st s Hin Hst.
    apply range_In in Hin.
    pose proof (q10_loop_body_spec e st s) as Hspec. cbv zeta in Hspec.
    destruct (Q10.tc_ok e s) eqn:Hok.
    + destruct Hspec as [_ [_ [_ [_ [Hd _]]]]].
      destruct (q10_margin_test e s) eqn:Hm; simpl in Hd.
      * destruct (String.eqb (Q10.current_ap st) "s1").
        -- destruct Hd as [_ [_ Hh']]. intros _. rewrite Hh'.
           destruct (Q10.handover_occurred st); [apply Hst; reflexivity|].
           split; [lia|]. split; assumption.
        -- destruct Hd as [_ [Ho' Hh']]. rewrite Ho', Hh'. exact Hst.
      * destruct Hd as [_ [Ho' Hh']]. rewrite Ho', Hh'. exact Hst.
    + destruct Hspec as [_ [_ [_ [_ [_ [Ho' [Hh' _]]]]]]].
      rewrite Ho', Hh'. exact Hst.
  - simpl. discriminate.
Qed.

(** X9 (q10/script.py lines 197-218).  In a run in which no link update
    fails, the two quality series hold the measurements of steps 0 .. n in
    order (n the last step run), so the summary's [ap1_quality[handover_step]]
    and [ap2_quality[handover_step]] are the qualities measured at the
    handover step, and they satisfy ap1 < ap2 - 15. *)
Theorem q10_summary_reads_handover_step :
  forall e : Q10.env,
    (forall s : Z, Q10.tc_ok e s = true) ->
    let fin := Q10.topology e in
    (Q10.ap1_quality fin = map (q10_ap1_qual e) (range 0 (Q10.step fin + 1))
     /\ Q10.ap2_quality fin = map (q10_ap2_qual e) (range 0 (Q10.step fin + 1)))
    /\ (Q10.handover_occurred fin = true ->
        q10_summary fin
        = Some (q10_ap1_qual e (Q10.handover_step fin),
                q10_ap2_qual e (Q10.handover_step fin))
        /\ q10_ap1_qual e (Q10.handover_step fin)
           < q10_ap2_qual e (Q10.handover_step fin) - 15).
Proof.
  intros e Hok fin.
  assert (Hseries :
            Q10.ap1_quality fin = map (q10_ap1_qual e) (range 0 (Q10.step fin + 1))
            /\ Q10.ap2_quality fin = map (q10_ap2_qual e) (range 0 (Q10.step fin + 1))).
  { subst fin. unfold Q10.topology.
    apply (q10_for_loop_series e Hok 20 1 (Q10.initial e)); try reflexivity. lia. }
  split; [exact Hseries|].
  intro Hocc.
  destruct (q10_handover_step_passed_test e Hocc) as [Hrange [_ Hm]].
  fold fin in Hrange, Hm.
  assert (Hstep : Q10.step fin = Z.min (Q10.handover_step fin + 6) 20).
  { subst fin. unfold Q10.topology.
    destruct (q10_for_loop_exit e Hok 20 1 (Q10.initial e) eq_refl) as [Ht _].
    { simpl. discriminate. }
    change (1 + Z.of_nat 20)%Z with 21%Z in *.
    destruct (Ht Hocc) as [_ [_ [_ H4]]]. rewrite H4. reflexivity. }
  destruct Hseries as [E1 E2].
  split.
  - unfold q10_summary. rewrite E1, E2.
    rewrite !nth_error_map_range by lia. reflexivity.
  - unfold q10_margin_test in Hm. apply Qltb_true in Hm. exact Hm.
Qed.

Lemma q10_summary_reads_handover_step_witness :
  (forall s : Z, Q10.tc_ok q10_degrading s = true)
  /\ Q10.handover_occurred (Q10.topology q10_degrading) = true
  /\ q10_summary (Q10.topology q10_degrading)
     = Some (q10_ap1_qual q10_degrading (Q10.handover_step (Q10.topology q10_degrading)),
             q10_ap2_qual q10_degrading (Q10.handover_step (Q10.topology q10_degrading))).
Proof.
  assert (Hok : forall s : Z, Q10.tc_ok q10_degrading s = true)
    by (intro s; reflexivity).
  assert (Hocc : Q10.handover_occurred (Q10.topology q10_degrading) = true)
    by (vm_compute; reflexivity).
  split; [exact Hok|]. split; [exact Hocc|].
  exact (proj1 (proj2 (q10_summary_reads_handover_step q10_degrading Hok) Hocc)).
Defined.

(** X10 (q10/script.py lines 214-218, 267-271).  The summary's lookups
    [ap1_quality[handover_step]], [ap2_quality[handover_step]] fail with an
    IndexError exactly when fewer steps had a successful link update than the
    handover step counts: failed steps leave gaps in the series that the index
    does not know of.  (With the update of step 3 failing and the handover at
    step 20 the lookup fails.) *)
Theorem q10_summary_index_error_iff :
  (forall e : Q10.env,
     q10_summary (Q10.topology e) = None
     <-> (List.length (filter (Q10.tc_ok e) (Q10.steps_run (Q10.topology e)))
          < Z.to_nat (Q10.handover_step (Q10.topology e)))%nat)
  /\ Q10.handover_step (Q10.topology q10_late_handover_fail3) = 20%Z
  /\ q10_summary (Q10.topology q10_late_handover_fail3) = None.
Proof.
  split; [|split; vm_compute; reflexivity]. intro e.
  destruct (q10_series_lengths e) as [_ [L1 [L2 _]]]. cbv zeta in L1, L2.
  unfold q10_summary.
  destruct (nth_error (Q10.ap1_quality (Q10.topology e))
              (Z.to_nat (Q10.handover_step (Q10.topology e)))) as [q1|] eqn:N1;
    destruct (nth_error (Q10.ap2_quality (Q10.topology e))
                (Z.to_nat (Q10.handover_step (Q10.topology e)))) as [q2|] eqn:N2.
  - split; [discriminate|]. intro Hlt.
    assert (Hsome : nth_error (Q10.ap1_quality (Q10.topology e))
                      (Z.to_nat (Q10.handover_step (Q10.topology e))) <> None)
      by (rewrite N1; discriminate).
    apply nth_error_Some in Hsome. lia.
  - split; [intros _|reflexivity]. apply nth_error_None in N2. lia.
  - split; [intros _|reflexivity]. apply nth_error_None in N1. lia.
  - split; [intros _|reflexivity]. apply nth_error_None in N1. lia.
Qed.

Lemma q10_for_loop_no_break (e : Q10.env) (P : Q10.state -> Prop) :
  (forall st s, P st -> P (fst (Q10.loop_body e st s))
                        /\ snd (Q10.loop_body e st s) = false) ->
  forall (steps : list Z) (st : Q10.state),
    P st ->
    Q10.for_loop e steps st
    = fold_left (fun st' s => fst (Q10.loop_body e st' s)) steps st
    /\ P (Q10.for_loop e steps st).
Proof.
  intros Hbody. induction steps as [|s steps IH]; intros st Hst; simpl.
  - split; [reflexivity | exact Hst].
  - destruct (Hbody st s Hst) as [HP Hb].
    destruct (Q10.loop_body e st s) as [st' brk]. cbn [fst snd] in *.
    subst brk. apply IH. exact HP.
Qed.

Lemma q10_fold_trace (e : Q10.env) (steps : list Z) :
  forall st : Q10.state,
    Q10.steps_run (fold_left (fun st' s => fst (Q10.loop_body e st' s)) steps st)
    = Q10.steps_run st ++ steps.
Proof.
  induction steps as [|s steps IH]; intro st; simpl.
  - rewrite app_nil_r. reflexivity.
  - rewrite IH. destruct (q10_loop_body_trace e st s) as [Hrun _].
    rewrite Hrun, <- app_assoc. reflexivity.
Qed.

(** X11 (q10/script.py lines 84-91, 126, 172-208).  If the initial route
    lookup does not show sta1-eth0 (the station starts as 's2' or 'None'), no
    handover is ever reported, whatever is measured: the station stays on its
    initial AP and all 20 steps run. *)
Theorem q10_no_handover_unless_started_on_s1 :
  forall e : Q10.env,
    Q10.get_current_ap e <> "s1"%string ->
    Q10.handover_occurred (Q10.topology e) = false
    /\ Q10.current_ap (Q10.topology e) = Q10.get_current_ap e
    /\ Q10.step (Q10.topology e) = 20%Z
    /\ Q10.steps_run (Q10.topology e) = range 1 21.
Proof.
  intros e Hne. unfold Q10.topology.
  assert (Hneq : String.eqb (Q10.get_current_ap e) "s1" = false)
    by (apply String.eqb_neq; exact Hne).
  destruct (q10_for_loop_no_break e
              (fun st => Q10.handover_occurred st = false
                         /\ Q10.current_ap st = Q10.get_current_ap e))
    with (steps := range 1 21) (st := Q10.initial e) as [Hfold [Hocc Hcur]].
  - intros st s [Ho Hc].
    pose proof (q10_loop_body_spec e st s) as Hspec. cbv zeta in Hspec.
    destruct (Q10.tc_ok e s).
    + destruct Hspec as [_ [_ [_ [_ [Hd Hb]]]]].
      rewrite Hc, Hneq, andb_false_r in Hd. destruct Hd as [Hc' [Ho' _]].
      rewrite Hb, Ho', Hc', Ho. split; [split; reflexivity | reflexivity].
    + destruct Hspec as [_ [_ [_ [_ [Hc' [Ho' [_ Hb]]]]]]].
      rewrite Hb, Ho', Hc'. split; [split; assumption | reflexivity].
  - split; reflexivity.
  - split; [exact Hocc|]. split; [exact Hcur|].
    rewrite Hfold. split.
    + change (range 1 21) with (range 1 (20 + 1)).
      rewrite (range_snoc 1 20) by lia. rewrite fold_left_app. simpl fold_left at 1.
      destruct (q10_loop_body_trace e
                  (fold_left (fun st' s => fst (Q10.loop_body e st' s))
                             (range 1 20) (Q10.initial e)) 20) as [_ [Hs _]].
      exact Hs.
    + rewrite q10_fold_trace. reflexivity.
Qed.

Lemma q10_no_handover_unless_started_on_s1_witness :
  Q10.get_current_ap
    {| Q10.route_info := "10.0.0.100 dev sta1-eth1 src 10.0.0.11";
       Q10.tc_ok := Q10.tc_ok q10_degrading;
       Q10.ping_ap1 := Q10.ping_ap1 q10_degrading;
       Q10.ping_ap2 := Q10.ping_ap2 q10_degrading;
       Q10.clock := Q10.clock q10_degrading |} <> "s1"%string
  /\ Q10.handover_occurred
       (Q10.topology
          {| Q10.route_info := "10.0.0.100 dev sta1-eth1 src 10.0.0.11";
             Q10.tc_ok := Q10.tc_ok q10_degrading;
             Q10.ping_ap1 := Q10.ping_ap1 q10_degrading;
             Q10.ping_ap2 := Q10.ping_ap2 q10_degrading;
             Q10.clock := Q10.clock q10_degrading |}) = false.
Proof.
  assert (H : Q10.get_current_ap
                {| Q10.route_info := "10.0.0.100 dev sta1-eth1 src 10.0.0.11";
                   Q10.tc_ok := Q10.tc_ok q10_degrading;
                   Q10.ping_ap1 := Q10.ping_ap1 q10_degrading;
                   Q10.ping_ap2 := Q10.ping_ap2 q10_degrading;
                   Q10.clock := Q10.clock q10_degrading |} <> "s1"%string)
    by (vm_compute; discriminate).
  split; [exact H|].
  exact (proj1 (q10_no_handover_unless_started_on_s1 _ H)).
Defined.

(** ** q6, q7, q8: the linear model on arbitrary step counts *)

Lemma range_app (a b c : Z) : (a <= b <= c)%Z -> range a c = range a b ++ range b c.
Proof.
  remember (Z.to_nat (b - a)) as k eqn:Hk. revert a Hk.
  induction k as [|k IH]; intros a Hk H.
  - assert (a = b) by lia. subst a. rewrite (range_nil b b) by lia. reflexivity.
  - rewrite (range_cons a c), (range_cons a b) by lia. simpl. f_equal.
    apply IH; lia.
Qed.

Lemma q6_should_use_ap2_iff (p : Q) : Q6.should_use_ap2 p = true <-> 1 # 2 < p.
Proof.
  unfold Q6.should_use_ap2, Q6.ap1_new, Q6.ap2_new; simpl.
  rewrite andb_true_iff. unfold Qgtb. rewrite !Qltb_true.
  compare_all; (split; [intros [H1 H2] | intro H; split]); lra.
Qed.

Lemma position_gt_half (s n : Z) :
  (0 < n)%Z -> (1 # 2 < Q6.position_of s n <-> (n < 2 * s)%Z).
Proof.
  intro Hn. unfold Q6.position_of.
  assert (Hpos : 0 < inject_Z n) by (rewrite (Zlt_Qlt 0 n) in Hn; exact Hn).
  split; intro H.
  - assert (H2 : (1 # 2) * inject_Z n < inject_Z s).
    { apply (Qmult_lt_r _ _ (/ inject_Z n)); [apply Qinv_lt_0_compat; exact Hpos|].
      rewrite <- Qmult_assoc, Qmult_inv_r by (intro E; rewrite E in Hpos; discriminate).
      rewrite Qmult_1_r. exact H. }
    assert (H3 : inject_Z n < inject_Z (2 * s))
      by (rewrite inject_Z_mult; change (inject_Z 2) with 2; lra).
    rewrite <- Zlt_Qlt in H3. exact H3.
  - apply Qlt_shift_div_l; [exact Hpos|].
    assert (H3 : inject_Z n < inject_Z (2 * s)) by (rewrite <- Zlt_Qlt; exact H).
    rewrite inject_Z_mult in H3. change (inject_Z 2) with 2 in H3. lra.
Qed.

Lemma q6_loop_body_spec (n : Z) (st : Q6.state) (s : Z) :
  let p := Q6.position_of s n in
  Q6.handover_events (Q6.loop_body n st s)
  = Q6.handover_events st
    ++ (if Q6.should_use_ap2 p && (Q6.current_link st =? 1)%Z
        then [Q6.HandoverTo s p 2]
        else if negb (Q6.should_use_ap2 p) && (Q6.current_link st =? 2)%Z
             then [Q6.HandoverTo s p 1] else [])
  /\ Q6.current_link (Q6.loop_body n st s)
     = (if Q6.should_use_ap2 p && (Q6.current_link st =? 1)%Z then 2
        else if negb (Q6.should_use_ap2 p) && (Q6.current_link st =? 2)%Z then 1
             else Q6.current_link st)%Z
  /\ Q6.tc (Q6.loop_body n st s) = Q6.tc st ++ [(Q6.ap1_new p, Q6.ap2_new p)].
Proof.
  intro p. subst p. unfold Q6.loop_body, Q6.handover_events. cbv zeta.
  destruct (Q6.should_use_ap2 (Q6.position_of s n) && (Q6.current_link st =? 1)%Z);
    [|destruct (negb (Q6.should_use_ap2 (Q6.position_of s n))
                && (Q6.current_link st =? 2)%Z)];
    simpl; repeat (rewrite filter_app; simpl); rewrite ?app_nil_r;
    repeat split; reflexivity.
Qed.

(** While [should_use_ap2] stays at [b] and the link is the one it asks for,
    nothing is handed over. *)
Lemma q6_fold_steady (n : Z) (b : bool) (steps : list Z) :
  (forall s, In s steps -> Q6.should_use_ap2 (Q6.position_of s n) = b) ->
  forall st : Q6.state,
    Q6.current_link st = (if b then 2 else 1)%Z ->
    Q6.handover_events (fold_left (Q6.loop_body n) steps st) = Q6.handover_events st
    /\ Q6.current_link (fold_left (Q6.loop_body n) steps st) = (if b then 2 else 1)%Z.
Proof.
  induction steps as [|s steps IH]; intros Hall st Hlink; simpl.
  - split; [reflexivity | exact Hlink].
  - destruct (q6_loop_body_spec n st s) as [He [Hl _]]. cbv zeta in He, Hl.
    rewrite (Hall s (or_introl eq_refl)), Hlink in He, Hl.
    assert (Hl' : Q6.current_link (Q6.loop_body n st s) = (if b then 2 else 1)%Z)
      by (rewrite Hl; destruct b; reflexivity).
    assert (He' : Q6.handover_events (Q6.loop_body n st s) = Q6.handover_events st)
      by (rewrite He; destruct b; simpl; apply app_nil_r).
    destruct (IH (fun s' Hs' => Hall s' (or_intror Hs')) _ Hl') as [H1 H2].
    rewrite H1, He'. split; [reflexivity | exact H2].
Qed.

(** X12 (q6/script.py lines 27-99).  For every step count n >= 1 the loop
    writes exactly one handover event: to AP2, at step n / 2 + 1 (integer
    division), the first step past the midpoint; it ends connected to AP2 and
    never hands back to AP1.  With n = 0 the first division raises; with
    n < 0 the loop body never runs. *)
Theorem q6_one_handover_for_every_step_count :
  (forall n : Z, (1 <= n)%Z ->
     option_map Q6.handover_events (Q6.adjust_link_quality n)
     = Some [Q6.HandoverTo (n / 2 + 1) (Q6.position_of (n / 2 + 1) n) 2]
     /\ option_map Q6.current_link (Q6.adjust_link_quality n) = Some 2%Z)
  /\ Q6.adjust_link_quality 0 = None
  /\ (forall n : Z, (n < 0)%Z -> Q6.adjust_link_quality n = Some Q6.initial).
Proof.
  split; [|split].
  - intros n Hn. unfold Q6.adjust_link_quality.
    replace (n =? 0)%Z with false by (symmetry; apply Z.eqb_neq; lia).
    simpl option_map.
    assert (Hdiv : (2 * (n / 2) <= n < 2 * (n / 2) + 2)%Z)
      by (Z.div_mod_to_equations; lia).
    set (k := (n / 2 + 1)%Z) in *.
    assert (Hk : (0 <= k <= n)%Z) by (subst k; lia).
    rewrite (range_app 0 k (n + 1)) by lia.
    rewrite (range_cons k (n + 1)) by lia.
    rewrite !fold_left_app. cbn [fold_left].
    destruct (q6_fold_steady n false (range 0 k)) with (st := Q6.initial)
      as [Hev0 Hl0]; [|reflexivity|].
    { intros s Hs. apply range_In in Hs.
      destruct (Q6.should_use_ap2 (Q6.position_of s n)) eqn:E; [|reflexivity].
      apply q6_should_use_ap2_iff, position_gt_half in E; lia. }
    set (st0 := fold_left (Q6.loop_body n) (range 0 k) Q6.initial) in *.
    destruct (q6_loop_body_spec n st0 k) as [Hev1 [Hl1 _]]. cbv zeta in Hev1, Hl1.
    assert (Hyes : Q6.should_use_ap2 (Q6.position_of k n) = true)
      by (apply q6_should_use_ap2_iff, position_gt_half; subst k; lia).
    rewrite Hyes, Hl0 in Hev1, Hl1. simpl in Hev1, Hl1.
    destruct (q6_fold_steady n true (range (k + 1) (n + 1)))
      with (st := Q6.loop_body n st0 k) as [Hev2 Hl2]; [|exact Hl1|].
    { intros s Hs. apply range_In in Hs.
      apply q6_should_use_ap2_iff, position_gt_half; subst k; lia. }
    rewrite Hev2, Hev1, Hev0, Hl2. split; reflexivity.
  - reflexivity.
  - intros n Hn. unfold Q6.adjust_link_quality.
    replace (n =? 0)%Z with false by (symmetry; apply Z.eqb_neq; lia).
    rewrite range_nil by lia. reflexivity.
Qed.

Lemma q6_one_handover_for_every_step_count_witness :
  (1 <= 7)%Z
  /\ option_map Q6.handover_events (Q6.adjust_link_quality 7)
     = Some [Q6.HandoverTo (7 / 2 + 1) (Q6.position_of (7 / 2 + 1) 7) 2].
Proof.
  assert (H : (1 <= 7)%Z) by lia.
  split; [exact H|].
  exact (proj1 (proj1 q6_one_handover_for_every_step_count 7%Z H)).
Defined.

Lemma fold_left_inv {A B : Type} (f : A -> B -> A) (P : A -> Prop) (l : list B) :
  (forall a b, In b l -> P a -> P (f a b)) ->
  forall a, P a -> P (fold_left f l a).
Proof.
  induction l as [|b l IH]; intros Hf a Ha; simpl; [exact Ha|].
  apply IH.
  - intros a' b' Hin. apply Hf. right. exact Hin.
  - apply Hf; [left; reflexivity | exact Ha].
Qed.

(** X13 (q6/script.py lines 60-66, q7/script.py lines 397-403,
    q8/script.py lines 272-278).  AP2's parameters are AP1's mirrored along
    the path: at every position p, AP2 gets what AP1 gets at 1 - p. *)
Theorem linear_model_is_mirrored :
  forall p : Q,
    link_eq (Q6.ap2_new p) (Q6.ap1_new (1 - p))
    /\ link_eq (Q6.ap1_new p) (Q6.ap2_new (1 - p))
    /\ link_eq (Q78.ap2_link p) (Q78.ap1_link (1 - p))
    /\ link_eq (Q78.ap1_link p) (Q78.ap2_link (1 - p)).
Proof.
  intro p. unfold link_eq, Q6.ap1_new, Q6.ap2_new, Q78.ap1_link, Q78.ap2_link; simpl.
  repeat split; compare_all; lra.
Qed.

Lemma linear_model_in_range (p : Q) :
  0 <= p -> p <= 1 ->
  update_in_range 1 (Q6.ap1_new p, Q6.ap2_new p)
  /\ update_in_range 2 (Q78.quality_model p).
Proof.
  intros H0 H1.
  unfold update_in_range, link_in_range, Q78.quality_model,
    Q6.ap1_new, Q6.ap2_new, Q78.ap1_link, Q78.ap2_link; simpl.
  repeat split; compare_all; lra.
Qed.

Lemma q78_loop_body_tc (qm : Q -> link_quality * link_quality)
    (e : Q78.env) (monitor : bool) (duration : Z) (st : Q78.state) (step : Z) :
  Q78.tc (Q78.loop_body_with qm e monitor duration st step)
  = Q78.tc st ++ [qm (inject_Z step / inject_Z duration)].
Proof.
  unfold Q78.loop_body_with. cbv zeta.
  destruct (Q78.handover_needed _ _ _); reflexivity.
Qed.

Lemma range_length (lo hi : Z) : List.length (range lo hi) = Z.to_nat (hi - lo).
Proof. unfold range. rewrite length_map, length_seq. reflexivity. Qed.

Lemma q6_fold_tc_length (n : Z) (steps : list Z) :
  forall st : Q6.state,
    List.length (Q6.tc (fold_left (Q6.loop_body n) steps st))
    = (List.length (Q6.tc st) + List.length steps)%nat.
Proof.
  induction steps as [|s steps IH]; intro st; simpl; [lia|].
  rewrite IH. destruct (q6_loop_body_spec n st s) as [_ [_ Htc]]. cbv zeta in Htc.
  rewrite Htc, length_app. simpl. lia.
Qed.

Lemma q78_fold_tc_length (qm : Q -> link_quality * link_quality)
    (e : Q78.env) (monitor : bool) (duration : Z) (steps : list Z) :
  forall st : Q78.state,
    List.length (Q78.tc (fold_left (Q78.loop_body_with qm e monitor duration) steps st))
    = (List.length (Q78.tc st) + List.length steps)%nat.
Proof.
  induction steps as [|s steps IH]; intro st; simpl; [lia|].
  rewrite IH, q78_loop_body_tc, length_app. simpl. lia.
Qed.

Lemma initial_updates_in_range :
  Forall (update_in_range 1) (Q6.tc Q6.initial)
  /\ forall e, Forall (update_in_range 2) (Q78.tc (Q78.initial e)).
Proof.
  split; [|intro e]; constructor; try constructor;
    unfold update_in_range, link_in_range; simpl;
    repeat split; vm_compute; discriminate.
Qed.

(** X14 (q6/script.py lines 32-75, q7/script.py lines 368-407,
    q8/script.py lines 248-282).  Every parameter set the scripts push to
    [tc], the initial one included, is within the ranges their comments name:
    bandwidth 1..20 Mbit, delay 1..20 ms (2..20 ms in q7/q8), loss 0..50 %,
    for every step count >= 1; the loss is never negative there although the
    model does not floor it.  The number of updates is the step count plus
    two. *)
Theorem tc_updates_stay_in_range :
  forall n : Z, (1 <= n)%Z ->
    (exists st, Q6.adjust_link_quality n = Some st
                /\ Forall (update_in_range 1) (Q6.tc st)
                /\ List.length (Q6.tc st) = Z.to_nat (n + 2))
    /\ (forall (e : Q78.env) (monitor : bool),
          Forall (update_in_range 2) (Q78.tc (Q78.simulate_mobility e monitor n))
          /\ List.length (Q78.tc (Q78.simulate_mobility e monitor n))
             = Z.to_nat (n + 2)).
Proof.
  intros n Hn. split.
  - unfold Q6.adjust_link_quality.
    replace (n =? 0)%Z with false by (symmetry; apply Z.eqb_neq; lia).
    eexists. split; [reflexivity|]. split.
    + apply (fold_left_inv (Q6.loop_body n)
               (fun st => Forall (update_in_range 1) (Q6.tc st))).
      * intros st s Hin HF. apply range_In in Hin.
        destruct (q6_loop_body_spec n st s) as [_ [_ Htc]]. cbv zeta in Htc.
        destruct (q6_position_in_unit s n) as [Hp0 Hp1]; [lia | lia |].
        rewrite Htc. apply Forall_app. split; [exact HF|].
        constructor; [|constructor].
        apply (linear_model_in_range _ Hp0 Hp1).
      * apply initial_updates_in_range.
    + rewrite q6_fold_tc_length, range_length. simpl. lia.
  - intros e monitor. unfold Q78.simulate_mobility, Q78.simulate_mobility_with.
    replace (n =? 0)%Z with false by (symmetry; apply Z.eqb_neq; lia).
    split.
    + apply (fold_left_inv (Q78.loop_body_with Q78.quality_model e monitor n)
               (fun st => Forall (update_in_range 2) (Q78.tc st))).
      * intros st s Hin HF. apply range_In in Hin.
        destruct (q6_position_in_unit s n) as [Hp0 Hp1]; [lia | lia |].
        rewrite q78_loop_body_tc. apply Forall_app. split; [exact HF|].
        constructor; [|constructor].
        apply (linear_model_in_range _ Hp0 Hp1).
      * apply initial_updates_in_range.
    + rewrite q78_fold_tc_length, range_length. simpl. lia.
Qed.

Lemma tc_updates_stay_in_range_witness :
  (1 <= 20)%Z
  /\ Forall (update_in_range 2) (Q78.tc (Q78.simulate_mobility q78_sample true 20)).
Proof.
  assert (H : (1 <= 20)%Z) by lia.
  split; [exact H|].
  exact (proj1 (proj2 (tc_updates_stay_in_range 20 H) q78_sample true)).
Defined.

Lemma q78_loop_body_monitor (qm : Q -> link_quality * link_quality)
    (e : Q78.env) (monitor : bool) (duration : Z) (st : Q78.state) (step : Z) :
  let position := inject_Z step / inject_Z duration in
  Q78.monitor_events (Q78.loop_body_with qm e monitor duration st step)
  = Q78.monitor_events st
    ++ (if Q78.handover_needed e position st && monitor then [position] else []).
Proof.
  intro position. subst position. unfold Q78.loop_body_with. cbv zeta.
  change (Q78.handover_needed e (inject_Z step / inject_Z duration)
            {| Q78.default_via := Q78.default_via st;
               Q78.tc := Q78.tc st ++ [qm (inject_Z step / inject_Z duration)];
               Q78.handover_events := Q78.handover_events st;
               Q78.monitor_events := Q78.monitor_events st |})
    with (Q78.handover_needed e (inject_Z step / inject_Z duration) st).
  destruct (Q78.handover_needed e (inject_Z step / inject_Z duration) st);
    destruct monitor; simpl; rewrite ?app_nil_r; reflexivity.
Qed.

(** Steps at which the handover test fails leave route and events alone. *)
Lemma q78_fold_quiet (e : Q78.env) (monitor : bool) (duration : Z) (steps : list Z) :
  forall st : Q78.state,
    (forall s, In s steps ->
               Q78.handover_needed e (inject_Z s / inject_Z duration)
                 (Q78.mkState (Q78.default_via st) [] [] []) = false) ->
    let fin := fold_left (Q78.loop_body_with Q78.quality_model e monitor duration)
                         steps st in
    Q78.handover_events fin = Q78.handover_events st
    /\ Q78.default_via fin = Q78.default_via st
    /\ Q78.monitor_events fin = Q78.monitor_events st.
Proof.
  induction steps as [|s steps IH]; intros st Hall; simpl.
  - repeat split.
  - destruct (q78_loop_body_handover Q78.quality_model e monitor duration st s)
      as [_ Hno].
    pose proof (q78_loop_body_monitor Q78.quality_model e monitor duration st s) as Hm.
    cbv zeta in Hno, Hm.
    assert (Hn : Q78.handover_needed e (inject_Z s / inject_Z duration) st = false)
      by (exact (Hall s (or_introl eq_refl))).
    rewrite Hn in Hm. simpl in Hm. rewrite app_nil_r in Hm.
    destruct (Hno Hn) as [He Hv].
    destruct (IH (Q78.loop_body_with Q78.quality_model e monitor duration st s))
      as [H1 [H2 H3]].
    + intros s' Hs'. rewrite Hv. apply Hall. right. exact Hs'.
    + rewrite H1, H2, H3, He, Hv, Hm. repeat split.
Qed.

(** X15 (q7/script.py lines 337-430, q8/script.py lines 217-309).  For every
    duration d >= 1, when the route text via AP1 names AP1 and the one via AP2
    does not, the run records exactly one handover, at step d / 2 + 1 (the
    first step with position > 0.5), and ends with the default route via AP2;
    the monitor, when there is one, is told of exactly that event. *)
Theorem q78_one_handover_for_every_duration :
  forall (e : Q78.env) (monitor : bool) (d : Z),
    (1 <= d)%Z ->
    Q78.route_via_ap1 e (Q78.mkState (Some (Q78.ap1_IP e)) [] [] []) = true ->
    Q78.route_via_ap1 e (Q78.mkState (Some (Q78.ap2_IP e)) [] [] []) = false ->
    let k := (d / 2 + 1)%Z in
    let fin := Q78.simulate_mobility e monitor d in
    Q78.handover_events fin = [(Q78.clock e k, inject_Z k / inject_Z d)]
    /\ Q78.default_via fin = Some (Q78.ap2_IP e)
    /\ Q78.monitor_events fin
       = (if monitor then [inject_Z k / inject_Z d] else []).
Proof.
  intros e monitor d Hd Hap1 Hap2 k fin. subst fin.
  unfold Q78.simulate_mobility, Q78.simulate_mobility_with.
  replace (d =? 0)%Z with false by (symmetry; apply Z.eqb_neq; lia).
  assert (Hdiv : (2 * (d / 2) <= d < 2 * (d / 2) + 2)%Z)
    by (Z.div_mod_to_equations; lia).
  assert (Hk : (0 <= k <= d)%Z) by (subst k; lia).
  assert (Hhalf : forall s, Qgtb (inject_Z s / inject_Z d) 0.5 = true <-> (d < 2 * s)%Z).
  { intro s. unfold Qgtb. rewrite Qltb_true.
    rewrite <- (position_gt_half s d) by lia. unfold Q6.position_of.
    split; intro H; [apply (Qle_lt_trans _ 0.5) | apply (Qle_lt_trans _ (1 # 2))];
      try exact H; vm_compute; discriminate. }
  rewrite (range_app 0 k (d + 1)) by lia.
  rewrite (range_cons k (d + 1)) by lia.
  rewrite !fold_left_app. cbn [fold_left].
  destruct (q78_fold_quiet e monitor d (range 0 k) (Q78.initial e)) as [He0 [Hv0 Hm0]].
  { intros s Hs. apply range_In in Hs. unfold Q78.handover_needed.
    destruct (Qgtb (inject_Z s / inject_Z d) 0.5) eqn:E; [|reflexivity].
    apply Hhalf in E. lia. }
  set (st0 := fold_left (Q78.loop_body_with Q78.quality_model e monitor d)
                        (range 0 k) (Q78.initial e)) in *.
  assert (Hneed : Q78.handover_needed e (inject_Z k / inject_Z d) st0 = true).
  { unfold Q78.handover_needed. apply andb_true_iff. split.
    - apply Hhalf. subst k. lia.
    - unfold Q78.route_via_ap1 in *. rewrite Hv0. exact Hap1. }
  destruct (q78_loop_body_handover Q78.quality_model e monitor d st0 k) as [Hyes _].
  pose proof (q78_loop_body_monitor Q78.quality_model e monitor d st0 k) as Hmon.
  cbv zeta in Hyes, Hmon. rewrite Hneed in Hmon.
  destruct (Hyes Hneed) as [He1 Hv1].
  set (st1 := Q78.loop_body_with Q78.quality_model e monitor d st0 k) in *.
  destruct (q78_fold_quiet e monitor d (range (k + 1) (d + 1)) st1) as [He2 [Hv2 Hm2]].
  { intros s _. unfold Q78.handover_needed, Q78.route_via_ap1 in *.
    rewrite Hv1. simpl. simpl in Hap2. rewrite Hap2. apply andb_false_r. }
  rewrite He2, Hv2, Hm2, He1, Hv1, Hmon, He0, Hm0.
  split; [reflexivity|]. split; [reflexivity|].
  destruct monitor; reflexivity.
Qed.

Lemma q78_one_handover_for_every_duration_witness :
  (1 <= 9)%Z
  /\ Q78.route_via_ap1 q78_sample (Q78.mkState (Some (Q78.ap1_IP q78_sample)) [] [] []) = true
  /\ Q78.route_via_ap1 q78_sample (Q78.mkState (Some (Q78.ap2_IP q78_sample)) [] [] []) = false
  /\ Q78.handover_events (Q78.simulate_mobility q78_sample true 9)
     = [(Q78.clock q78_sample (9 / 2 + 1), inject_Z (9 / 2 + 1) / inject_Z 9)].
Proof.
  assert (H : (1 <= 9)%Z) by lia.
  assert (H1 : Q78.route_via_ap1 q78_sample
                 (Q78.mkState (Some (Q78.ap1_IP q78_sample)) [] [] []) = true)
    by reflexivity.
  assert (H2 : Q78.route_via_ap1 q78_sample
                 (Q78.mkState (Some (Q78.ap2_IP q78_sample)) [] [] []) = false)
    by reflexivity.
  split; [exact H|]. split; [exact H1|]. split; [exact H2|].
  exact (proj1 (q78_one_handover_for_every_duration q78_sample true 9 H H1 H2)).
Defined.

(** ** q8: made-up throughput *)

(** X16 (q8/script.py lines 117-141).  The monitor's fallback throughput: for
    every elapsed time >= 0 the assumed position lies in [0, 1] and the
    throughput in [4, 20] Mbit/s; it is at its lowest, 4, exactly for
    positions in [0.4, 0.6), and from 20 s on it stays at 10, half of what it
    starts with. *)
Theorem q8_fallback_throughput_range :
  forall elapsed : Q,
    0 <= elapsed ->
    let position := Q8.position_at elapsed in
    let throughput := Q8.synthetic_throughput position in
    (0 <= position /\ position <= 1)
    /\ (4 <= throughput /\ throughput <= 20)
    /\ (throughput == 4 <-> 0.4 <= position /\ position < 0.6)
    /\ (20 <= elapsed -> throughput == 10)
    /\ Q8.synthetic_throughput (Q8.position_at 0) == 20.
Proof.
  intros elapsed He position throughput. subst throughput position.
  unfold Q8.synthetic_throughput, Q8.position_at.
  assert (E20 : elapsed / 20 == elapsed * (1 # 20)) by (unfold Qdiv; reflexivity).
  split; [|split; [|split; [|split]]].
  - compare_all; lra.
  - compare_all;
      repeat match goal with
             | |- context [?x / 2] =>
                 let E := fresh "E" in
                 assert (E : x / 2 == x * (1 # 2)) by (unfold Qdiv; reflexivity);
                 revert E; generalize (x / 2); intros
             end; lra.
  - compare_all;
      repeat match goal with
             | |- context [?x / 2] =>
                 let E := fresh "E" in
                 assert (E : x / 2 == x * (1 # 2)) by (unfold Qdiv; reflexivity);
                 revert E; generalize (x / 2); intros
             end; (split; [intro H; split | intros [H1 H2]]); lra.
  - intro H20. compare_all;
      repeat match goal with
             | |- context [?x / 2] =>
                 let E := fresh "E" in
                 assert (E : x / 2 == x * (1 # 2)) by (unfold Qdiv; reflexivity);
                 revert E; generalize (x / 2); intros
             end; lra.
  - vm_compute. reflexivity.
Qed.

Lemma q8_fallback_throughput_range_witness :
  0 <= 10
  /\ Q8.synthetic_throughput (Q8.position_at 10) == 4
  /\ 4 <= Q8.synthetic_throughput (Q8.position_at 10).
Proof.
  assert (H : 0 <= 10) by (vm_compute; discriminate).
  split; [exact H|]. split; [vm_compute; reflexivity|].
  exact (proj1 (proj1 (proj2 (q8_fallback_throughput_range 10 H)))).
Defined.

(** X17 (q8/script.py lines 184-215).  The synthetic data file: whatever the
    noise, it has 401 rows; every row is the handover event (10 s, 0 Mbit/s,
    position 0.5) or a sample with a throughput of at least 0.1, a time in
    [0, 40) and the position min(1, time / 20) in [0, 1]. *)
Theorem q8_synthetic_rows_floor :
  forall (noise : Z -> Q) (time_point throughput position : Q),
    In (time_point, throughput, position)
       (Q8.generate_synthetic_throughput_data noise) ->
    List.length (Q8.generate_synthetic_throughput_data noise) = 401%nat
    /\ ((time_point, throughput, position) = (10, 0, 0.5)
        \/ (0.1 <= throughput
            /\ 0 <= time_point /\ time_point < 40
            /\ 0 <= position /\ position <= 1
            /\ position = py_min 1 (time_point / 20))).
Proof.
  intros noise t thr pos Hin.
  unfold Q8.generate_synthetic_throughput_data in *.
  split.
  - rewrite length_app, length_map, range_length. reflexivity.
  - apply in_app_or in Hin. destruct Hin as [Hin | Hin].
    + right. apply in_map_iff in Hin. destruct Hin as [i [Hrow Hi]].
      apply range_In in Hi. unfold Q8.synthetic_row in Hrow.
      inversion Hrow; subst; clear Hrow.
      assert (H0 : inject_Z 0 <= inject_Z i) by (rewrite <- Zle_Qle; lia).
      assert (H4 : inject_Z i < inject_Z 400) by (rewrite <- Zlt_Qlt; lia).
      change (inject_Z 0) with 0 in H0. change (inject_Z 400) with 400 in H4.
      assert (E10 : inject_Z i / 10 == inject_Z i * (1 # 10))
        by (unfold Qdiv; reflexivity).
      assert (E20 : inject_Z i / 10 / 20 == inject_Z i / 10 * (1 # 20))
        by (unfold Qdiv; reflexivity).
      split; [apply (proj1 (py_max_lub _ _))|].
      split; [lra|]. split; [lra|].
      split; [|split; [|reflexivity]]; compare_all; lra.
    + left. destruct Hin as [Hin | []]. symmetry. exact Hin.
Qed.

Lemma q8_synthetic_rows_floor_witness :
  In (fst (fst (Q8.synthetic_row 3 0)), snd (fst (Q8.synthetic_row 3 0)),
      snd (Q8.synthetic_row 3 0))
     (Q8.generate_synthetic_throughput_data (fun _ => 3))
  /\ List.length (Q8.generate_synthetic_throughput_data (fun _ => 3)) = 401%nat.
Proof.
  assert (H : In (fst (fst (Q8.synthetic_row 3 0)), snd (fst (Q8.synthetic_row 3 0)),
                  snd (Q8.synthetic_row 3 0))
                 (Q8.generate_synthetic_throughput_data (fun _ => 3)))
    by (left; reflexivity).
  split; [exact H|].
  exact (proj1 (q8_synthetic_rows_floor (fun _ => 3) _ _ _ H)).
Defined.

(** X18 (q8/script.py lines 184-205).  Without noise the synthetic curve
    never comes back: it starts at 20, is at most 10 from 8 s on, is at the
    floor 0.1 at 12 s, and from 20 s on stays at 10, half of where it
    started. *)
Theorem q8_noiseless_curve_recovers_half :
  forall i : Z,
    (0 <= i < 400)%Z ->
    let throughput := snd (fst (Q8.synthetic_row 0 i)) in
    throughput <= 20
    /\ ((80 <= i)%Z -> throughput <= 10)
    /\ ((200 <= i)%Z -> throughput == 10)
    /\ snd (fst (Q8.synthetic_row 0 0)) == 20
    /\ snd (fst (Q8.synthetic_row 0 120)) == 0.1.
Proof.
  intros i Hi throughput. subst throughput.
  unfold Q8.synthetic_row. cbn [fst snd].
  assert (H0 : inject_Z 0 <= inject_Z i) by (rewrite <- Zle_Qle; lia).
  assert (H4 : inject_Z i < inject_Z 400) by (rewrite <- Zlt_Qlt; lia).
  change (inject_Z 0) with 0 in H0. change (inject_Z 400) with 400 in H4.
  assert (E20 : inject_Z i / 10 / 20 == inject_Z i * (1 # 200))
    by (unfold Qdiv; change (/ 10) with (1 # 10); change (/ 20) with (1 # 20); ring).
  split; [|split; [|split; [|split]]].
  - compare_all; lra.
  - intro H8.
    assert (H8' : inject_Z 80 <= inject_Z i) by (rewrite <- Zle_Qle; lia).
    change (inject_Z 80) with 80 in H8'.
    compare_all; lra.
  - intro H2.
    assert (H2' : inject_Z 200 <= inject_Z i) by (rewrite <- Zle_Qle; lia).
    change (inject_Z 200) with 200 in H2'.
    compare_all; lra.
  - vm_compute. reflexivity.
  - vm_compute. reflexivity.
Qed.

Lemma q8_noiseless_curve_recovers_half_witness :
  (0 <= 399 < 400)%Z /\ snd (fst (Q8.synthetic_row 0 399)) <= 20.
Proof.
  assert (H : (0 <= 399 < 400)%Z) by lia.
  split; [exact H|].
  exact (proj1 (q8_noiseless_curve_recovers_half 399 H)).
Defined.

(** ** q7: made-up ping times *)

Lemma sq_half_bounds (p : Q) :
  0 <= p -> p <= 1 -> 0 <= 4 * (p - 0.5) ^ 2 /\ 4 * (p - 0.5) ^ 2 <= 1.
Proof.
  intros H0 H1. simpl.
  assert (A : 0 <= (p - 0.5) * (p - 0.5)).
  { destruct (Qlt_le_dec p 0.5).
    - setoid_replace ((p - 0.5) * (p - 0.5)) with ((0.5 - p) * (0.5 - p)) by ring.
      apply Qmult_le_0_compat; lra.
    - apply Qmult_le_0_compat; lra. }
  assert (B : 0 <= p * (1 - p)) by (apply Qmult_le_0_compat; lra).
  assert (E : (p - 0.5) * (p - 0.5) == (1 # 4) - p * (1 - p)) by ring.
  split; lra.
Qed.

Lemma q7_position_of_range (i num_pings : Z) :
  (0 <= i < num_pings)%Z ->
  0 <= Q7.position_of i num_pings /\ Q7.position_of i num_pings < 1.
Proof.
  intro Hi. unfold Q7.position_of.
  assert (Hn : 0 < inject_Z num_pings)
    by (change 0 with (inject_Z 0); rewrite <- Zlt_Qlt; lia).
  split.
  - apply Qle_shift_div_l; [exact Hn|]. rewrite Qmult_0_l.
    change 0 with (inject_Z 0). rewrite <- Zle_Qle. lia.
  - apply Qlt_shift_div_r; [exact Hn|]. rewrite Qmult_1_l.
    rewrite <- Zlt_Qlt. lia.
Qed.

(** X19 (q7/script.py lines 39-62).  For every ping [i] of the [num_pings]
    written and every jitter in [-5, 5], the position is in [0, 1), the ping
    time written is between 15 and 205 ms, it is the same at mirrored
    positions, and the loss probability is 0.8 exactly for
    48 * num_pings < 100 * i < 55 * num_pings (0.01 otherwise). *)
Theorem q7_synthetic_ping_time_range :
  forall (i num_pings : Z) (jitter : Q),
    (0 <= i < num_pings)%Z ->
    -5 <= jitter -> jitter <= 5 ->
    let position := Q7.position_of i num_pings in
    (0 <= position /\ position < 1)
    /\ (15 <= Q7.ping_time position jitter /\ Q7.ping_time position jitter <= 205)
    /\ Q7.ping_time (1 - position) jitter == Q7.ping_time position jitter
    /\ (Q7.loss_probability position
        = if ((48 * num_pings <? 100 * i) && (100 * i <? 55 * num_pings))%Z
          then 0.8 else 0.01).
Proof.
  intros i n jitter Hi Hj1 Hj2 position.
  destruct (q7_position_of_range i n Hi) as [Hp0 Hp1].
  fold position in Hp0, Hp1.
  split; [split; assumption|].
  split.
  - unfold Q7.ping_time.
    destruct (sq_half_bounds position Hp0 (Qlt_le_weak _ _ Hp1)) as [Hs0 Hs1].
    revert Hs0 Hs1. generalize (4 * (position - 0.5) ^ 2). intros s Hs0 Hs1.
    split; lra.
  - split.
    + unfold Q7.ping_time. simpl. ring.
    + unfold Q7.loss_probability, Qltb, position, Q7.position_of.
      assert (Hn : (0 < n)%Z) by lia.
      assert (E1 : Qle_bool (inject_Z i / inject_Z n) 0.48 = (100 * i <=? 48 * n)%Z).
      { destruct n as [|n'|n']; try lia.
        unfold Qle_bool, Qdiv, Qinv, Qmult, inject_Z. simpl Qnum. simpl Qden.
        apply eq_true_iff_eq. rewrite !Z.leb_le. lia. }
      assert (E2 : Qle_bool 0.55 (inject_Z i / inject_Z n) = (55 * n <=? 100 * i)%Z).
      { destruct n as [|n'|n']; try lia.
        unfold Qle_bool, Qdiv, Qinv, Qmult, inject_Z. simpl Qnum. simpl Qden.
        apply eq_true_iff_eq. rewrite !Z.leb_le. lia. }
      rewrite E1, E2.
      rewrite <- !Z.ltb_antisym. reflexivity.
Qed.

Lemma q7_synthetic_ping_time_range_witness :
  (0 <= 50 < 100)%Z /\ -5 <= 5 /\ 5 <= 5
  /\ Q7.ping_time (Q7.position_of 50 100) 5 <= 205
  /\ Q7.ping_time (Q7.position_of 50 100) 5 == 205.
Proof.
  assert (H : (0 <= 50 < 100)%Z) by lia.
  assert (H1 : -5 <= 5) by (vm_compute; discriminate).
  assert (H2 : 5 <= 5) by (vm_compute; discriminate).
  split; [exact H|]. split; [exact H1|]. split; [exact H2|].
  split; [|vm_compute; reflexivity].
  exact (proj2 (proj1 (proj2 (q7_synthetic_ping_time_range 50 100 5 H H1 H2)))).
Defined.

(** ** q11: the marks of [plot_ping_results] *)

(** X20 (q11/script.py lines 274-280).  Spike detection marks rising edges
    only: a marked index [i] is at least 1 and below the number of samples,
    its RTT is above 1.5 times the average while the one before is below,
    and the next index is never marked as well. *)
Theorem q11_spikes_are_rising_edges :
  forall (rtts : list Q) (i : nat),
    In i (Q11Plot.spike_indices rtts) ->
    (1 <= i < List.length rtts)%nat
    /\ Q11Plot.avg_rtt rtts * 1.5 < nth i rtts 0
    /\ nth (i - 1) rtts 0 < Q11Plot.avg_rtt rtts * 1.5
    /\ ~ In (S i) (Q11Plot.spike_indices rtts)
    /\ In (inject_Z (Z.of_nat i) * 0.5) (Q11Plot.rtt_handovers rtts).
Proof.
  intros rtts i Hin.
  assert (Hin' := Hin).
  unfold Q11Plot.spike_indices in Hin. apply filter_In in Hin.
  destruct Hin as [Hseq Hsp]. apply in_seq in Hseq.
  unfold Q11Plot.is_spike in Hsp. apply andb_prop in Hsp.
  destruct Hsp as [Hhi Hlo].
  unfold Qgtb in Hhi. apply Qltb_true in Hhi. apply Qltb_true in Hlo.
  split; [lia|]. split; [exact Hhi|]. split; [exact Hlo|]. split.
  - intro Hnext. unfold Q11Plot.spike_indices in Hnext.
    apply filter_In in Hnext. destruct Hnext as [_ Hsp].
    unfold Q11Plot.is_spike in Hsp. apply andb_prop in Hsp.
    destruct Hsp as [_ Hlo']. apply Qltb_true in Hlo'.
    replace (S i - 1)%nat with i in Hlo' by lia.
    apply (Qlt_irrefl (nth i rtts 0)). eapply Qlt_trans; eassumption.
  - unfold Q11Plot.rtt_handovers.
    apply (in_map (fun i => inject_Z (Z.of_nat i) * 0.5)). exact Hin'.
Qed.

Lemma q11_spikes_are_rising_edges_witness :
  In 2%nat (Q11Plot.spike_indices [20; 21; 90; 95; 20])
  /\ ~ In 3%nat (Q11Plot.spike_indices [20; 21; 90; 95; 20]).
Proof.
  assert (H : In 2%nat (Q11Plot.spike_indices [20; 21; 90; 95; 20]))
    by (vm_compute; left; reflexivity).
  split; [exact H|].
  exact (proj1 (proj2 (proj2 (proj2 (q11_spikes_are_rising_edges _ _ H))))).
Defined.

(** X21 (q11/script.py lines 243-252, 266-280).  On the ping data the script
    makes up itself -- the simulated file and the dummy series -- spike
    detection finds exactly the two planted spikes, at samples 15 and 35,
    that is at 7.5 s and 17.5 s. *)
Theorem q11_fallback_spikes_are_the_planted_ones :
  Q11Plot.spike_indices Q11Plot.simulated_rtts = [15%nat; 35%nat]
  /\ Q11Plot.spike_indices Q11Plot.dummy_rtts = [15%nat; 35%nat]
  /\ Q11Plot.Qeqb_list (Q11Plot.rtt_handovers Q11Plot.simulated_rtts) [7.5; 17.5]
     = true
  /\ Q11Plot.Qeqb_list (Q11Plot.rtt_handovers Q11Plot.dummy_rtts) [7.5; 17.5]
     = true.
Proof.
  split; [|split; [|split]]; vm_compute; reflexivity.
Qed.

(** X22 (q11/script.py lines 116-214, 294-299).  Whatever tc does, the run's
    two handovers are drawn inside the time axis, at 11/30 and 22/30 of its
    length; on the made-up ping data (60 samples, axis to 29.5 s) that is
    more than 3 s after each of the two RTT spikes. *)
Theorem q11_simulation_markers_on_axis :
  forall (tc_ok : Z -> bool) (max_time : Q),
    0 <= max_time ->
    let markers :=
      Q11Plot.simulation_markers
        (Q11.handover_positions (Q11.topology tc_ok)) max_time in
    Forall (fun t => 0 <= t /\ t <= max_time) markers
    /\ Q11Plot.Qeqb_list markers [(11 # 30) * max_time; (22 # 30) * max_time] = true
    /\ Q11Plot.Qeqb_list
         (Q11Plot.simulation_markers
            (Q11.handover_positions (Q11.topology tc_ok))
            (Q11Plot.max_times (List.length Q11Plot.simulated_rtts)))
         [7.5 + (199 # 60); 17.5 + (124 # 30)] = true.
Proof.
  intros tc_ok T HT markers. subst markers.
  unfold Q11.topology.
  destruct (q11_core_fields _ _ _ _ _ (q11_run_core tc_ok)) as [_ [_ [Hh _]]].
  rewrite Hh. cbn [Q11Plot.simulation_markers map].
  assert (E1 : Q11Plot.handover_time (Q11.position_of 11) T == (11 # 30) * T)
    by (unfold Q11Plot.handover_time, Q11.position_of, Q11.total_steps, Qdiv;
        change (/ inject_Z 30) with (1 # 30); change (/ 140) with (1 # 140);
        change (inject_Z 11) with 11; ring).
  assert (E2 : Q11Plot.handover_time (Q11.position_of 22) T == (22 # 30) * T)
    by (unfold Q11Plot.handover_time, Q11.position_of, Q11.total_steps, Qdiv;
        change (/ inject_Z 30) with (1 # 30); change (/ 140) with (1 # 140);
        change (inject_Z 22) with 22; ring).
  split; [|split].
  - repeat constructor; lra.
  - unfold Q11Plot.Qeqb_list. cbn [List.length Nat.eqb combine forallb fst snd andb].
    apply Qeq_bool_iff in E1, E2. rewrite E1, E2. reflexivity.
  - vm_compute. reflexivity.
Qed.

Lemma q11_simulation_markers_on_axis_witness :
  0 <= 30
  /\ Forall (fun t => 0 <= t /\ t <= 30)
       (Q11Plot.simulation_markers
          (Q11.handover_positions (Q11.topology always_ok)) 30).
Proof.
  assert (H : 0 <= 30) by (vm_compute; discriminate).
  split; [exact H|].
  exact (proj1 (q11_simulation_markers_on_axis always_ok 30 H)).
Defined.

(** ** q7: the ping file and its analysis *)

Section Q7Parsing.
Import Q7.

Lemma py_in_cons (sep : string) (a : ascii) (s : string) :
  py_in sep (String a s) = String.prefix sep (String a s) || py_in sep s.
Proof.
  unfold py_in. cbn [String.index].
  destruct (String.prefix sep (String a s)); [reflexivity|].
  destruct (String.index 0 sep s); reflexivity.
Qed.

Lemma numeric_char_cases (c : ascii) :
  numeric_char c = true ->
  In c (list_ascii_of_string "0123456789.-").
Proof.
  unfold numeric_char. intro H. apply existsb_exists in H.
  destruct H as [x [Hin Hx]]. apply Ascii.eqb_eq in Hx. subst x. exact Hin.
Qed.

Lemma numeric_cons (c : ascii) (s : string) :
  forallb numeric_char (list_ascii_of_string (String c s)) = true ->
  numeric_char c = true /\ forallb numeric_char (list_ascii_of_string s) = true.
Proof. cbn [list_ascii_of_string forallb]. apply andb_prop. Qed.

Ltac numeric_cases H :=
  apply numeric_char_cases in H; cbn [list_ascii_of_string In] in H;
  repeat (destruct H as [H | H]; [subst|]); try contradiction.

(** A run of number characters holds no letter: searching for a word that
    starts with a letter goes on behind it. *)
Lemma py_in_skip (c0 : ascii) (sep' s r : string) :
  numeric_char c0 = false ->
  forallb numeric_char (list_ascii_of_string s) = true ->
  py_in (String c0 sep') (s ++ r) = py_in (String c0 sep') r.
Proof.
  intros Hc. induction s as [|c s IH]; intro Hs; [reflexivity|].
  apply numeric_cons in Hs. destruct Hs as [Hc1 Hs].
  cbn [String.append]. rewrite py_in_cons, (IH Hs).
  cbn [String.prefix].
  destruct (Ascii.ascii_dec c0 c) as [->|Hne]; [congruence|].
  destruct (Ascii.eqb_spec c0 c) as [->|_]; [congruence|]. reflexivity.
Qed.

Lemma prefix_skip (c0 : ascii) (sep' : string) (c : ascii) (s : string) :
  numeric_char c0 = false -> numeric_char c = true ->
  String.prefix (String c0 sep') (String c s) = false.
Proof.
  intros H0 H1. cbn [String.prefix].
  destruct (Ascii.ascii_dec c0 c) as [->|Hne]; [congruence|reflexivity].
Qed.

Lemma after_first_skip (c0 : ascii) (sep' s r : string) :
  numeric_char c0 = false ->
  forallb numeric_char (list_ascii_of_string s) = true ->
  after_first (String c0 sep') (s ++ r) = after_first (String c0 sep') r.
Proof.
  intros Hc. induction s as [|c s IH]; intro Hs; [reflexivity|].
  apply numeric_cons in Hs. destruct Hs as [Hc1 Hs].
  cbn [String.append]. cbn [after_first].
  rewrite (prefix_skip _ _ _ _ Hc Hc1). exact (IH Hs).
Qed.

Lemma before_first_skip (c0 : ascii) (sep' s r : string) :
  numeric_char c0 = false ->
  forallb numeric_char (list_ascii_of_string s) = true ->
  before_first (String c0 sep') (s ++ r)
  = (s ++ before_first (String c0 sep') r)%string.
Proof.
  intros Hc. induction s as [|c s IH]; intro Hs; [reflexivity|].
  apply numeric_cons in Hs. destruct Hs as [Hc1 Hs].
  cbn [String.append]. cbn [before_first].
  rewrite (prefix_skip _ _ _ _ Hc Hc1), (IH Hs). reflexivity.
Qed.

Lemma numeric_not_space (c : ascii) : numeric_char c = true -> is_space c = false.
Proof. intro H. numeric_cases H; reflexivity. Qed.

Lemma take_word_numeric (s r : string) :
  forallb numeric_char (list_ascii_of_string s) = true ->
  take_word (s ++ String " " r) = s.
Proof.
  induction s as [|c s IH]; intro Hs; [reflexivity|].
  apply numeric_cons in Hs. destruct Hs as [Hc Hs].
  cbn [String.append take_word]. rewrite (numeric_not_space c Hc), (IH Hs).
  reflexivity.
Qed.

Lemma first_word_numeric (s r : string) :
  numeric s = true -> first_word (s ++ String " " r) = Some s.
Proof.
  unfold numeric. intro H. apply andb_prop in H. destruct H as [Hne Hs].
  destruct s as [|c s]; [discriminate|].
  unfold first_word.
  destruct (numeric_cons _ _ Hs) as [Hc _].
  cbn [String.append lstrip]. rewrite (numeric_not_space c Hc).
  change (String c (s ++ String " " r)) with (String c s ++ String " " r)%string.
  rewrite (take_word_numeric _ _ Hs). reflexivity.
Qed.

Lemma py_in_numeric (c0 : ascii) (sep' s : string) :
  numeric_char c0 = false ->
  forallb numeric_char (list_ascii_of_string s) = true ->
  py_in (String c0 sep') s = false.
Proof.
  intros Hc. induction s as [|c s IH]; intro Hs; [reflexivity|].
  apply numeric_cons in Hs. destruct Hs as [Hc1 Hs].
  rewrite py_in_cons, (prefix_skip _ _ _ _ Hc Hc1), (IH Hs). reflexivity.
Qed.

Lemma string_of_uint_numeric (d : Decimal.uint) :
  forallb numeric_char (list_ascii_of_string (NilEmpty.string_of_uint d)) = true.
Proof. induction d; cbn; try assumption; reflexivity. Qed.

Lemma str_numeric (n : Z) : numeric (str n) = true.
Proof.
  unfold str, NilZero.string_of_int.
  destruct (Z.to_int n) as [d|d].
  - unfold NilZero.string_of_uint. destruct d; try reflexivity;
      unfold numeric; cbn [NilEmpty.string_of_uint String.eqb negb andb];
      cbn [list_ascii_of_string forallb]; rewrite string_of_uint_numeric; reflexivity.
  - unfold NilZero.string_of_uint. destruct d; try reflexivity;
      unfold numeric; cbn [NilEmpty.string_of_uint String.eqb negb andb];
      cbn [list_ascii_of_string forallb]; rewrite string_of_uint_numeric; reflexivity.
Qed.

Lemma numeric_chars (s : string) :
  numeric s = true -> forallb numeric_char (list_ascii_of_string s) = true.
Proof. unfold numeric. intro H. apply andb_prop in H. exact (proj2 H). Qed.

Lemma prefix_app (sep r : string) : String.prefix sep (sep ++ r) = true.
Proof.
  induction sep as [|c sep IH]; [destruct r; reflexivity|].
  cbn [String.append String.prefix].
  destruct (Ascii.ascii_dec c c) as [_|Hne]; [exact IH|congruence].
Qed.

Lemma py_in_found (sep pre r : string) : py_in sep (pre ++ sep ++ r) = true.
Proof.
  induction pre as [|c pre IH].
  - cbn [String.append]. unfold py_in.
    pose proof (prefix_app sep r) as Hp.
    destruct (sep ++ r)%string as [|a s'] eqn:E.
    + destruct sep; [reflexivity|discriminate].
    + cbn [String.index]. rewrite Hp. reflexivity.
  - cbn [String.append]. rewrite py_in_cons, IH. apply orb_true_r.
Qed.

(** Walk a search over the literal parts of a line and the numbers in it. *)
Ltac py_in_step :=
  rewrite py_in_cons;
  match goal with
  | |- context [String.prefix ?p ?s] =>
      let b := eval cbn in (String.prefix p s) in
      lazymatch b with
      | false => change (String.prefix p s) with false
      end
  end;
  cbn [orb].

Ltac py_in_walk :=
  cbn [String.append];
  repeat first
    [ rewrite py_in_skip by (first [reflexivity | apply numeric_chars; assumption
                                    | apply numeric_chars; apply str_numeric])
    | py_in_step ].

Lemma py_in_app_r (sep s r : string) :
  py_in sep r = true -> py_in sep (s ++ r) = true.
Proof.
  intro H. induction s as [|c s IH]; [exact H|].
  cbn [String.append]. rewrite py_in_cons, IH. apply orb_true_r.
Qed.

Lemma reply_line_tests (seq : Z) (time : string) :
  py_in "bytes from" (reply_line seq time) = true
  /\ py_in "time=" (reply_line seq time) = true.
Proof.
  split.
  - exact (py_in_found "bytes from" "64 " _).
  - unfold reply_line.
    apply (py_in_app_r _ "64 bytes from 10.0.0.2: icmp_seq=").
    apply (py_in_app_r _ (str seq)).
    exact (py_in_found "time=" " ttl=64 " _).
Qed.

Lemma reply_line_time_part (seq : Z) (time : string) :
  numeric time = true ->
  split_part1 "time=" (reply_line seq time) = Some (time ++ " ms")%string.
Proof.
  intro Ht. unfold split_part1, reply_line.
  assert (E : after_first "time="
                ("64 bytes from 10.0.0.2: icmp_seq=" ++ str seq
                 ++ " ttl=64 time=" ++ time ++ " ms")
              = Some (time ++ " ms")%string).
  { cbn [String.append].
    repeat (cbn [after_first];
            match goal with
            | |- context [String.prefix ?p ?s] =>
                let b := eval cbn in (String.prefix p s) in
                lazymatch b with
                | false => change (String.prefix p s) with false
                end
            end; cbv iota).
    rewrite after_first_skip
      by (first [reflexivity | apply numeric_chars; apply str_numeric]).
    cbn [String.append].
    repeat (cbn [after_first];
            match goal with
            | |- context [String.prefix ?p ?s] =>
                let b := eval cbn in (String.prefix p s) in
                lazymatch b with
                | false => change (String.prefix p s) with false
                end
            end; cbv iota).
    cbn [after_first].
    change (String "t" (String "i" (String "m" (String "e" (String "=" (time ++ " ms"))))))
      with ("time=" ++ (time ++ " ms"))%string.
    rewrite prefix_app. reflexivity. }
  rewrite E. cbn [option_map].
  rewrite before_first_skip by (first [reflexivity | apply numeric_chars; exact Ht]).
  reflexivity.
Qed.

Lemma parse_reply_line (float : string -> option Q) (st : state) (seq : Z)
    (time : string) :
  numeric time = true ->
  parse_line float st (reply_line seq time)
  = mkState (ping_times st) (lost_packets st) (seq_counter st + 1).
Proof.
  intro Ht. unfold parse_line.
  destruct (reply_line_tests seq time) as [-> ->]. cbn [andb].
  rewrite (reply_line_time_part seq time Ht).
  change (time ++ " ms")%string with (time ++ String " " "ms")%string.
  rewrite (first_word_numeric _ _ Ht).
  rewrite (py_in_numeric "m" "s" time eq_refl (numeric_chars _ Ht)).
  reflexivity.
Qed.

Lemma parse_unreachable_line (float : string -> option Q) (st : state) (seq : Z) :
  parse_line float st (unreachable_line seq)
  = mkState (ping_times st) (lost_packets st ++ [(seq_counter st + 1)%Z])
            (seq_counter st + 1).
Proof.
  unfold parse_line.
  assert (E1 : py_in "bytes from" (unreachable_line seq) = false).
  { unfold unreachable_line. py_in_walk. reflexivity. }
  assert (E2 : py_in "Destination Host Unreachable" (unreachable_line seq) = true).
  { unfold unreachable_line.
    apply (py_in_app_r _ "From 10.0.0.1 icmp_seq=").
    apply (py_in_app_r _ (str seq)).
    exact (py_in_found "Destination Host Unreachable" " " ""). }
  rewrite E1, E2. reflexivity.
Qed.

Lemma parse_other_line (float : string -> option Q) (st : state) (line : string) :
  py_in "bytes from" line = false ->
  py_in "Destination Host Unreachable" line = false ->
  py_in "Request timed out" line = false ->
  parse_line float st line = st.
Proof.
  intros E1 E2 E3. unfold parse_line. rewrite E1, E2, E3. reflexivity.
Qed.

Lemma parse_summary_line (float : string -> option Q) (st : state) (n : Z)
    (delivered pct : string) :
  numeric delivered = true -> numeric pct = true ->
  parse_line float st
    (str n ++ " packets transmitted, " ++ delivered ++ " received, "
     ++ pct ++ "% packet loss")
  = st.
Proof.
  intros Hd Hp. apply parse_other_line; py_in_walk; reflexivity.
Qed.

Lemma q7_parse_body (float : string -> option Q) (lost : Z -> bool)
    (time : Z -> string) (k : nat) :
  (forall i, numeric (time i) = true) ->
  forall st,
    fold_left (parse_line float)
      (map (fun i => if lost i then unreachable_line (i + 1)
                     else reply_line (i + 1) (time i))
           (range 0 (Z.of_nat k))) st
    = mkState (ping_times st)
        (lost_packets st
         ++ map (fun i => (seq_counter st + i + 1)%Z)
                (filter lost (range 0 (Z.of_nat k))))
        (seq_counter st + Z.of_nat k).
Proof.
  intros Ht st. induction k as [|k IH].
  - cbn. rewrite app_nil_r, Z.add_0_r. destruct st; reflexivity.
  - replace (Z.of_nat (S k)) with (Z.of_nat k + 1)%Z by lia.
    rewrite range_snoc by lia.
    rewrite map_app, fold_left_app, IH. cbn [map fold_left].
    rewrite filter_app, map_app. cbn [filter].
    destruct (lost (Z.of_nat k)).
    + rewrite parse_unreachable_line. cbn [ping_times lost_packets seq_counter map].
      rewrite <- app_assoc. f_equal. lia.
    + rewrite (parse_reply_line _ _ _ _ (Ht _)).
      cbn [ping_times lost_packets seq_counter map].
      rewrite app_nil_r. f_equal. lia.
Qed.

Lemma q7_y_body_no_times (st : state) (l : list Z) :
  ping_times st = [] ->
  forall acc,
    snd acc = 0%nat ->
    Forall (fun v => v = None) (fst acc) ->
    snd (fold_left (y_body st) l acc) = 0%nat
    /\ Forall (fun v => v = None) (fst (fold_left (y_body st) l acc)).
Proof.
  intro Hp. induction l as [|i l IH]; intros [y idx] Hi Hy; [split; assumption|].
  cbn [fold_left]. cbn [fst snd] in Hi, Hy. subst idx. apply IH.
  - unfold y_body. rewrite Hp. cbn [List.length Nat.ltb Nat.leb].
    destruct (existsb (Z.eqb i) (lost_packets st)); reflexivity.
  - unfold y_body. rewrite Hp. cbn [List.length Nat.ltb Nat.leb].
    destruct (existsb (Z.eqb i) (lost_packets st)); cbn [fst];
      apply Forall_app; split; try assumption; repeat constructor.
Qed.

Lemma q7_valid_y_no_times (st : state) : ping_times st = [] -> valid_y st = [].
Proof.
  intro Hp. unfold valid_y, y_values.
  destruct (q7_y_body_no_times st (range 1 (total_pings st + 1)) Hp ([], 0%nat)
              eq_refl (Forall_nil _)) as [_ H].
  induction H as [|v y Hv _ IH]; [reflexivity|].
  unfold some_values in *. cbn [flat_map]. rewrite Hv, IH. reflexivity.
Qed.

(** X23 (q7/script.py lines 35-76 and 103-133, 166-180).  Reading back the
    file that [generate_synthetic_ping_data] writes, [analyze_results] gets
    no ping time at all: a reply line ends in "time=<number> ms", the word
    after "time=" is the bare number, and the test ['ms' in time_part] fails.
    So whatever the losses and the times written, [ping_times] is empty,
    [lost_packets] holds the numbers of the unreachable lines, the total
    counts lost packets only, [valid_y] is empty (nothing is plotted), and
    the loss reported is 100% as soon as one packet is lost. *)
Theorem q7_own_ping_file_yields_no_times :
  forall (float : string -> option Q) (num_pings : Z) (lost : Z -> bool)
         (time : Z -> string) (delivered pct : string),
    (0 <= num_pings)%Z ->
    (forall i, numeric (time i) = true) ->
    numeric delivered = true -> numeric pct = true ->
    let st := parse float
                (generate_synthetic_ping_data num_pings lost time delivered pct) in
    ping_times st = []
    /\ lost_packets st
       = map (fun i => (i + 1)%Z) (filter lost (range 0 num_pings))
    /\ seq_counter st = num_pings
    /\ total_pings st = Z.of_nat (List.length (filter lost (range 0 num_pings)))
    /\ valid_y st = []
    /\ (lost_packets st <> [] -> packet_loss st == 100).
Proof.
  intros float n lost time delivered pct Hn Ht Hd Hp st.
  assert (Hst : st = mkState [] (map (fun i => (i + 1)%Z) (filter lost (range 0 n))) n).
  { subst st. unfold parse, generate_synthetic_ping_data.
    rewrite !fold_left_app. cbn [fold_left].
    rewrite (parse_other_line float initial
               "PING synthetic.data (10.0.0.2): 56 data bytes")
      by reflexivity.
    rewrite <- (Z2Nat.id n Hn) at 1.
    rewrite (q7_parse_body float lost time (Z.to_nat n) Ht initial).
    cbn [ping_times lost_packets seq_counter initial app].
    rewrite (parse_other_line float _ "") by reflexivity.
    rewrite (parse_other_line float _ "--- 10.0.0.2 ping statistics ---")
      by reflexivity.
    rewrite (parse_summary_line float _ _ _ _ Hd Hp).
    rewrite (parse_other_line float _
               "rtt min/avg/max/mdev = 15.323/45.832/198.521/32.421 ms")
      by reflexivity.
    rewrite Z2Nat.id by exact Hn. reflexivity. }
  assert (Hpt : ping_times st = []) by (rewrite Hst; reflexivity).
  split; [exact Hpt|].
  split; [rewrite Hst; reflexivity|].
  split; [rewrite Hst; reflexivity|].
  split; [rewrite Hst; unfold total_pings; cbn [ping_times lost_packets List.length];
          rewrite length_map; reflexivity|].
  split; [exact (q7_valid_y_no_times st Hpt)|].
  intro Hl. unfold packet_loss, total_pings. rewrite Hpt. cbn [List.length Nat.add].
  destruct (lost_packets st) as [|x l]; [congruence|].
  cbn [List.length].
  rewrite (Z.max_r 1 (Z.of_nat (S (List.length l)))) by lia.
  field. intro H0.
  unfold Qeq in H0. cbn [Qnum Qden inject_Z] in H0. lia.
Qed.

Lemma q7_own_ping_file_yields_no_times_witness :
  (0 <= 3)%Z
  /\ numeric "42.000" = true /\ numeric "2" = true /\ numeric "33.3" = true
  /\ ping_times
       (parse (fun _ => Some 1)
          (generate_synthetic_ping_data 3 (fun i => (i =? 1)%Z)
             (fun _ => "42.000"%string) "2" "33.3")) = [].
Proof.
  assert (H : (0 <= 3)%Z) by lia.
  split; [exact H|]. split; [reflexivity|]. split; [reflexivity|].
  split; [reflexivity|].
  exact (proj1 (q7_own_ping_file_yields_no_times (fun _ => Some 1) 3
                  (fun i => (i =? 1)%Z) (fun _ => "42.000"%string) "2" "33.3"
                  H (fun _ => eq_refl) eq_refl eq_refl)).
Defined.

Lemma StronglySorted_snoc (l : list Z) (x : Z) :
  StronglySorted Z.lt l -> Forall (fun y => (y < x)%Z) l ->
  StronglySorted Z.lt (l ++ [x]).
Proof.
  induction 1 as [|a l Hs IH Ha]; intro Hx.
  - repeat constructor.
  - inversion Hx; subst. cbn [app]. constructor; [apply IH; assumption|].
    apply Forall_app. split; [assumption|]. repeat constructor. assumption.
Qed.

Lemma q7_parse_inv_counter (st : state) (pt : list Q) :
  parse_inv st ->
  (List.length pt <= S (List.length (ping_times st)))%nat ->
  parse_inv (mkState pt (lost_packets st) (seq_counter st + 1)).
Proof.
  intros [Ht [Hs Hb]] Hl. unfold parse_inv, total_pings in *.
  cbn [ping_times lost_packets seq_counter].
  split; [lia|]. split; [exact Hs|].
  eapply Forall_impl; [|exact Hb]. cbn beta. intros; lia.
Qed.

Lemma q7_parse_line_inv (float : string -> option Q) (st : state) (line : string) :
  parse_inv st -> parse_inv (parse_line float st line).
Proof.
  intro H. unfold parse_line.
  destruct (py_in "bytes from" line && py_in "time=" line).
  - destruct (split_part1 "time=" line) as [part1|];
      [|apply q7_parse_inv_counter; [exact H|lia]].
    destruct (first_word part1) as [time_part|];
      [|apply q7_parse_inv_counter; [exact H|lia]].
    destruct (py_in "ms" time_part);
      [|apply q7_parse_inv_counter; [exact H|lia]].
    destruct (float (remove_ms time_part)) as [v|];
      apply q7_parse_inv_counter; try exact H; try lia.
    rewrite length_app. cbn [List.length]. lia.
  - destruct (py_in "Destination Host Unreachable" line
              || py_in "Request timed out" line); [|exact H].
    destruct H as [Ht [Hs Hb]]. unfold parse_inv, total_pings in *.
    cbn [ping_times lost_packets seq_counter].
    split; [rewrite length_app; cbn [List.length]; lia|].
    split.
    + apply StronglySorted_snoc; [exact Hs|].
      eapply Forall_impl; [|exact Hb]. cbn beta. intros; lia.
    + apply Forall_app. split.
      * eapply Forall_impl; [|exact Hb]. cbn beta. intros; lia.
      * repeat constructor; lia.
Qed.

Lemma q7_parse_inv_holds (float : string -> option Q) (lines : list string) :
  parse_inv (parse float lines).
Proof.
  unfold parse. apply fold_left_inv.
  - intros a b _. apply q7_parse_line_inv.
  - unfold parse_inv, total_pings. cbn. split; [lia|]. split; constructor.
Qed.

Lemma existsb_eqb_In (i : Z) (l : list Z) :
  existsb (Z.eqb i) l = true <-> In i l.
Proof.
  rewrite existsb_exists. split.
  - intros [x [Hx He]]. apply Z.eqb_eq in He. subst. exact Hx.
  - intro H. exists i. split; [exact H|apply Z.eqb_refl].
Qed.

Lemma filter_none {A : Type} (f : A -> bool) (l : list A) :
  (forall x, In x l -> f x = false) -> filter f l = [].
Proof.
  induction l as [|a l IH]; intro H; [reflexivity|].
  cbn [filter]. rewrite (H a (or_introl eq_refl)).
  apply IH. intros x Hx. apply H. right. exact Hx.
Qed.

(** An increasing list inside [lo, hi) is what filtering the range by
    membership gives back. *)
Lemma filter_range_sorted (l : list Z) :
  StronglySorted Z.lt l ->
  forall lo hi,
    Forall (fun x => (lo <= x < hi)%Z) l ->
    filter (fun i => existsb (Z.eqb i) l) (range lo hi) = l.
Proof.
  induction 1 as [|x l Hs IH Hx]; intros lo hi Hb.
  - apply filter_none. reflexivity.
  - inversion Hb as [|? ? Hx1 Hb1]; subst.
    rewrite (range_app lo x hi) by lia.
    rewrite (range_cons x hi) by lia.
    rewrite filter_app. cbn [filter existsb]. rewrite Z.eqb_refl. cbn [orb].
    assert (E1 : filter (fun i => (i =? x)%Z || existsb (Z.eqb i) l) (range lo x) = []).
    { apply filter_none. intros i Hi. apply range_In in Hi.
      apply orb_false_iff. split; [apply Z.eqb_neq; lia|].
      apply not_true_iff_false. intro Hc. apply existsb_eqb_In in Hc.
      rewrite Forall_forall in Hx. specialize (Hx i Hc). lia. }
    rewrite E1. cbn [app]. f_equal.
    transitivity (filter (fun i => existsb (Z.eqb i) l) (range (x + 1) hi)).
    + apply filter_ext_in. intros i Hi. apply range_In in Hi.
      replace (i =? x)%Z with false by (symmetry; apply Z.eqb_neq; lia).
      reflexivity.
    + apply IH. rewrite Forall_forall in *. intros y Hy.
      specialize (Hx y Hy). specialize (Hb1 y Hy). lia.
Qed.

Lemma filter_count {A : Type} (f : A -> bool) (l : list A) :
  (List.length (filter f l) + List.length (filter (fun x => negb (f x)) l))%nat
  = List.length l.
Proof.
  induction l as [|a l IH]; [reflexivity|].
  cbn [filter]. destruct (f a); cbn [negb List.length]; lia.
Qed.

(** The loop that rebuilds [y]: as long as as many places are left that are
    not lost as there are times left, every time is used and every lost
    place gets [None]. *)
Lemma q7_y_loop (st : state) (rest : list Z) :
  forall (y : list (option Q)) (idx : nat),
    (idx + List.length
             (filter (fun i => negb (existsb (Z.eqb i) (lost_packets st))) rest))%nat
    = List.length (ping_times st) ->
    exists ys,
      fold_left (y_body st) rest (y, idx)
      = (y ++ ys, List.length (ping_times st))
      /\ List.length ys = List.length rest
      /\ some_values ys = skipn idx (ping_times st)
      /\ none_places rest ys
         = filter (fun i => existsb (Z.eqb i) (lost_packets st)) rest.
Proof.
  induction rest as [|i rest IH]; intros y idx Hc.
  - exists []. cbn [filter List.length] in Hc. rewrite Nat.add_0_r in Hc. subst idx.
    cbn [fold_left]. rewrite app_nil_r, skipn_all. repeat split; reflexivity.
  - cbn [fold_left filter] in *. unfold y_body at 2.
    destruct (existsb (Z.eqb i) (lost_packets st)) eqn:Hhit; cbn [negb] in Hc.
    + destruct (IH (y ++ [None]) idx Hc) as [ys [Hf [Hl [Hv Hn]]]].
      exists (None :: ys). rewrite Hf, <- app_assoc. cbn [app List.length].
      split; [reflexivity|]. split; [lia|]. split; [exact Hv|].
      unfold none_places in *. cbn [combine flat_map snd fst app]. rewrite Hn.
      reflexivity.
    + cbn [List.length] in Hc.
      assert (Hlt : (idx < List.length (ping_times st))%nat) by lia.
      apply Nat.ltb_lt in Hlt. rewrite Hlt.
      apply Nat.ltb_lt in Hlt.
      destruct (nth_error (ping_times st) idx) as [v|] eqn:Ev;
        [|apply nth_error_None in Ev; lia].
      assert (Hc' : (S idx + List.length
                (filter (fun i => negb (existsb (Z.eqb i) (lost_packets st))) rest))%nat
              = List.length (ping_times st)) by lia.
      destruct (IH (y ++ [Some v]) (S idx) Hc') as [ys [Hf [Hl [Hv Hn]]]].
      exists (Some v :: ys). rewrite Hf, <- app_assoc. cbn [app List.length].
      split; [reflexivity|]. split; [lia|]. split.
      * unfold some_values in *. cbn [flat_map app]. rewrite Hv.
        clear - Ev. revert idx Ev. induction (ping_times st) as [|a l IHl]; intros idx Ev.
        -- destruct idx; discriminate.
        -- destruct idx as [|idx].
           ++ cbn in Ev. inversion Ev. reflexivity.
           ++ cbn [nth_error] in Ev. cbn [skipn]. exact (IHl idx Ev).
      * unfold none_places in *. cbn [combine flat_map snd fst app]. exact Hn.
Qed.

(** X24 (q7/script.py lines 103-122, 166-180, 186-195).  If every line
    counted by the parsing loop gave a time or a loss (the counter equals
    the total), the series rebuilt for the plot is the parsed one: [valid_y]
    is [ping_times], the places left empty are exactly [lost_packets], and
    [y] has one entry per ping. *)
Theorem q7_y_restores_parsed_series :
  forall (float : string -> option Q) (lines : list string),
    let st := parse float lines in
    seq_counter st = total_pings st ->
    valid_y st = ping_times st
    /\ lost_x st = lost_packets st
    /\ Z.of_nat (List.length (y_values st)) = total_pings st.
Proof.
  intros float lines st Hc.
  destruct (q7_parse_inv_holds float lines) as [Ht [Hs Hb]]. fold st in Ht, Hs, Hb.
  assert (Hf : filter (fun i => existsb (Z.eqb i) (lost_packets st))
                      (range 1 (total_pings st + 1)) = lost_packets st).
  { apply filter_range_sorted; [exact Hs|].
    eapply Forall_impl; [|exact Hb]. cbn beta. intros; lia. }
  assert (Hn : (0 + List.length
             (filter (fun i => negb (existsb (Z.eqb i) (lost_packets st)))
                     (range 1 (total_pings st + 1))))%nat
           = List.length (ping_times st)).
  { pose proof (filter_count (fun i => existsb (Z.eqb i) (lost_packets st))
                  (range 1 (total_pings st + 1))) as Hk.
    cbn beta in Hk. rewrite Hf, range_length in Hk. unfold total_pings in *. lia. }
  destruct (q7_y_loop st _ [] 0%nat Hn) as [ys [Hfold [Hl [Hv Hnp]]]].
  unfold valid_y, lost_x, y_values. rewrite Hfold. cbn [fst app].
  split; [exact Hv|]. split.
  - fold (none_places (range 1 (total_pings st + 1)) ys). rewrite Hnp. exact Hf.
  - rewrite Hl, range_length. unfold total_pings. lia.
Qed.

Lemma q7_y_restores_parsed_series_witness :
  seq_counter (parse q7_sample_float q7_sample_lines)
  = total_pings (parse q7_sample_float q7_sample_lines)
  /\ valid_y (parse q7_sample_float q7_sample_lines) = [12; 7.5]
  /\ lost_x (parse q7_sample_float q7_sample_lines) = [2%Z].
Proof.
  assert (H : seq_counter (parse q7_sample_float q7_sample_lines)
              = total_pings (parse q7_sample_float q7_sample_lines))
    by reflexivity.
  split; [exact H|].
  destruct (q7_y_restores_parsed_series q7_sample_float q7_sample_lines H)
    as [Hv [Hl _]].
  split; [rewrite Hv|rewrite Hl]; reflexivity.
Defined.

End Q7Parsing.
